(** * GameUp challenge screen: a shallow embedding of the Challenge Engine

    The development follows the React Native component [ChallengeScreen]
    (target tapping and colour reaction mini-games) and the stats helper
    [updateUserStats] of [gameUtils].

    Modelling conventions.
    - JavaScript numbers that hold milliseconds, scores and counters are [Z].
    - Timer handles returned by [setTimeout]/[setInterval] are [positive]
      (the runtime hands out non-zero ids, so [if (ref.current)] is a test
      against [null]); a ref holding a handle is an [option positive].
    - A React render is a snapshot of every [useState] cell: the record
      [State].  A function defined in the component body is a closure over
      the render that created it, so every handler takes the render [r] it
      reads from and the machine [m] it writes to.  State setters write to
      the machine; reads of state variables always go to [r].
    - The JavaScript timer queue is an explicit list of pending timers whose
      callbacks are first-order descriptions ([Callback]) carrying the render
      they closed over.
    - [Math.random] is an oracle [rnd] read through a cursor.
    - The awaited remote calls run to completion inside the handler; whether
      they throw is decided by two flags of the machine. *)

From Stdlib Require Import ZArith List Bool Lia.
Import ListNotations.
Open Scope Z_scope.

(** ** Constants of the component *)

Definition GAME_DURATION : Z := 30.
Definition MIN_WAIT_TIME : Z := 1000.
Definition MAX_WAIT_TIME : Z := 4000.
Definition MAX_COLOR_ROUNDS : Z := 10.
Definition COLOR_SCORE_XP_DIVISOR : Z := 10.
Definition XP_PER_SCORE_POINT : Z := 10.
Definition XP_PER_LEVEL : Z := 1000.
Definition TARGET_LIFETIME : Z := 3000.
Definition SPAWN_PERIOD : Z := 1500.
Definition COUNTDOWN_PERIOD : Z := 1000.
Definition MISS_DELAY : Z := 3000.
Definition ROUND_DELAY : Z := 1500.

(** ** Scoring function *)

(** [calculateReactionScore]: 0 from one second on, otherwise
    [Math.max(0, Math.floor((1000 - t) / 10))]. [Z.div] rounds towards
    minus infinity, as [Math.floor] does. *)
Definition calculateReactionScore (reactionTimeMs : Z) : Z :=
  if reactionTimeMs >=? 1000 then 0
  else Z.max 0 ((1000 - reactionTimeMs) / 10).

(** ** Remote statistics ([gameUtils]) *)

Record Stats := mkStats {
  totalXP : Z;
  level : Z;
  bestScore : Z;
  challengesCompleted : Z;
  weeklyXP : Z;
  lastChallengeDate : option Z
}.

Definition defaultStats : Stats := mkStats 0 1 0 0 0 None.

Record StatsResult := mkStatsResult {
  r_level : Z;
  r_totalXP : Z;
  xpGained : Z;
  r_bestScore : Z;
  r_challengesCompleted : Z;
  r_weeklyXP : Z
}.

Definition MS_PER_DAY : Z := 1000 * 60 * 60 * 24.

(** [updateUserStats] on the stored document [cur] ([None] when the
    document does not exist) at wall-clock time [nowMs]. The test
    [daysSinceLastChallenge > 7] divides a difference of milliseconds by
    the length of a day; it is stated on the milliseconds. *)
Definition updateUserStats (cur : option Stats) (nowMs : Z) (score : Z)
  : Stats * StatsResult :=
  let xp := score * XP_PER_SCORE_POINT in
  let currentStats := match cur with Some s => s | None => defaultStats end in
  let newTotalXP := totalXP currentStats + xp in
  let newLevel := newTotalXP / XP_PER_LEVEL + 1 in
  let newBestScore := Z.max (bestScore currentStats) score in
  let newChallengesCompleted := challengesCompleted currentStats + 1 in
  let newWeek :=
    match lastChallengeDate currentStats with
    | Some d => 7 * MS_PER_DAY <? nowMs - d
    | None => true
    end in
  let newWeeklyXP := if newWeek then xp else weeklyXP currentStats + xp in
  (mkStats newTotalXP newLevel newBestScore newChallengesCompleted
           newWeeklyXP (Some nowMs),
   mkStatsResult newLevel newTotalXP xp newBestScore
                 newChallengesCompleted newWeeklyXP).

(** [initializeUserProfile] creates the document only when it is absent. *)
Definition initializeUserProfile (cur : option Stats) : option Stats :=
  match cur with
  | Some s => Some s
  | None => Some defaultStats
  end.

(** ** Component state *)

Inductive ChallengeType := TargetGame | ColorGame.
Inductive Color := Red | Green.

Record Target := mkTarget { t_id : Z; t_x : Z; t_y : Z }.

(** One render of [ChallengeScreen]: the value of each [useState] cell. *)
Record State := mkState {
  score : Z;
  timeLeft : Z;
  targets : list Target;
  circleColor : Color;
  reactionTime : option Z;
  roundsCompleted : Z;
  bestReactionTime : option Z;
  greenTime : option Z;
  isWaiting : bool;
  colorScore : Z;
  isPlaying : bool;
  isPaused : bool;
  gameStarted : bool;
  loading : bool
}.

Definition initialState : State :=
  mkState 0 GAME_DURATION [] Red None 0 None None false 0
          false false false false.

(** The [useRef] cells. *)
Record Refs := mkRefs {
  timerRef : option positive;
  targetSpawnTimerRef : option positive;
  targetIdRef : Z;
  colorTimerRef : option positive;
  waitTimerRef : option positive;
  roundInProgressRef : bool
}.

Definition initialRefs : Refs := mkRefs None None 0 None None false.

(** What a pending timer will run. The render argument is the render whose
    body created the closure. *)
Inductive Callback :=
| CbCountdown (r : State)    (* countdown interval of the first effect *)
| CbSpawn                    (* spawn interval of the second effect *)
| CbExpire (id : Z)          (* anonymous 3000 ms timeout of spawnTarget *)
| CbTurnGreen (r : State)    (* wait timer of startColorRound *)
| CbColorMiss (r : State)    (* auto-fail timer: handleColorMiss *)
| CbEndColorGame (r : State) (* anonymous 1500 ms timeout, last round *)
| CbNextRound (n : Z).       (* anonymous 1500 ms timeout, other rounds *)

Record Timer := mkTimer {
  handle : positive;
  due : Z;
  period : option Z;
  cb : Callback
}.

(** Payload shown by the game-over dialogs when a score was saved. *)
Record Shown := mkShown {
  shownScore : Z;
  shownRounds : Z;
  shownXp : Z
}.

Inductive Alert :=
| AlertChallengeComplete (sc xp lvl : Z)   (* endGame, target mode *)
| AlertColorComplete (sc xp lvl : Z)       (* endColorGame *)
| AlertTooEarly (saved : option Shown)     (* handleColorFail *)
| AlertTooLate (saved : option Shown)      (* handleColorMiss *)
| AlertSaveError
| AlertPauseGame.                          (* handleBack while playing *)

(** The component instance together with the part of the world it talks
    to: the timer queue, the clock, the random source, the signed-in user
    and the remote statistics document. *)
Record Machine := mkMachine {
  challengeType : ChallengeType;
  st : State;
  refs : Refs;
  eff1 : State;            (* render in which each effect last ran *)
  eff2 : State;
  eff3 : State;
  mounted : bool;
  now : Z;
  timers : list Timer;
  nextHandle : positive;
  rnd : nat -> Z;
  rix : nat;
  currentUser : bool;      (* firebase_auth.currentUser is non-null *)
  initOk : bool;           (* initializeUserProfile does not throw *)
  updateOk : bool;         (* updateUserStats does not throw *)
  stats : option Stats;
  reports : list Z;        (* scores passed to updateUserStats, in order *)
  alerts : list Alert
}.

(** ** State setters

    One function per [useState] setter used by the source. A setter
    replaces one cell of the pending state; React drops updates sent to a
    component that is no longer mounted. *)

Definition with_score v (s : State) :=
  mkState v (timeLeft s) (targets s) (circleColor s) (reactionTime s)
    (roundsCompleted s) (bestReactionTime s) (greenTime s) (isWaiting s)
    (colorScore s) (isPlaying s) (isPaused s) (gameStarted s) (loading s).
Definition with_timeLeft v (s : State) :=
  mkState (score s) v (targets s) (circleColor s) (reactionTime s)
    (roundsCompleted s) (bestReactionTime s) (greenTime s) (isWaiting s)
    (colorScore s) (isPlaying s) (isPaused s) (gameStarted s) (loading s).
Definition with_targets v (s : State) :=
  mkState (score s) (timeLeft s) v (circleColor s) (reactionTime s)
    (roundsCompleted s) (bestReactionTime s) (greenTime s) (isWaiting s)
    (colorScore s) (isPlaying s) (isPaused s) (gameStarted s) (loading s).
Definition with_circleColor v (s : State) :=
  mkState (score s) (timeLeft s) (targets s) v (reactionTime s)
    (roundsCompleted s) (bestReactionTime s) (greenTime s) (isWaiting s)
    (colorScore s) (isPlaying s) (isPaused s) (gameStarted s) (loading s).
Definition with_reactionTime v (s : State) :=
  mkState (score s) (timeLeft s) (targets s) (circleColor s) v
    (roundsCompleted s) (bestReactionTime s) (greenTime s) (isWaiting s)
    (colorScore s) (isPlaying s) (isPaused s) (gameStarted s) (loading s).
Definition with_roundsCompleted v (s : State) :=
  mkState (score s) (timeLeft s) (targets s) (circleColor s) (reactionTime s)
    v (bestReactionTime s) (greenTime s) (isWaiting s)
    (colorScore s) (isPlaying s) (isPaused s) (gameStarted s) (loading s).
Definition with_bestReactionTime v (s : State) :=
  mkState (score s) (timeLeft s) (targets s) (circleColor s) (reactionTime s)
    (roundsCompleted s) v (greenTime s) (isWaiting s)
    (colorScore s) (isPlaying s) (isPaused s) (gameStarted s) (loading s).
Definition with_greenTime v (s : State) :=
  mkState (score s) (timeLeft s) (targets s) (circleColor s) (reactionTime s)
    (roundsCompleted s) (bestReactionTime s) v (isWaiting s)
    (colorScore s) (isPlaying s) (isPaused s) (gameStarted s) (loading s).
Definition with_isWaiting v (s : State) :=
  mkState (score s) (timeLeft s) (targets s) (circleColor s) (reactionTime s)
    (roundsCompleted s) (bestReactionTime s) (greenTime s) v
    (colorScore s) (isPlaying s) (isPaused s) (gameStarted s) (loading s).
Definition with_colorScore v (s : State) :=
  mkState (score s) (timeLeft s) (targets s) (circleColor s) (reactionTime s)
    (roundsCompleted s) (bestReactionTime s) (greenTime s) (isWaiting s)
    v (isPlaying s) (isPaused s) (gameStarted s) (loading s).
Definition with_isPlaying v (s : State) :=
  mkState (score s) (timeLeft s) (targets s) (circleColor s) (reactionTime s)
    (roundsCompleted s) (bestReactionTime s) (greenTime s) (isWaiting s)
    (colorScore s) v (isPaused s) (gameStarted s) (loading s).
Definition with_isPaused v (s : State) :=
  mkState (score s) (timeLeft s) (targets s) (circleColor s) (reactionTime s)
    (roundsCompleted s) (bestReactionTime s) (greenTime s) (isWaiting s)
    (colorScore s) (isPlaying s) v (gameStarted s) (loading s).
Definition with_gameStarted v (s : State) :=
  mkState (score s) (timeLeft s) (targets s) (circleColor s) (reactionTime s)
    (roundsCompleted s) (bestReactionTime s) (greenTime s) (isWaiting s)
    (colorScore s) (isPlaying s) (isPaused s) v (loading s).
Definition with_loading v (s : State) :=
  mkState (score s) (timeLeft s) (targets s) (circleColor s) (reactionTime s)
    (roundsCompleted s) (bestReactionTime s) (greenTime s) (isWaiting s)
    (colorScore s) (isPlaying s) (isPaused s) (gameStarted s) v.

Definition put_st (s : State) (m : Machine) : Machine :=
  mkMachine (challengeType m) s (refs m) (eff1 m) (eff2 m) (eff3 m)
    (mounted m) (now m) (timers m) (nextHandle m) (rnd m) (rix m)
    (currentUser m) (initOk m) (updateOk m) (stats m) (reports m) (alerts m).
Definition put_refs (x : Refs) (m : Machine) : Machine :=
  mkMachine (challengeType m) (st m) x (eff1 m) (eff2 m) (eff3 m)
    (mounted m) (now m) (timers m) (nextHandle m) (rnd m) (rix m)
    (currentUser m) (initOk m) (updateOk m) (stats m) (reports m) (alerts m).
Definition put_eff1 (s : State) (m : Machine) : Machine :=
  mkMachine (challengeType m) (st m) (refs m) s (eff2 m) (eff3 m)
    (mounted m) (now m) (timers m) (nextHandle m) (rnd m) (rix m)
    (currentUser m) (initOk m) (updateOk m) (stats m) (reports m) (alerts m).
Definition put_eff2 (s : State) (m : Machine) : Machine :=
  mkMachine (challengeType m) (st m) (refs m) (eff1 m) s (eff3 m)
    (mounted m) (now m) (timers m) (nextHandle m) (rnd m) (rix m)
    (currentUser m) (initOk m) (updateOk m) (stats m) (reports m) (alerts m).
Definition put_eff3 (s : State) (m : Machine) : Machine :=
  mkMachine (challengeType m) (st m) (refs m) (eff1 m) (eff2 m) s
    (mounted m) (now m) (timers m) (nextHandle m) (rnd m) (rix m)
    (currentUser m) (initOk m) (updateOk m) (stats m) (reports m) (alerts m).
Definition put_mounted (b : bool) (m : Machine) : Machine :=
  mkMachine (challengeType m) (st m) (refs m) (eff1 m) (eff2 m) (eff3 m)
    b (now m) (timers m) (nextHandle m) (rnd m) (rix m)
    (currentUser m) (initOk m) (updateOk m) (stats m) (reports m) (alerts m).
Definition put_now (t : Z) (m : Machine) : Machine :=
  mkMachine (challengeType m) (st m) (refs m) (eff1 m) (eff2 m) (eff3 m)
    (mounted m) t (timers m) (nextHandle m) (rnd m) (rix m)
    (currentUser m) (initOk m) (updateOk m) (stats m) (reports m) (alerts m).
Definition put_timers (l : list Timer) (m : Machine) : Machine :=
  mkMachine (challengeType m) (st m) (refs m) (eff1 m) (eff2 m) (eff3 m)
    (mounted m) (now m) l (nextHandle m) (rnd m) (rix m)
    (currentUser m) (initOk m) (updateOk m) (stats m) (reports m) (alerts m).
Definition put_nextHandle (h : positive) (m : Machine) : Machine :=
  mkMachine (challengeType m) (st m) (refs m) (eff1 m) (eff2 m) (eff3 m)
    (mounted m) (now m) (timers m) h (rnd m) (rix m)
    (currentUser m) (initOk m) (updateOk m) (stats m) (reports m) (alerts m).
Definition put_rix (i : nat) (m : Machine) : Machine :=
  mkMachine (challengeType m) (st m) (refs m) (eff1 m) (eff2 m) (eff3 m)
    (mounted m) (now m) (timers m) (nextHandle m) (rnd m) i
    (currentUser m) (initOk m) (updateOk m) (stats m) (reports m) (alerts m).
Definition put_stats (x : option Stats) (m : Machine) : Machine :=
  mkMachine (challengeType m) (st m) (refs m) (eff1 m) (eff2 m) (eff3 m)
    (mounted m) (now m) (timers m) (nextHandle m) (rnd m) (rix m)
    (currentUser m) (initOk m) (updateOk m) x (reports m) (alerts m).
Definition put_reports (l : list Z) (m : Machine) : Machine :=
  mkMachine (challengeType m) (st m) (refs m) (eff1 m) (eff2 m) (eff3 m)
    (mounted m) (now m) (timers m) (nextHandle m) (rnd m) (rix m)
    (currentUser m) (initOk m) (updateOk m) (stats m) l (alerts m).
Definition put_alerts (l : list Alert) (m : Machine) : Machine :=
  mkMachine (challengeType m) (st m) (refs m) (eff1 m) (eff2 m) (eff3 m)
    (mounted m) (now m) (timers m) (nextHandle m) (rnd m) (rix m)
    (currentUser m) (initOk m) (updateOk m) (stats m) (reports m) l.

(** A [useState] setter: [f] is the update applied to the pending state. *)
Definition setState (f : State -> State) (m : Machine) : Machine :=
  if mounted m then put_st (f (st m)) m else m.

Definition setScore v := setState (with_score v).
Definition setTimeLeft v := setState (with_timeLeft v).
Definition setTargets v := setState (with_targets v).
Definition setCircleColor v := setState (with_circleColor v).
Definition setReactionTime v := setState (with_reactionTime v).
Definition setRoundsCompleted v := setState (with_roundsCompleted v).
Definition setBestReactionTime v := setState (with_bestReactionTime v).
Definition setGreenTime v := setState (with_greenTime v).
Definition setIsWaiting v := setState (with_isWaiting v).
Definition setColorScore v := setState (with_colorScore v).
Definition setIsPlaying v := setState (with_isPlaying v).
Definition setIsPaused v := setState (with_isPaused v).
Definition setGameStarted v := setState (with_gameStarted v).
Definition setLoading v := setState (with_loading v).

(** ** Refs and the timer queue *)

Inductive Slot := TimerRef | TargetSpawnTimerRef | ColorTimerRef | WaitTimerRef.

Definition getSlot (k : Slot) (x : Refs) : option positive :=
  match k with
  | TimerRef => timerRef x
  | TargetSpawnTimerRef => targetSpawnTimerRef x
  | ColorTimerRef => colorTimerRef x
  | WaitTimerRef => waitTimerRef x
  end.

Definition setSlot (k : Slot) (v : option positive) (x : Refs) : Refs :=
  match k with
  | TimerRef =>
      mkRefs v (targetSpawnTimerRef x) (targetIdRef x) (colorTimerRef x)
             (waitTimerRef x) (roundInProgressRef x)
  | TargetSpawnTimerRef =>
      mkRefs (timerRef x) v (targetIdRef x) (colorTimerRef x)
             (waitTimerRef x) (roundInProgressRef x)
  | ColorTimerRef =>
      mkRefs (timerRef x) (targetSpawnTimerRef x) (targetIdRef x) v
             (waitTimerRef x) (roundInProgressRef x)
  | WaitTimerRef =>
      mkRefs (timerRef x) (targetSpawnTimerRef x) (targetIdRef x)
             (colorTimerRef x) v (roundInProgressRef x)
  end.

Definition setTargetId (v : Z) (x : Refs) : Refs :=
  mkRefs (timerRef x) (targetSpawnTimerRef x) v (colorTimerRef x)
         (waitTimerRef x) (roundInProgressRef x).

Definition setRoundInProgress (v : bool) (m : Machine) : Machine :=
  put_refs (mkRefs (timerRef (refs m)) (targetSpawnTimerRef (refs m))
                   (targetIdRef (refs m)) (colorTimerRef (refs m))
                   (waitTimerRef (refs m)) v) m.

(** [setTimeout]/[setInterval]: queue a timer and return its handle. *)
Definition schedule (delay : Z) (p : option Z) (c : Callback) (m : Machine)
  : positive * Machine :=
  let h := nextHandle m in
  (h, put_nextHandle (Pos.succ h)
        (put_timers (timers m ++ [mkTimer h (now m + delay) p c]) m)).

Definition setTimeout (c : Callback) (delay : Z) (m : Machine) :=
  schedule delay None c m.
Definition setInterval (c : Callback) (delay : Z) (m : Machine) :=
  schedule delay (Some delay) c m.

(** [clearTimeout]/[clearInterval] (one id space): drop the timer. *)
Definition clearTimer (h : positive) (m : Machine) : Machine :=
  put_timers (filter (fun t => negb (Pos.eqb (handle t) h)) (timers m)) m.

(** [clearTimeoutRef] and [clearIntervalRef] have the same body. *)
Definition clearRef (k : Slot) (m : Machine) : Machine :=
  match getSlot k (refs m) with
  | Some h => put_refs (setSlot k None (refs m)) (clearTimer h m)
  | None => m
  end.

Definition clearTimeoutRef := clearRef.
Definition clearIntervalRef := clearRef.

(** [Math.random]-based draws come from the oracle. *)
Definition draw (m : Machine) : Z * Machine :=
  (rnd m (rix m), put_rix (S (rix m)) m).

Definition pushAlert (a : Alert) (m : Machine) : Machine :=
  put_alerts (alerts m ++ [a]) m.

(** JavaScript truthiness of a nullable number. *)
Definition truthy (o : option Z) : bool :=
  match o with
  | Some z => negb (z =? 0)
  | None => false
  end.

(** ** Remote calls made by the end-of-game handlers *)

(** [await initializeUserProfile(user.uid, user.email)]: [None] when the
    call throws. *)
Definition callInitializeUserProfile (m : Machine) : option Machine :=
  if initOk m then Some (put_stats (initializeUserProfile (stats m)) m)
  else None.

(** [await updateUserStats(user.uid, sc)]: the call is recorded in
    [reports]; the result is [None] when the call throws. *)
Definition callUpdateUserStats (sc : Z) (m : Machine)
  : Machine * option StatsResult :=
  let m := put_reports (reports m ++ [sc]) m in
  if updateOk m then
    let u := updateUserStats (stats m) (now m) sc in
    (put_stats (Some (fst u)) m, Some (snd u))
  else (m, None).

(** The [catch] block shared by the handlers. *)
Definition saveFailed (m : Machine) : Machine :=
  setLoading false (pushAlert AlertSaveError m).

(** ** Target tapping *)

(** [spawnTarget]: take the next id, add the target, arm its removal. *)
Definition spawnTarget (m : Machine) : Machine :=
  let id := targetIdRef (refs m) in
  let m := put_refs (setTargetId (id + 1) (refs m)) m in
  let (x, m) := draw m in
  let (y, m) := draw m in
  let newTarget := mkTarget id x y in
  let m := setState (fun s => with_targets (targets s ++ [newTarget]) s) m in
  snd (setTimeout (CbExpire id) TARGET_LIFETIME m).

(** [prev.filter((t) => t.id !== id)] *)
Definition removeTarget (id : Z) (l : list Target) : list Target :=
  filter (fun t => negb (t_id t =? id)) l.

(** The callback of the removal timeout. *)
Definition expireTarget (id : Z) (m : Machine) : Machine :=
  setState (fun s => with_targets (removeTarget id (targets s)) s) m.

Definition handleTargetPress (targetId : Z) (m : Machine) : Machine :=
  let m := setState (fun s => with_score (score s + 1) s) m in
  setState (fun s => with_targets (removeTarget targetId (targets s)) s) m.

(** [endGame], as seen from render [r]. *)
Definition endGame (r : State) (m : Machine) : Machine :=
  let m := setIsPlaying false m in
  let m := setIsPaused false m in
  let m := setTargets [] m in
  let m := clearIntervalRef TimerRef m in
  let m := clearIntervalRef TargetSpawnTimerRef m in
  if currentUser m then
    let m := setLoading true m in
    match callInitializeUserProfile m with
    | Some m =>
        match challengeType m with
        | TargetGame =>
            if score r >? 0 then
              match callUpdateUserStats (score r) m with
              | (m, Some res) =>
                  pushAlert (AlertChallengeComplete (score r) (xpGained res)
                                                    (r_level res)) m
              | (m, None) => saveFailed m
              end
            else setLoading false (setGameStarted false m)
        | ColorGame => setLoading false (setGameStarted false m)
        end
    | None => saveFailed m
    end
  else setGameStarted false m.

(** The countdown interval created by render [r]:
    [setTimeLeft((prev) => { if (prev <= 1) { endGame(); return 0; }
                             return prev - 1; })]. *)
Definition countdownTick (r : State) (m : Machine) : Machine :=
  let prev := timeLeft (st m) in
  if prev <=? 1 then setTimeLeft 0 (endGame r m)
  else setTimeLeft (prev - 1) m.

(** ** Colour reaction *)

Definition resetColorGame (m : Machine) : Machine :=
  let m := setCircleColor Red m in
  let m := setReactionTime None m in
  let m := setRoundsCompleted 0 m in
  let m := setBestReactionTime None m in
  let m := setGreenTime None m in
  let m := setIsWaiting false m in
  let m := setGameStarted false m in
  let m := setColorScore 0 m in
  setRoundInProgress false m.

(** [handleColorFail] and [handleColorMiss] have the same save block up to
    the text of the dialog; [mk] builds the dialog from the saved result. *)
Definition saveColorScore (r : State) (mk : Shown -> Alert) (m : Machine)
  : Machine :=
  let m := setLoading true m in
  match callInitializeUserProfile m with
  | Some m =>
      let normalizedScore := colorScore r / COLOR_SCORE_XP_DIVISOR in
      match callUpdateUserStats normalizedScore m with
      | (m, Some res) =>
          pushAlert (mk (mkShown (colorScore r) (roundsCompleted r)
                                 (xpGained res))) m
      | (m, None) => saveFailed m
      end
  | None => saveFailed m
  end.

Definition handleColorFail (r : State) (m : Machine) : Machine :=
  let m := setIsPlaying false m in
  let m := setGameStarted false m in
  let m := clearTimeoutRef WaitTimerRef m in
  let m := clearTimeoutRef ColorTimerRef m in
  let m := setRoundInProgress false m in
  if colorScore r >? 0 then
    if currentUser m then
      saveColorScore r (fun p => AlertTooEarly (Some p)) m
    else pushAlert (AlertTooEarly None) m
  else pushAlert (AlertTooEarly None) m.

Definition handleColorMiss (r : State) (m : Machine) : Machine :=
  let m := setIsPlaying false m in
  let m := setGameStarted false m in
  let m := clearTimeoutRef WaitTimerRef m in
  let m := setRoundInProgress false m in
  if colorScore r >? 0 then
    if currentUser m then
      saveColorScore r (fun p => AlertTooLate (Some p)) m
    else pushAlert (AlertTooLate None) m
  else pushAlert (AlertTooLate None) m.

(** [endColorGame]: the dialog prints [MAX_COLOR_ROUNDS] for the rounds,
    not the state variable. *)
Definition endColorGame (r : State) (m : Machine) : Machine :=
  let m := setIsPlaying false m in
  let m := setIsPaused false m in
  let m := clearTimeoutRef WaitTimerRef m in
  let m := clearTimeoutRef ColorTimerRef m in
  let m := setRoundInProgress false m in
  if currentUser m && (colorScore r >? 0) then
    let m := setLoading true m in
    match callInitializeUserProfile m with
    | Some m =>
        let normalizedScore := colorScore r / COLOR_SCORE_XP_DIVISOR in
        match callUpdateUserStats normalizedScore m with
        | (m, Some res) =>
            pushAlert (AlertColorComplete (colorScore r) (xpGained res)
                                          (r_level res)) m
        | (m, None) => saveFailed m
        end
    | None => saveFailed m
    end
  else resetColorGame m.

(** The wait timer armed by [startColorRound] in render [r]. *)
Definition turnGreen (r : State) (m : Machine) : Machine :=
  let m := setCircleColor Green m in
  let m := setGreenTime (Some (now m)) m in
  let m := setIsWaiting false m in
  let (h, m) := setTimeout (CbColorMiss r) MISS_DELAY m in
  put_refs (setSlot ColorTimerRef (Some h) (refs m)) m.

(** [startColorRound] of render [r]. The wait is
    [Math.random() * (MAX_WAIT_TIME - MIN_WAIT_TIME) + MIN_WAIT_TIME]; the
    oracle value is brought into the range of the first summand. *)
Definition startColorRound (r : State) (m : Machine) : Machine :=
  let m := setRoundInProgress true m in
  let m := setIsWaiting true m in
  let m := setCircleColor Red m in
  let m := setReactionTime None m in
  let (x, m) := draw m in
  let waitTime := x mod (MAX_WAIT_TIME - MIN_WAIT_TIME) + MIN_WAIT_TIME in
  let (h, m) := setTimeout (CbTurnGreen r) waitTime m in
  put_refs (setSlot WaitTimerRef (Some h) (refs m)) m.

(** The round-advance timeout of a scored round that is not the last. *)
Definition nextRound (newRoundCount : Z) (m : Machine) : Machine :=
  let m := setReactionTime None m in
  let m := setRoundInProgress false m in
  setRoundsCompleted newRoundCount m.

(** [handleColorPress] of render [r]; [Date.now()] is the machine clock. *)
Definition handleColorPress (r : State) (m : Machine) : Machine :=
  match circleColor r with
  | Red => handleColorFail r m
  | Green =>
      if truthy (greenTime r) then
        let clickTime := now m in
        let reaction :=
          clickTime - match greenTime r with Some g => g | None => 0 end in
        let m := setReactionTime (Some reaction) m in
        let pointsEarned := calculateReactionScore reaction in
        let m :=
          setState (fun s => with_colorScore (colorScore s + pointsEarned) s)
                   m in
        let m :=
          if negb (truthy (bestReactionTime r))
             || (reaction <? match bestReactionTime r with
                             | Some b => b
                             | None => 0
                             end)
          then setBestReactionTime (Some reaction) m
          else m in
        let m := clearTimeoutRef ColorTimerRef m in
        let newRoundCount := roundsCompleted r + 1 in
        if newRoundCount >=? MAX_COLOR_ROUNDS then
          snd (setTimeout (CbEndColorGame r) ROUND_DELAY m)
        else
          snd (setTimeout (CbNextRound newRoundCount) ROUND_DELAY m)
      else m
  end.

(** ** Session controls *)

Definition startGame (m : Machine) : Machine :=
  let m :=
    match challengeType m with
    | TargetGame =>
        let m := setScore 0 m in
        let m := setTimeLeft GAME_DURATION m in
        setTargets [] m
    | ColorGame =>
        let m := setCircleColor Red m in
        let m := setReactionTime None m in
        let m := setRoundsCompleted 0 m in
        let m := setBestReactionTime None m in
        let m := setGreenTime None m in
        let m := setIsWaiting false m in
        let m := setColorScore 0 m in
        setRoundInProgress false m
    end in
  let m := setIsPlaying true m in
  let m := setIsPaused false m in
  setGameStarted true m.

Definition pauseGame (m : Machine) : Machine :=
  let m := setIsPaused true m in
  match challengeType m with
  | ColorGame =>
      clearTimeoutRef ColorTimerRef (clearTimeoutRef WaitTimerRef m)
  | TargetGame => m
  end.

Definition resumeGame (m : Machine) : Machine := setIsPaused false m.

(** ** Effects

    The component has three [useEffect] hooks. An effect whose dependency
    array changed between two renders first runs the cleanup returned by
    its previous run (a closure of that earlier render) and then its body
    in the new render. *)

Definition isTarget (m : Machine) : bool :=
  match challengeType m with TargetGame => true | ColorGame => false end.
Definition isColor (m : Machine) : bool := negb (isTarget m).

Definition effect1 (s : State) (m : Machine) : Machine :=
  if isTarget m && isPlaying s && negb (isPaused s) && (timeLeft s >? 0) then
    let (h, m) := setInterval (CbCountdown s) COUNTDOWN_PERIOD m in
    put_refs (setSlot TimerRef (Some h) (refs m)) m
  else clearIntervalRef TimerRef m.

Definition cleanup1 (m : Machine) : Machine := clearIntervalRef TimerRef m.

Definition effect2 (s : State) (m : Machine) : Machine :=
  if isTarget m && isPlaying s && negb (isPaused s) then
    let m := spawnTarget m in
    let (h, m) := setInterval CbSpawn SPAWN_PERIOD m in
    put_refs (setSlot TargetSpawnTimerRef (Some h) (refs m)) m
  else clearIntervalRef TargetSpawnTimerRef m.

Definition cleanup2 (m : Machine) : Machine :=
  clearIntervalRef TargetSpawnTimerRef m.

Definition effect3 (s : State) (m : Machine) : Machine :=
  if isColor m && isPlaying s && negb (isPaused s)
     && negb (roundInProgressRef (refs m))
  then startColorRound s m
  else m.

(** The cleanup of the third effect reads [isPlaying] and [isPaused] of the
    render [s] in which the effect ran. *)
Definition cleanup3 (s : State) (m : Machine) : Machine :=
  if negb (isPlaying s) || isPaused s then
    let m := clearTimeoutRef WaitTimerRef m in
    let m := clearTimeoutRef ColorTimerRef m in
    setRoundInProgress false m
  else m.

Definition deps1_changed (a b : State) : bool :=
  negb (Bool.eqb (isPlaying a) (isPlaying b)
        && Bool.eqb (isPaused a) (isPaused b)
        && (timeLeft a =? timeLeft b)).
Definition deps2_changed (a b : State) : bool :=
  negb (Bool.eqb (isPlaying a) (isPlaying b)
        && Bool.eqb (isPaused a) (isPaused b)).
Definition deps3_changed (a b : State) : bool :=
  negb (Bool.eqb (isPlaying a) (isPlaying b)
        && Bool.eqb (isPaused a) (isPaused b)
        && (roundsCompleted a =? roundsCompleted b)).

(** Re-render after an event: cleanups of the effects whose dependencies
    changed, in order, then their bodies, in order. *)
Definition commit (m : Machine) : Machine :=
  if mounted m then
    let s := st m in
    let c1 := deps1_changed (eff1 m) s in
    let c2 := deps2_changed (eff2 m) s in
    let c3 := deps3_changed (eff3 m) s in
    let m := if c1 then cleanup1 m else m in
    let m := if c2 then cleanup2 m else m in
    let m := if c3 then cleanup3 (eff3 m) m else m in
    let m := if c1 then put_eff1 s (effect1 s m) else m in
    let m := if c2 then put_eff2 s (effect2 s m) else m in
    let m := if c3 then put_eff3 s (effect3 s m) else m in
    m
  else m.

(** Discarding the view ([navigation.goBack()] or any other way the screen
    leaves the stack): every effect's last cleanup runs. *)
Definition unmount (m : Machine) : Machine :=
  if mounted m then
    let m := cleanup1 m in
    let m := cleanup2 m in
    let m := cleanup3 (eff3 m) m in
    put_mounted false m
  else m.

(** A freshly mounted screen. On mount the three effect bodies run in the
    initial render, where none of their conditions holds. *)
Definition mount (ty : ChallengeType) (user : bool) (oracle : nat -> Z)
  : Machine :=
  let m := mkMachine ty initialState initialRefs
             initialState initialState initialState
             true 0 [] 1%positive oracle 0%nat user true true None [] [] in
  put_eff3 initialState (effect3 initialState
    (put_eff2 initialState (effect2 initialState
      (put_eff1 initialState (effect1 initialState m))))).

(** ** Navigation and dialog buttons *)

Definition handleBack (r : State) (m : Machine) : Machine :=
  if isPlaying r then pushAlert AlertPauseGame m else unmount m.

(** The [Leave] button of the dialog opened by [handleBack]. *)
Definition leaveGame (m : Machine) : Machine :=
  let m := setIsPlaying false m in
  let m := setTargets [] m in
  let m := setGameStarted false m in
  let m := clearIntervalRef TimerRef m in
  let m := clearIntervalRef TargetSpawnTimerRef m in
  let m := clearTimeoutRef WaitTimerRef m in
  let m := clearTimeoutRef ColorTimerRef m in
  unmount m.

(** [Play Again] of the target-mode result dialog. *)
Definition playAgain (m : Machine) : Machine :=
  setLoading false (setGameStarted false m).

(** [Try Again] / [Play Again] of the colour dialogs. *)
Definition tryAgain (m : Machine) : Machine :=
  setLoading false (resetColorGame m).

(** [Back to Home] of any result dialog. *)
Definition backToHome (m : Machine) : Machine :=
  setLoading false (unmount m).

(** ** Events *)

Inductive UserAction :=
| Start | PauseBtn | ResumeBtn
| TapTarget (id : Z) | TapCircle
| Back | Leave | PlayAgain | TryAgain | BackToHome.

Definition lastAlert (m : Machine) : option Alert :=
  match rev (alerts m) with
  | a :: _ => Some a
  | [] => None
  end.

(** Whether the rendered view offers the control (from the JSX of the
    component: start card, pause card, targets, circle, header buttons,
    dialog buttons). *)
Definition enabled (a : UserAction) (m : Machine) : bool :=
  let s := st m in
  mounted m &&
  match a with
  | Start => negb (gameStarted s) && negb (loading s)
  | PauseBtn => isPlaying s && negb (isPaused s)
  | ResumeBtn => isPaused s && (isPlaying s || gameStarted s)
  | TapTarget id =>
      isTarget m && gameStarted s && negb (isPaused s)
      && existsb (fun t => t_id t =? id) (targets s)
  | TapCircle => isColor m && gameStarted s && negb (isPaused s)
  | Back => true
  | Leave =>
      match lastAlert m with Some AlertPauseGame => true | _ => false end
  | PlayAgain =>
      match lastAlert m with
      | Some (AlertChallengeComplete _ _ _) => true
      | _ => false
      end
  | TryAgain =>
      match lastAlert m with
      | Some (AlertColorComplete _ _ _) => true
      | Some (AlertTooEarly _) => true
      | Some (AlertTooLate _) => true
      | _ => false
      end
  | BackToHome =>
      match lastAlert m with
      | Some (AlertChallengeComplete _ _ _) => true
      | Some (AlertColorComplete _ _ _) => true
      | Some (AlertTooEarly _) => true
      | Some (AlertTooLate _) => true
      | _ => false
      end
  end.

(** The handler bound to a control in the current render. *)
Definition handle_action (a : UserAction) (m : Machine) : Machine :=
  let r := st m in
  match a with
  | Start => startGame m
  | PauseBtn => pauseGame m
  | ResumeBtn => resumeGame m
  | TapTarget id => handleTargetPress id m
  | TapCircle => handleColorPress r m
  | Back => handleBack r m
  | Leave => leaveGame m
  | PlayAgain => playAgain m
  | TryAgain => tryAgain m
  | BackToHome => backToHome m
  end.

Definition run_callback (c : Callback) (m : Machine) : Machine :=
  match c with
  | CbCountdown r => countdownTick r m
  | CbSpawn => spawnTarget m
  | CbExpire id => expireTarget id m
  | CbTurnGreen r => turnGreen r m
  | CbColorMiss r => handleColorMiss r m
  | CbEndColorGame r => endColorGame r m
  | CbNextRound n => nextRound n m
  end.

(** The pending timer that fires next: the earliest due, the older one
    among equals. *)
Fixpoint next_timer (l : list Timer) : option Timer :=
  match l with
  | [] => None
  | t :: l' =>
      match next_timer l' with
      | Some u => if due u <? due t then Some u else Some t
      | None => Some t
      end
  end.

(** A timeout leaves the queue when it fires; an interval is re-armed. *)
Definition rearm (t : Timer) (l : list Timer) : list Timer :=
  match period t with
  | Some p =>
      map (fun u => if Pos.eqb (handle u) (handle t)
                    then mkTimer (handle u) (due u + p) (period u) (cb u)
                    else u) l
  | None => filter (fun u => negb (Pos.eqb (handle u) (handle t))) l
  end.

Definition fire_timer (t : Timer) (m : Machine) : Machine :=
  let m := put_now (Z.max (now m) (due t)) m in
  let m := put_timers (rearm t (timers m)) m in
  commit (run_callback (cb t) m).

Inductive Event :=
| Fire                              (* the next pending timer fires *)
| Act (dt : Z) (a : UserAction).    (* the user acts [dt] ms later *)

(** One event, run to completion. [None] marks a schedule that cannot
    happen: no timer to fire, a user action on a control that is not on
    screen, or a user action placed after a timer that is due before it. *)
Definition step (e : Event) (m : Machine) : option Machine :=
  match e with
  | Fire =>
      match next_timer (timers m) with
      | Some t => Some (fire_timer t m)
      | None => None
      end
  | Act dt a =>
      let t' := now m + dt in
      let early :=
        match next_timer (timers m) with
        | Some t => due t <? t'
        | None => false
        end in
      if (0 <=? dt) && negb early && enabled a m
      then Some (commit (handle_action a (put_now t' m)))
      else None
  end.

Fixpoint run (es : list Event) (m : Machine) : option Machine :=
  match es with
  | [] => Some m
  | e :: es' =>
      match step e m with
      | Some m' => run es' m'
      | None => None
      end
  end.

(** ** Vocabulary of the specification *)

(** The session lifecycle read off the component's flags. The flags do
    not tell the specification's Idle and Ended apart (both are "not
    playing"), so the two share [Stopped]. *)
Inductive Lifecycle := Stopped | Running | Paused.

Definition lifecycle (s : State) : Lifecycle :=
  if isPlaying s then (if isPaused s then Paused else Running) else Stopped.

(** The specification's [start(mode)]: rejected with [InvalidState]
    ([None]) unless the lifecycle is Idle or Ended, otherwise what the
    component's [startGame] does. *)
Definition start_spec (m : Machine) : option Machine :=
  match lifecycle (st m) with
  | Stopped => Some (startGame m)
  | Running | Paused => None
  end.

Definition liveIds (s : State) : list Z := map t_id (targets s).

Definition isArm (t : Timer) : bool :=
  match cb t with CbTurnGreen _ => true | _ => false end.

Definition isExpiry (t : Timer) : bool :=
  match cb t with CbExpire _ => true | _ => false end.

Definition hasHandle (h : positive) (t : Timer) : bool :=
  Pos.eqb (handle t) h.

(** The timers a ref slot currently points to. *)
Definition slotTimers (k : Slot) (m : Machine) : list Timer :=
  match getSlot k (refs m) with
  | Some h => filter (hasHandle h) (timers m)
  | None => []
  end.

Arguments removeTarget : simpl never.
Arguments calculateReactionScore : simpl never.
Arguments updateUserStats : simpl never.

(** ** Sample sessions used by the examples

    Each sample is the value of the run given in its comment (the lemmas
    named [*_reached] check it). *)

Definition oracle0 : nat -> Z := fun _ => 0.

(** A signed-in player has pressed Start on a fresh target screen. *)
Definition startedTarget : Machine :=
  Eval vm_compute in commit (startGame (mount TargetGame true oracle0)).

(** The same for the colour game: the circle is red and the arm timer is
    pending (the Waiting phase). *)
Definition waitingRound : Machine :=
  Eval vm_compute in commit (startGame (mount ColorGame true oracle0)).

(** The target game half a second later, one target hit. *)
Definition oneHit : Machine :=
  Eval vm_compute in
    commit (handleTargetPress 0 (put_now 500 startedTarget)).

(** What one run of an end-of-game handler passes to [updateUserStats]:
    nothing when its guards fail, otherwise the one score it saves. *)
Definition gameReport (r : State) (m : Machine) : list Z :=
  if currentUser m && initOk m && isTarget m && (score r >? 0)
  then [score r] else [].

Definition colorReport (r : State) (m : Machine) : list Z :=
  if currentUser m && initOk m && (colorScore r >? 0)
  then [colorScore r / COLOR_SCORE_XP_DIVISOR] else [].

(** ** Timers the component does not keep a handle of *)

(** No ref slot holds the handle of [t]. *)
Definition untracked (t : Timer) (m : Machine) : Prop :=
  forall k, getSlot k (refs m) <> Some (handle t).

(** [t] is pending, no slot points to it, and its handle has been handed
    out already (so no later [setTimeout] returns it again). *)
Definition Untouchable (t : Timer) (m : Machine) : Prop :=
  In t (timers m) /\ untracked t m /\ (handle t < nextHandle m)%positive.

Definition Preserving (f : Machine -> Machine) : Prop :=
  forall t m, Untouchable t m -> Untouchable t (f m).

(** The run of the leak example: start a target game, pause after one
    second, leave through the back dialog. *)
Definition pauseThenLeave : list Event :=
  [Act 0 Start; Act 1000 PauseBtn; Act 0 Back; Act 0 Leave].

Definition afterPauseThenLeave : Machine :=
  Eval vm_compute in
    match run pauseThenLeave (mount TargetGame true oracle0) with
    | Some m => m
    | None => mount TargetGame true oracle0
    end.

(** The target game paused one second after Start. *)
Definition pausedTarget : Machine :=
  Eval vm_compute in
    commit (pauseGame (put_now 1000 startedTarget)).

(** The removal timeout of target 0, armed at Start. *)
Definition expiryOfTarget0 : Timer := mkTimer 2 3000 None (CbExpire 0).

(** The part of a render no effect body writes to: the dependencies of
    the three effects and the two scores. *)
Definition core (s : State) : bool * bool * bool * Z * Z * Z * Z :=
  (isPlaying s, isPaused s, gameStarted s, timeLeft s, roundsCompleted s,
   score s, colorScore s).

(** What the rounds of a game leave alone: the signed-in user, the
    outcome of the remote calls, the statistics document and what has
    been reported and shown so far. *)
Definition backend (m : Machine)
  : bool * bool * bool * option Stats * list Z * list Alert :=
  (currentUser m, initOk m, updateOk m, stats m, reports m, alerts m).

(** What a re-render leaves alone: clock, mount flag, mode, the backend
    and the core of the state. *)
Definition stable (m : Machine)
  : Z * bool * ChallengeType
    * (bool * bool * bool * option Stats * list Z * list Alert)
    * (bool * bool * bool * Z * Z * Z * Z) :=
  (now m, mounted m, challengeType m, backend m, core (st m)).

(** ** Shapes of a colour game between events *)

(** Every effect has run in a render with the current dependencies. *)
Definition synced (m : Machine) : Prop :=
  deps1_changed (eff1 m) (st m) = false /\
  deps2_changed (eff2 m) (st m) = false /\
  deps3_changed (eff3 m) (st m) = false.

Definition ColorPlaying (k c : Z) (m : Machine) : Prop :=
  challengeType m = ColorGame /\ mounted m = true /\
  isPlaying (st m) = true /\ isPaused (st m) = false /\
  gameStarted (st m) = true /\ synced m /\
  roundsCompleted (st m) = k /\ colorScore (st m) = c.

(** Waiting: the circle is red and only the arm timer is pending. *)
Definition Waiting (k c : Z) (m : Machine) : Prop :=
  ColorPlaying k c m /\ circleColor (st m) = Red /\ 0 <= now m /\
  exists h d r,
    timers m = [mkTimer h d None (CbTurnGreen r)] /\
    now m + MIN_WAIT_TIME <= d.

(** Armed: the circle turned green just now and only the miss timer is
    pending, its handle in [colorTimerRef]. *)
Definition Armed (k c : Z) (m : Machine) : Prop :=
  ColorPlaying k c m /\ circleColor (st m) = Green /\
  greenTime (st m) = Some (now m) /\ 0 < now m /\
  exists h r,
    timers m = [mkTimer h (now m + MISS_DELAY) None (CbColorMiss r)] /\
    colorTimerRef (refs m) = Some h.

(** A scored round that is not the last one, during its display delay. *)
Definition Resolved (k c : Z) (m : Machine) : Prop :=
  ColorPlaying k c m /\ 0 <= now m /\
  exists h, timers m = [mkTimer h (now m + ROUND_DELAY) None
                                (CbNextRound (k + 1))].


(** One scored round: the arm timer fires, the player taps [l] ms after
    the circle turned green, the display delay runs out. *)
Definition scoredRound (l : Z) : list Event := [Fire; Act l TapCircle; Fire].

Definition scoredRounds (ls : list Z) : list Event :=
  flat_map scoredRound ls.

(** Sum of the points of a list of reaction times. *)
Definition points (ls : list Z) : Z :=
  fold_right (fun l acc => calculateReactionScore l + acc) 0 ls.

(** A reaction time that is a tap on green before the miss timer. *)
Definition inTime (l : Z) : Prop := 0 <= l <= MISS_DELAY.

(** ** Colour game shapes that remember the closure of the pending timer *)

(** Waiting, with the arm timer's handle in [waitTimerRef] and its closure
    a render of this round. *)
Definition WaitingFor (k c : Z) (m : Machine) : Prop :=
  Waiting k c m /\
  exists h d r,
    timers m = [mkTimer h d None (CbTurnGreen r)] /\
    waitTimerRef (refs m) = Some h /\
    roundInProgressRef (refs m) = true /\
    roundsCompleted r = k /\ colorScore r = c.

(** Armed, the miss timer closing over a render of this round. *)
Definition ArmedFor (k c : Z) (m : Machine) : Prop :=
  Armed k c m /\
  exists h r,
    timers m = [mkTimer h (now m + MISS_DELAY) None (CbColorMiss r)] /\
    roundInProgressRef (refs m) = true /\
    roundsCompleted r = k /\ colorScore r = c.



(** What the game-over dialog shows for the render [r] when the score was
    saved: score and rounds of that render, and ten XP per saved point. *)
Definition shownFor (r : State) (m : Machine) : option Shown :=
  if currentUser m && (colorScore r >? 0)
  then Some (mkShown (colorScore r) (roundsCompleted r)
               (colorScore r / COLOR_SCORE_XP_DIVISOR * XP_PER_SCORE_POINT))
  else None.


(** The renders the three effects last ran in. *)
Definition effs (m : Machine) : State * State * State :=
  (eff1 m, eff2 m, eff3 m).

(** * gameUtils: profiles, statistics, friends and recommendations

    The helper module keeps two Firestore collections, [users] and
    [userStats], and an AsyncStorage cache of the statistics it has read.

    Modelling conventions.
    - A collection is an association list from document id to document,
      in the order in which a query enumerates it. [setDoc] replaces the
      document with the given id or adds it at the end; [updateDoc] is
      rejected when the document does not exist (Firestore's contract).
    - Document ids, user names and e-mail addresses are strings.
    - The fields [createdAt] and [updatedAt] are written but never read;
      they are left out. A stored date is its time in milliseconds.
    - [Date.now()] is an argument of the function that reads it.
    - A function that awaits remote calls returns the store it leaves
      behind together with its result; a thrown error is [inl]. Writes
      made before the [throw] stay in the store. *)

From Stdlib Require String Ascii.
From Stdlib Require Import Permutation Sorted.

Module GameUtils.

Import Ascii String.

Definition UserId : Type := string.

Record UserDoc := mkUserDoc {
  email : string;
  username : string;
  u_level : Z;
  u_totalXP : Z;
  u_challengesCompleted : Z;
  u_bestScore : Z;
  friends : list UserId;
  u_lastChallengeDate : option Z
}.

(** AsyncStorage entry [{ data, timestamp }]. *)
Record Cached := mkCached {
  c_data : Stats;
  c_timestamp : Z
}.

Record Store := mkStore {
  users : list (UserId * UserDoc);
  userStats : list (UserId * Stats);
  cache : list (UserId * Cached)
}.

Definition emptyStore : Store := mkStore [] [] [].

Definition put_users (x : list (UserId * UserDoc)) (w : Store) : Store :=
  mkStore x (userStats w) (cache w).
Definition put_userStats (x : list (UserId * Stats)) (w : Store) : Store :=
  mkStore (users w) x (cache w).
Definition put_cache (x : list (UserId * Cached)) (w : Store) : Store :=
  mkStore (users w) (userStats w) x.

(** ** Documents by id *)

Fixpoint getDoc {A : Type} (id : UserId) (l : list (UserId * A)) : option A :=
  match l with
  | [] => None
  | (k, v) :: l' => if String.eqb k id then Some v else getDoc id l'
  end.

Fixpoint setDoc {A : Type} (id : UserId) (v : A) (l : list (UserId * A))
  : list (UserId * A) :=
  match l with
  | [] => [(id, v)]
  | (k, v') :: l' =>
      if String.eqb k id then (k, v) :: l' else (k, v') :: setDoc id v l'
  end.

(** [AsyncStorage.removeItem] *)
Definition removeItem {A : Type} (id : UserId) (l : list (UserId * A))
  : list (UserId * A) :=
  filter (fun p => negb (String.eqb (fst p) id)) l.

Inductive Error :=
| UserNotFound          (* 'User not found' *)
| CannotAddYourself     (* 'Cannot add yourself as a friend' *)
| AlreadyFriend         (* 'User is already your friend' *)
| NoSuchDocument.       (* updateDoc on a document that does not exist *)

(** ** initializeUserProfile *)

(** [email.split('@')[0]]: the part before the first [@]. *)
Fixpoint defaultUsername (em : string) : string :=
  match em with
  | EmptyString => EmptyString
  | String c rest =>
      if Ascii.eqb c "@"%char then EmptyString
      else String c (defaultUsername rest)
  end.

Definition newUserDoc (em : string) : UserDoc :=
  mkUserDoc em (defaultUsername em) 1 0 0 0 [] None.

Definition newStats : Stats := mkStats 0 1 0 0 0 None.

Definition initializeUserProfile (userId : UserId) (em : string) (w : Store)
  : Store :=
  match getDoc userId (users w) with
  | Some _ => w
  | None =>
      let w := put_users (setDoc userId (newUserDoc em) (users w)) w in
      put_userStats (setDoc userId newStats (userStats w)) w
  end.

(** ** getUserStats *)

Definition CACHE_LIFETIME : Z := 5 * 60 * 1000.

Definition getUserStats (userId : UserId) (nowMs : Z) (w : Store)
  : Store * Stats :=
  let fetch :=
    match getDoc userId (userStats w) with
    | Some data =>
        (put_cache (setDoc userId (mkCached data nowMs) (cache w)) w, data)
    | None => (w, defaultStats)
    end in
  match getDoc userId (cache w) with
  | Some cachedData =>
      if nowMs - c_timestamp cachedData <? CACHE_LIFETIME
      then (w, c_data cachedData)
      else fetch
  | None => fetch
  end.

(** ** updateUserStats *)

(** The second [updateDoc]: the user document takes over four numbers and
    the date of the statistics. *)
Definition syncUserDoc (s : Stats) (d : UserDoc) : UserDoc :=
  mkUserDoc (email d) (username d) (level s) (totalXP s)
            (challengesCompleted s) (bestScore s) (friends d)
            (lastChallengeDate s).

(** The computation is the function [updateUserStats] of the challenge
    screen's model; here it runs against the store. *)
Definition updateUserStats (userId : UserId) (score : Z) (nowMs : Z)
  (w : Store) : Store * (Error + StatsResult) :=
  let cur := getDoc userId (userStats w) in
  let u := updateUserStats cur nowMs score in
  match cur with
  | None => (w, inl NoSuchDocument)
  | Some _ =>
      let w := put_userStats (setDoc userId (fst u) (userStats w)) w in
      match getDoc userId (users w) with
      | None => (w, inl NoSuchDocument)
      | Some d =>
          let w := put_users (setDoc userId (syncUserDoc (fst u) d) (users w))
                             w in
          let w := put_cache (removeItem userId (cache w)) w in
          (w, inr (snd u))
      end
  end.

(** ** getLeaderboard, friends branch *)





(** ** addFriendByUsername *)

Definition with_friends (l : list UserId) (d : UserDoc) : UserDoc :=
  mkUserDoc (email d) (username d) (u_level d) (u_totalXP d)
            (u_challengesCompleted d) (u_bestScore d) l
            (u_lastChallengeDate d).

(** [query(usersRef, where('username', '==', username))] *)
Definition whereUsername (name : string) (l : list (UserId * UserDoc))
  : list (UserId * UserDoc) :=
  filter (fun p => String.eqb (username (snd p)) name) l.

(** [currentFriends.includes(friendId)] *)
Definition includes (l : list UserId) (id : UserId) : bool :=
  existsb (String.eqb id) l.

Definition addFriendByUsername (userId : UserId) (name : string) (w : Store)
  : Store * (Error + UserDoc) :=
  match whereUsername name (users w) with
  | [] => (w, inl UserNotFound)
  | (friendId, friendDoc) :: _ =>
      if String.eqb friendId userId then (w, inl CannotAddYourself)
      else
        let userSnap := getDoc userId (users w) in
        let currentFriends :=
          match userSnap with Some d => friends d | None => [] end in
        if includes currentFriends friendId then (w, inl AlreadyFriend)
        else
          match userSnap with
          | Some d =>
              (put_users
                 (setDoc userId (with_friends (currentFriends ++ [friendId]) d)
                         (users w)) w,
               inr friendDoc)
          | None => (w, inl NoSuchDocument)
          end
  end.

(** ** getNextChallenge *)

Inductive Challenge := TargetTapping | ColorReaction | PrecisionAim.

Definition challenges : list Challenge :=
  [TargetTapping; ColorReaction; PrecisionAim].

(** [challenges[challengesCompleted % challenges.length]]; [%] truncates
    towards zero, and an index outside the array gives [undefined]. *)
Definition getNextChallenge (userId : UserId) (nowMs : Z) (w : Store)
  : Store * option Challenge :=
  let (w, stats) := getUserStats userId nowMs w in
  let challengeIndex :=
    Z.rem (challengesCompleted stats) (Z.of_nat (List.length challenges)) in
  (w, if challengeIndex <? 0 then None
      else nth_error challenges (Z.to_nat challengeIndex)).

(** ** Levels *)

Definition getXPForNextLevel (currentLevel : Z) : Z :=
  currentLevel * XP_PER_LEVEL.

(** [getXPProgress] without its [progress] field, a floating-point
    percentage. *)
Record XPProgress := mkXPProgress {
  current : Z;
  needed : Z
}.

Definition getXPProgress (total lvl : Z) : XPProgress :=
  let xpForCurrentLevel := (lvl - 1) * XP_PER_LEVEL in
  let xpInCurrentLevel := total - xpForCurrentLevel in
  mkXPProgress xpInCurrentLevel XP_PER_LEVEL.

(** ** Sequences of calls *)

Inductive Call :=
| CallInitializeUserProfile (userId : UserId) (em : string)
| CallGetUserStats (userId : UserId) (nowMs : Z)
| CallUpdateUserStats (userId : UserId) (score nowMs : Z)
| CallAddFriendByUsername (userId : UserId) (name : string)
| CallGetNextChallenge (userId : UserId) (nowMs : Z).

(** The store a call leaves behind. *)
Definition call (c : Call) (w : Store) : Store :=
  match c with
  | CallInitializeUserProfile userId em => initializeUserProfile userId em w
  | CallGetUserStats userId nowMs => fst (getUserStats userId nowMs w)
  | CallUpdateUserStats userId score nowMs =>
      fst (updateUserStats userId score nowMs w)
  | CallAddFriendByUsername userId name =>
      fst (addFriendByUsername userId name w)
  | CallGetNextChallenge userId nowMs => fst (getNextChallenge userId nowMs w)
  end.

Definition calls (cs : list Call) (w : Store) : Store :=
  fold_left (fun w c => call c w) cs w.

(** The statistics a reader should see for [userId]. *)
Definition currentStats (userId : UserId) (w : Store) : Stats :=
  match getDoc userId (userStats w) with
  | Some s => s
  | None => defaultStats
  end.

(** The user document repeats the statistics. *)
Definition inSync (d : UserDoc) (s : Stats) : Prop :=
  u_level d = level s /\ u_totalXP d = totalXP s /\
  u_challengesCompleted d = challengesCompleted s /\
  u_bestScore d = bestScore s /\
  u_lastChallengeDate d = lastChallengeDate s.

(** What every store built by the functions of the module satisfies:
    the two documents of a user exist together and agree, a cached entry
    repeats the stored statistics, a friends list has no duplicate, not
    its owner, and only users that exist, and the level is the one the
    total XP gives. *)
Record Consistent (w : Store) : Prop := mkConsistent {
  together : forall id,
    getDoc id (users w) = None <-> getDoc id (userStats w) = None;
  docs_in_sync : forall id d s,
    getDoc id (users w) = Some d -> getDoc id (userStats w) = Some s ->
    inSync d s;
  cache_fresh : forall id c,
    getDoc id (cache w) = Some c ->
    getDoc id (userStats w) = Some (c_data c);
  friends_ok : forall id d,
    getDoc id (users w) = Some d ->
    NoDup (friends d) /\ ~ In id (friends d) /\
    forall f, In f (friends d) -> getDoc f (users w) <> None;
  level_ok : forall id s,
    getDoc id (userStats w) = Some s ->
    level s = totalXP s / XP_PER_LEVEL + 1 /\ 0 <= challengesCompleted s
}.


(** The score a call reports, if it reports one. *)
Definition reportedScore (c : Call) : Z :=
  match c with
  | CallUpdateUserStats _ score _ => score
  | _ => 0
  end.







(** ** Sample data used by the examples *)

Definition alice : UserId := "alice-id"%string.
Definition bob : UserId := "bob-id"%string.
Definition aliceMail : string := "alice@example.org"%string.
Definition bobMail : string := "bob@example.org"%string.

(** Alice and Bob have signed in; Alice has added Bob and finished one
    challenge with 12 points. *)
Definition sampleCalls : list Call :=
  [CallInitializeUserProfile alice aliceMail;
   CallInitializeUserProfile bob bobMail;
   CallAddFriendByUsername alice "bob"%string;
   CallUpdateUserStats alice 12 1000].

End GameUtils.

(** ** Vocabulary of the properties that hold along every run *)

(** What the component can change at the backend: whether somebody is
    signed in, the statistics document, the scores reported. *)
Definition account (m : Machine) : bool * option Stats * list Z :=
  (currentUser m, stats m, reports m).

(** No timer with handle [h] is the one that fires in the run of [es]
    from [m]. *)
Fixpoint neverFires (h : positive) (es : list Event) (m : Machine) : Prop :=
  match es with
  | [] => True
  | e :: es' =>
      match e, next_timer (timers m) with
      | Fire, Some u => handle u <> h
      | _, _ => True
      end /\
      match step e m with
      | Some m' => neverFires h es' m'
      | None => True
      end
  end.

(** A signed-out player scores one round of the colour game and taps too
    early in the second. *)
Definition signedOutSession : list Event :=
  [Act 0 Start; Fire; Act 250 TapCircle; Fire; Act 0 TapCircle].

Definition afterSignedOutSession : Machine :=
  Eval vm_compute in
    match run signedOutSession (mount ColorGame false oracle0) with
    | Some m => m
    | None => mount ColorGame false oracle0
    end.


(** ** Early taps *)

(** The dialog an early tap opens, seen from the render [r]: the
    too-early dialog, with score, rounds and XP when a score was saved;
    the save-error dialog when the positive score of a signed-in player
    could not be saved. *)
Definition earlyTapDialog (r : State) (m : Machine) : Alert :=
  if currentUser m && (colorScore r >? 0) && negb (initOk m && updateOk m)
  then AlertSaveError
  else AlertTooEarly (shownFor r m).

(** The connection to the backend: whether [updateUserStats] goes
    through from now on. *)
Definition put_updateOk (b : bool) (m : Machine) : Machine :=
  mkMachine (challengeType m) (st m) (refs m) (eff1 m) (eff2 m) (eff3 m)
    (mounted m) (now m) (timers m) (nextHandle m) (rnd m) (rix m)
    (currentUser m) (initOk m) b (stats m) (reports m) (alerts m).

(** A signed-in player has scored the first round of a colour game in
    200 ms (80 points); the second round is waiting on red. *)
Definition secondRound : Machine :=
  Eval vm_compute in
    match run [Act 0 Start; Fire; Act 200 TapCircle; Fire]
              (mount ColorGame true oracle0) with
    | Some m => m
    | None => mount ColorGame true oracle0
    end.

(** The same with the connection lost. *)
Definition secondRoundOffline : Machine :=
  Eval vm_compute in put_updateOk false secondRound.

(** The first round is scored; during its display delay the player
    pauses and resumes; then the delay runs out. *)
Definition resumedInDelay : list Event :=
  [Act 0 Start; Fire; Act 200 TapCircle; Act 100 PauseBtn;
   Act 500 ResumeBtn; Fire].

Definition afterResumedInDelay : Machine :=
  Eval vm_compute in
    match run resumedInDelay (mount ColorGame true oracle0) with
    | Some m => m
    | None => mount ColorGame true oracle0
    end.

(** ** Samples for the teardown and for the last round *)


(** Ten rounds of the colour game, each answered 200 ms after green (80
    points a round), up to the tenth tap and up to the end. *)
Definition tenTaps : list Event :=
  Act 0 Start
  :: scoredRounds [200; 200; 200; 200; 200; 200; 200; 200; 200]
  ++ [Fire; Act 200 TapCircle].

Definition afterTenTaps : Machine :=
  Eval vm_compute in
    match run tenTaps (mount ColorGame true oracle0) with
    | Some m => m
    | None => mount ColorGame true oracle0
    end.

Definition afterTenRounds : Machine :=
  Eval vm_compute in
    match step Fire afterTenTaps with
    | Some m => m
    | None => afterTenTaps
    end.


(** ** Ranges and target ids *)

(** The counters of a render are within their ranges. *)
Definition inRange (s : State) : Prop :=
  0 <= score s /\ 0 <= timeLeft s <= GAME_DURATION /\
  0 <= roundsCompleted s < MAX_COLOR_ROUNDS /\ 0 <= colorScore s.

(** A round-advance timeout carries a round number the game can reach. *)
Definition roundOk (c : Callback) : Prop :=
  match c with
  | CbNextRound n => 0 < n < MAX_COLOR_ROUNDS
  | _ => True
  end.

Definition Ranged (m : Machine) : Prop :=
  inRange (st m) /\ Forall (fun t => roundOk (cb t)) (timers m).

(** The targets on screen have distinct ids, all of them handed out
    already: at least 0 and below the counter [n]. *)
Definition idsOk (n : Z) (s : State) : Prop :=
  NoDup (liveIds s) /\ Forall (fun id => 0 <= id < n) (liveIds s).

Definition Tidy (m : Machine) : Prop :=
  idsOk (targetIdRef (refs m)) (st m) /\ 0 <= targetIdRef (refs m).

(** * Properties *)

(** ** Scoring function *)

Lemma calculateReactionScore_late (l : Z) :
  1000 <= l -> calculateReactionScore l = 0.
Proof.
  intros H. unfold calculateReactionScore.
  destruct (Z.geb_spec l 1000) as [_|Hlt]; [reflexivity | lia].
Qed.

Lemma calculateReactionScore_early (l : Z) :
  l < 1000 -> calculateReactionScore l = (1000 - l) / 10.
Proof.
  intros H. unfold calculateReactionScore.
  destruct (Z.geb_spec l 1000) as [Hge|_]; [lia|].
  apply Z.max_r. apply Z.div_pos; lia.
Qed.

Lemma calculateReactionScore_nonneg (l : Z) : 0 <= calculateReactionScore l.
Proof.
  unfold calculateReactionScore.
  destruct (l >=? 1000); [lia | apply Z.le_max_l].
Qed.

(** C3, as the code has it: 0 from 1000 ms on, [floor((1000 - l) / 10)]
    below; never negative; within [0,100] for every non-negative latency;
    positive exactly up to 990 ms, so that the second branch yields 0 on
    991..999 and its range is [0,100], not (0,100]. *)
Theorem calculateReactionScore_spec (l : Z) :
  (1000 <= l -> calculateReactionScore l = 0) /\
  (l < 1000 -> calculateReactionScore l = (1000 - l) / 10) /\
  0 <= calculateReactionScore l /\
  (0 <= l -> calculateReactionScore l <= 100) /\
  (0 < calculateReactionScore l <-> l <= 990).
Proof.
  split; [apply calculateReactionScore_late|].
  split; [apply calculateReactionScore_early|].
  split; [apply calculateReactionScore_nonneg|].
  split.
  - intros H0. destruct (Z_lt_le_dec l 1000) as [Hlt|Hge].
    + rewrite calculateReactionScore_early by assumption.
      apply Z.div_le_upper_bound; lia.
    + rewrite calculateReactionScore_late by assumption. lia.
  - destruct (Z_lt_le_dec l 1000) as [Hlt|Hge].
    + rewrite calculateReactionScore_early by assumption. split.
      * intros Hpos. destruct (Z_le_gt_dec l 990) as [Hle|Hgt]; [assumption|].
        assert ((1000 - l) / 10 = 0) by (apply Z.div_small; lia). lia.
      * intros Hle. apply Z.div_str_pos; lia.
    + rewrite calculateReactionScore_late by assumption. lia.
Qed.

Lemma calculateReactionScore_spec_witness :
  calculateReactionScore 200 = (1000 - 200) / 10 /\
  calculateReactionScore 200 <= 100 /\
  calculateReactionScore 1500 = 0.
Proof.
  destruct (calculateReactionScore_spec 200) as (_ & He & _ & Hu & _).
  destruct (calculateReactionScore_spec 1500) as (Hl & _).
  split; [apply He; lia|]. split; [apply Hu; lia | apply Hl; lia].
Defined.

(** C3 fails as written: 995 ms is below the cap, yet the score is 0,
    which is outside (0,100]. *)
Lemma calculateReactionScore_range_counterexample :
  ~ (995 < 1000 ->
     calculateReactionScore 995 = (1000 - 995) / 10 /\
     0 < calculateReactionScore 995 <= 100).
Proof.
  intros H. assert (H' : 995 < 1000) by lia.
  apply H in H'. destruct H' as [_ [Hpos _]].
  vm_compute in Hpos. discriminate.
Qed.

(** The upper bound needs a non-negative latency. *)
Lemma calculateReactionScore_negative_latency :
  calculateReactionScore (-10) = 101.
Proof. reflexivity. Qed.

(** C4, with the value the code gives at 950 ms. *)
Theorem calculateReactionScore_points :
  calculateReactionScore 950 = 5 /\
  calculateReactionScore 0 = 100 /\
  calculateReactionScore 1000 = 0 /\
  calculateReactionScore 1500 = 0.
Proof. repeat split; reflexivity. Qed.

(** C4 fails as written: the score at 950 ms is not 4. *)
Lemma calculateReactionScore_950_counterexample :
  calculateReactionScore 950 <> 4.
Proof. vm_compute. discriminate. Qed.


(** ** Basic facts about the machine *)

(** Unfold the model down to the arithmetic, list and scoring
    primitives. *)
Ltac model_cbv :=
  cbv - [Z.add Z.sub Z.mul Z.div Z.modulo Z.max Z.gtb Z.geb Z.leb Z.ltb
         Z.eqb Pos.eqb Pos.succ filter app map rev existsb In length
         calculateReactionScore updateUserStats removeTarget].

Ltac model_cbv_in H :=
  cbv - [Z.add Z.sub Z.mul Z.div Z.modulo Z.max Z.gtb Z.geb Z.leb Z.ltb
         Z.eqb Pos.eqb Pos.succ filter app map rev existsb In length
         calculateReactionScore updateUserStats removeTarget] in H.

(** Open a machine into its named fields. Flags and slots a handler
    branches on are split by the caller before the model is unfolded, so
    that no term is duplicated under an undecided test. *)
Ltac open_machine m :=
  destruct m as [mTy mSt mRefs mE1 mE2 mE3 mMt mNow mTm mNh mRnd mRix
                 mCu mIo mUo mStats mRep mAl];
  destruct mRefs as [rTimer rSpawn rTid rColor rWait rRip];
  repeat match goal with
         | H : _ |- _ => progress (model_cbv_in H)
         end.

Ltac split_score_tests :=
  repeat match goal with
         | |- context [if (?a >? ?b) then _ else _] => destruct (a >? b)
         | |- context [andb _ (?a >? ?b)] => destruct (a >? b)
         end.

Lemma removeTarget_not_in (id : Z) (l : list Target) :
  ~ In id (map t_id (removeTarget id l)).
Proof.
  unfold removeTarget. rewrite in_map_iff. intros [t [Hid Hin]].
  apply filter_In in Hin. destruct Hin as [_ Hneq].
  rewrite <- Hid, Z.eqb_refl in Hneq. discriminate.
Qed.

Lemma removeTarget_keeps (id : Z) (l : list Target) (t : Target) :
  In t l -> t_id t <> id -> In t (removeTarget id l).
Proof.
  intros Hin Hne. unfold removeTarget. apply filter_In. split; [assumption|].
  apply Z.eqb_neq in Hne. rewrite Hne. reflexivity.
Qed.

Lemma removeTarget_idem (id : Z) (l : list Target) :
  removeTarget id (removeTarget id l) = removeTarget id l.
Proof.
  unfold removeTarget. induction l as [|t l IH]; [reflexivity|].
  cbn. destruct (t_id t =? id) eqn:E; cbn; [assumption|].
  rewrite E. cbn. f_equal. assumption.
Qed.

Lemma existsb_removed (id : Z) (l : list Target) :
  existsb (fun t => t_id t =? id) (removeTarget id l) = false.
Proof.
  unfold removeTarget. induction l as [|t l IH]; [reflexivity|].
  cbn. destruct (t_id t =? id) eqn:E; cbn; [assumption|].
  rewrite E. assumption.
Qed.

(** ** Target taps (C5) *)

(** C5, as the code has it. A tap adds exactly 1 to the score and removes
    the target, and only it, from the live set. The view then no longer
    offers the target, and the expiry of the removed id changes nothing.
    The handler has no membership test of its own: run again for the
    removed id it leaves the live set alone and adds 1 once more. *)
Theorem handleTargetPress_effect (id : Z) (m : Machine) :
  mounted m = true ->
  score (st (handleTargetPress id m)) = score (st m) + 1 /\
  targets (st (handleTargetPress id m)) = removeTarget id (targets (st m)) /\
  ~ In id (liveIds (st (handleTargetPress id m))) /\
  (forall t, In t (targets (st m)) -> t_id t <> id ->
             In t (targets (st (handleTargetPress id m)))) /\
  enabled (TapTarget id) (handleTargetPress id m) = false /\
  st (expireTarget id (handleTargetPress id m)) = st (handleTargetPress id m) /\
  targets (st (handleTargetPress id (handleTargetPress id m)))
    = targets (st (handleTargetPress id m)) /\
  score (st (handleTargetPress id (handleTargetPress id m)))
    = score (st (handleTargetPress id m)) + 1.
Proof.
  intros Hm. open_machine m. subst. model_cbv.
  repeat split.
  - apply removeTarget_not_in.
  - intros t Hin Hne. apply removeTarget_keeps; assumption.
  - rewrite existsb_removed.
    repeat match goal with
           | |- context [if ?x then _ else _] => destruct x
           end; reflexivity.
  - rewrite removeTarget_idem. reflexivity.
  - apply removeTarget_idem.
Qed.

Lemma handleTargetPress_effect_witness :
  score (st (handleTargetPress 0 startedTarget))
  = score (st startedTarget) + 1.
Proof.
  exact (proj1 (handleTargetPress_effect 0 startedTarget eq_refl)).
Defined.

(** C5 fails as written: target 0 is live, one tap removes it, and the
    handler run a second time for the same id changes the score again. *)
Lemma handleTargetPress_second_tap_counterexample :
  In 0 (liveIds (st startedTarget)) /\
  ~ In 0 (liveIds (st (handleTargetPress 0 startedTarget))) /\
  score (st (handleTargetPress 0 (handleTargetPress 0 startedTarget)))
  <> score (st (handleTargetPress 0 startedTarget)).
Proof.
  split; [vm_compute; left; reflexivity|]. split.
  - vm_compute. intros [].
  - vm_compute. discriminate.
Qed.

Lemma samples_reached :
  run [Act 0 Start] (mount TargetGame true oracle0) = Some startedTarget /\
  run [Act 0 Start] (mount ColorGame true oracle0) = Some waitingRound /\
  run [Act 0 Start; Act 500 (TapTarget 0)] (mount TargetGame true oracle0)
  = Some oneHit.
Proof. split; [|split]; vm_compute; reflexivity. Qed.

(** ** Ref slots and the timer queue *)

Lemma timers_clearRef (k : Slot) (m : Machine) :
  timers (clearRef k m)
  = match getSlot k (refs m) with
    | Some h => filter (fun t => negb (hasHandle h t)) (timers m)
    | None => timers m
    end.
Proof.
  unfold clearRef. destruct (getSlot k (refs m)); reflexivity.
Qed.

Lemma getSlot_clearRef_same (k : Slot) (m : Machine) :
  getSlot k (refs (clearRef k m)) = None.
Proof.
  unfold clearRef. destruct (getSlot k (refs m)) eqn:E; [|assumption].
  destruct k; reflexivity.
Qed.

Lemma getSlot_clearRef_other (k k' : Slot) (m : Machine) :
  k <> k' -> getSlot k' (refs (clearRef k m)) = getSlot k' (refs m).
Proof.
  intros Hne. unfold clearRef. destruct (getSlot k (refs m)); [|reflexivity].
  destruct k, k'; try reflexivity; congruence.
Qed.

Lemma In_clearRef (k : Slot) (m : Machine) (t : Timer) :
  In t (timers (clearRef k m)) <->
  In t (timers m) /\ getSlot k (refs m) <> Some (handle t).
Proof.
  rewrite timers_clearRef. destruct (getSlot k (refs m)) as [h|].
  - rewrite filter_In. unfold hasHandle. split.
    + intros [Hin Hh]. split; [assumption|]. intros E. inversion E; subst.
      rewrite Pos.eqb_refl in Hh. discriminate.
    + intros [Hin Hh]. split; [assumption|].
      destruct (Pos.eqb_spec (handle t) h) as [E|E]; [|reflexivity].
      exfalso. apply Hh. rewrite E. reflexivity.
  - split; [intros H; split; [assumption|discriminate] | intros [H _]; exact H].
Qed.

Lemma slotTimers_clearRef (k : Slot) (m : Machine) :
  slotTimers k (clearRef k m) = [].
Proof. unfold slotTimers. rewrite getSlot_clearRef_same. reflexivity. Qed.

Lemma xpGained_updateUserStats (cur : option Stats) (t sc : Z) :
  xpGained (snd (updateUserStats cur t sc)) = sc * XP_PER_SCORE_POINT.
Proof. reflexivity. Qed.

(** ** Early tap in the colour game (C6) *)

Lemma handleColorFail_timers (r : State) (m : Machine) :
  timers (handleColorFail r m)
  = timers (clearRef ColorTimerRef (clearRef WaitTimerRef m)).
Proof.
  open_machine m. destruct mMt, rWait, rColor, mCu, mIo, mUo;
    unfold handleColorFail; split_score_tests; model_cbv; reflexivity.
Qed.

Lemma handleColorFail_refs (r : State) (m : Machine) :
  waitTimerRef (refs (handleColorFail r m)) = None /\
  colorTimerRef (refs (handleColorFail r m)) = None /\
  roundInProgressRef (refs (handleColorFail r m)) = false.
Proof.
  open_machine m. destruct mMt, rWait, rColor, mCu, mIo, mUo;
    unfold handleColorFail; split_score_tests; model_cbv;
    repeat split; reflexivity.
Qed.

Lemma handleColorFail_state (r : State) (m : Machine) :
  mounted m = true ->
  isPlaying (st (handleColorFail r m)) = false /\
  gameStarted (st (handleColorFail r m)) = false /\
  roundsCompleted (st (handleColorFail r m)) = roundsCompleted (st m) /\
  colorScore (st (handleColorFail r m)) = colorScore (st m).
Proof.
  intros Hm. open_machine m. subst.
  destruct rWait, rColor, mCu, mIo, mUo;
    unfold handleColorFail; split_score_tests; model_cbv;
    repeat split; reflexivity.
Qed.

Lemma handleColorFail_alert (r : State) (m : Machine) :
  alerts (handleColorFail r m) = alerts m ++ [earlyTapDialog r m].
Proof.
  open_machine m. destruct mMt, rWait, rColor, mCu, mIo, mUo;
    unfold handleColorFail, earlyTapDialog, shownFor; split_score_tests;
    model_cbv; reflexivity.
Qed.

Lemma handleColorFail_reports (r : State) (m : Machine) :
  reports (handleColorFail r m) = reports m ++ colorReport r m.
Proof.
  open_machine m. destruct mMt, rWait, rColor, mCu, mIo, mUo;
    unfold handleColorFail, colorReport; split_score_tests; model_cbv;
    rewrite ?app_nil_r; reflexivity.
Qed.

(** C6, as the code has it. With the circle red, a tap runs
    [handleColorFail]: the session stops at once ([isPlaying] and
    [gameStarted] are cleared) and [roundsCompleted] and the score keep
    their values. The timers cancelled are exactly the arm timer whose
    handle [waitTimerRef] holds and the miss timer of [colorTimerRef];
    both refs are empty afterwards and no timer is created. A signed-in
    player's positive score is reported, divided by ten. The dialog is
    [earlyTapDialog]: the too-early dialog (with score, rounds and XP
    when the score was saved), or the save-error dialog alone when the
    save throws. *)
Theorem early_tap_ends_session (m : Machine) :
  mounted m = true ->
  circleColor (st m) = Red ->
  handleColorPress (st m) m = handleColorFail (st m) m /\
  lifecycle (st (handleColorPress (st m) m)) = Stopped /\
  gameStarted (st (handleColorPress (st m) m)) = false /\
  roundsCompleted (st (handleColorPress (st m) m)) = roundsCompleted (st m) /\
  colorScore (st (handleColorPress (st m) m)) = colorScore (st m) /\
  waitTimerRef (refs (handleColorPress (st m) m)) = None /\
  colorTimerRef (refs (handleColorPress (st m) m)) = None /\
  (forall t, In t (timers (handleColorPress (st m) m)) <->
             In t (timers m) /\
             waitTimerRef (refs m) <> Some (handle t) /\
             colorTimerRef (refs m) <> Some (handle t)) /\
  alerts (handleColorPress (st m) m)
  = alerts m ++ [earlyTapDialog (st m) m] /\
  reports (handleColorPress (st m) m)
  = reports m ++ colorReport (st m) m.
Proof.
  intros Hm Hred.
  assert (E : handleColorPress (st m) m = handleColorFail (st m) m).
  { unfold handleColorPress. rewrite Hred. reflexivity. }
  rewrite E.
  destruct (handleColorFail_state (st m) m Hm) as (Hp & Hg & Hr & Hc).
  destruct (handleColorFail_refs (st m) m) as (Hw & Hct & _).
  split; [reflexivity|].
  split; [unfold lifecycle; rewrite Hp; reflexivity|].
  split; [assumption|]. split; [assumption|]. split; [assumption|].
  split; [assumption|]. split; [assumption|].
  split; [|split; [apply handleColorFail_alert
                  | apply handleColorFail_reports]].
  intros t. rewrite handleColorFail_timers, !In_clearRef.
  rewrite getSlot_clearRef_other by discriminate. cbn. tauto.
Qed.

Lemma early_tap_ends_session_witness :
  lifecycle (st (handleColorPress (st secondRound) secondRound)) = Stopped /\
  timers (handleColorPress (st secondRound) secondRound) = [] /\
  alerts (handleColorPress (st secondRound) secondRound)
  = [AlertTooEarly (Some (mkShown 80 1 80))] /\
  reports (handleColorPress (st secondRound) secondRound) = [8].
Proof.
  destruct (early_tap_ends_session secondRound eq_refl eq_refl)
    as (_ & Hl & _ & _ & _ & _ & _ & _ & Ha & Hr).
  split; [exact Hl|]. split; [reflexivity|].
  split; [exact Ha | exact Hr].
Defined.

(** C6 fails as written, in two ways. With the connection lost, the
    early tap in the second round stops the session but opens only the
    save-error dialog, no early-tap result. And after a pause and a
    resume during the display delay of a scored round two arm timers are
    pending, of which [waitTimerRef] holds the later one: the game is
    Waiting on red, the early tap stops it, and the other arm timer is
    still pending; it fires, and the miss timer it arms reports the
    score a second time. *)
Lemma early_tap_counterexample :
  (lifecycle (st secondRoundOffline) = Running /\
   circleColor (st secondRoundOffline) = Red /\
   option_map (fun m => (lifecycle (st m), alerts m))
              (step (Act 0 TapCircle) secondRoundOffline)
   = Some (Stopped, [AlertSaveError])) /\
  (run resumedInDelay (mount ColorGame true oracle0)
   = Some afterResumedInDelay /\
   lifecycle (st afterResumedInDelay) = Running /\
   circleColor (st afterResumedInDelay) = Red /\
   isWaiting (st afterResumedInDelay) = true /\
   map isArm (timers afterResumedInDelay) = [true; true] /\
   option_map (fun m => (lifecycle (st m), map isArm (timers m)))
              (step (Act 0 TapCircle) afterResumedInDelay)
   = Some (Stopped, [true]) /\
   option_map (fun m => (circleColor (st m), reports m))
              (run [Act 0 TapCircle; Fire; Fire] afterResumedInDelay)
   = Some (Green, [8; 8])).
Proof.
  split.
  - split; [|split]; vm_compute; reflexivity.
  - split; [|split; [|split; [|split; [|split; [|split]]]]];
      vm_compute; reflexivity.
Qed.
(** ** What the end-of-game handlers report (C2, C10) *)

Lemma reports_endGame (r : State) (m : Machine) :
  reports (endGame r m) = reports m ++ gameReport r m.
Proof.
  open_machine m. destruct mTy, mMt, rTimer, rSpawn, mCu, mIo, mUo;
    unfold endGame, gameReport; split_score_tests; model_cbv;
    rewrite ?app_nil_r; reflexivity.
Qed.

Lemma reports_endColorGame (r : State) (m : Machine) :
  reports (endColorGame r m) = reports m ++ colorReport r m.
Proof.
  open_machine m. destruct mMt, rWait, rColor, mCu, mIo, mUo;
    unfold endColorGame, colorReport; split_score_tests; model_cbv;
    rewrite ?app_nil_r; reflexivity.
Qed.



Lemma env_endGame (r : State) (m : Machine) :
  currentUser (endGame r m) = currentUser m /\
  initOk (endGame r m) = initOk m /\
  challengeType (endGame r m) = challengeType m /\
  mounted (endGame r m) = mounted m.
Proof.
  open_machine m. destruct mTy, mMt, rTimer, rSpawn, mCu, mIo, mUo;
    unfold endGame; split_score_tests; model_cbv;
    repeat split; reflexivity.
Qed.

Lemma env_endColorGame (r : State) (m : Machine) :
  currentUser (endColorGame r m) = currentUser m /\
  initOk (endColorGame r m) = initOk m /\
  mounted (endColorGame r m) = mounted m.
Proof.
  open_machine m. destruct mMt, rWait, rColor, mCu, mIo, mUo;
    unfold endColorGame; split_score_tests; model_cbv;
    repeat split; reflexivity.
Qed.

Lemma timers_endGame (r : State) (m : Machine) :
  timers (endGame r m)
  = timers (clearRef TargetSpawnTimerRef (clearRef TimerRef m)) /\
  timerRef (refs (endGame r m)) = None /\
  targetSpawnTimerRef (refs (endGame r m)) = None.
Proof.
  open_machine m. destruct mTy, mMt, rTimer, rSpawn, mCu, mIo, mUo;
    unfold endGame; split_score_tests; model_cbv;
    repeat split; reflexivity.
Qed.

Lemma timers_endColorGame (r : State) (m : Machine) :
  timers (endColorGame r m)
  = timers (clearRef ColorTimerRef (clearRef WaitTimerRef m)) /\
  waitTimerRef (refs (endColorGame r m)) = None /\
  colorTimerRef (refs (endColorGame r m)) = None.
Proof.
  open_machine m. destruct mMt, rWait, rColor, mCu, mIo, mUo;
    unfold endColorGame; split_score_tests; model_cbv;
    repeat split; reflexivity.
Qed.

Lemma endGame_stops (r : State) (m : Machine) :
  mounted m = true ->
  isPlaying (st (endGame r m)) = false /\
  isPaused (st (endGame r m)) = false /\
  targets (st (endGame r m)) = [].
Proof.
  intros Hm.
  open_machine m. subst. destruct mTy, rTimer, rSpawn, mCu, mIo, mUo;
    unfold endGame; split_score_tests; model_cbv;
    repeat split; reflexivity.
Qed.

Lemma endColorGame_stops (r : State) (m : Machine) :
  mounted m = true ->
  isPlaying (st (endColorGame r m)) = false /\
  isPaused (st (endColorGame r m)) = false.
Proof.
  intros Hm.
  open_machine m. subst. destruct rWait, rColor, mCu, mIo, mUo;
    unfold endColorGame; split_score_tests; model_cbv;
    repeat split; reflexivity.
Qed.

Lemma clearRef_empty_slot (k : Slot) (m : Machine) :
  getSlot k (refs m) = None -> clearRef k m = m.
Proof. intros H. unfold clearRef. rewrite H. reflexivity. Qed.

(** C2, as the code has it. Neither [endGame] nor [endColorGame] remembers
    that it ran: every call passes its guards again and every call whose
    guards hold (signed-in user, profile initialised, positive score in
    its render) calls [updateUserStats] once more. A second call is
    idempotent only on the local session: it finds the timer slots
    empty, cancels nothing further and leaves the game stopped. *)
Theorem end_reports_on_every_call (r1 r2 : State) (m : Machine) :
  reports (endGame r2 (endGame r1 m))
  = reports m ++ gameReport r1 m ++ gameReport r2 m /\
  reports (endColorGame r2 (endColorGame r1 m))
  = reports m ++ colorReport r1 m ++ colorReport r2 m /\
  timers (endGame r2 (endGame r1 m)) = timers (endGame r1 m) /\
  timers (endColorGame r2 (endColorGame r1 m)) = timers (endColorGame r1 m) /\
  (mounted m = true ->
   lifecycle (st (endGame r1 m)) = Stopped /\
   lifecycle (st (endGame r2 (endGame r1 m))) = Stopped /\
   targets (st (endGame r2 (endGame r1 m))) = [] /\
   lifecycle (st (endColorGame r1 m)) = Stopped /\
   lifecycle (st (endColorGame r2 (endColorGame r1 m))) = Stopped).
Proof.
  destruct (env_endGame r1 m) as (Hu & Hi & Hc & Hmt).
  destruct (env_endColorGame r1 m) as (Hu' & Hi' & Hmt').
  destruct (timers_endGame r1 m) as (_ & Hs1 & Hs2).
  destruct (timers_endColorGame r1 m) as (_ & Hs3 & Hs4).
  split; [|split; [|split; [|split]]].
  - rewrite !reports_endGame, <- app_assoc. do 2 f_equal.
    unfold gameReport, isTarget. rewrite Hu, Hi, Hc. reflexivity.
  - rewrite !reports_endColorGame, <- app_assoc. do 2 f_equal.
    unfold colorReport. rewrite Hu', Hi'. reflexivity.
  - rewrite (proj1 (timers_endGame r2 _)).
    rewrite (clearRef_empty_slot TimerRef) by exact Hs1.
    rewrite (clearRef_empty_slot TargetSpawnTimerRef) by exact Hs2.
    reflexivity.
  - rewrite (proj1 (timers_endColorGame r2 _)).
    rewrite (clearRef_empty_slot WaitTimerRef) by exact Hs3.
    rewrite (clearRef_empty_slot ColorTimerRef) by exact Hs4.
    reflexivity.
  - intros Hm.
    assert (Hm1 : mounted (endGame r1 m) = true) by congruence.
    assert (Hm2 : mounted (endColorGame r1 m) = true) by congruence.
    destruct (endGame_stops r1 m Hm) as (Hp1 & _).
    destruct (endGame_stops r2 _ Hm1) as (Hp2 & _ & Ht2).
    destruct (endColorGame_stops r1 m Hm) as (Hp3 & _).
    destruct (endColorGame_stops r2 _ Hm2) as (Hp4 & _).
    unfold lifecycle. rewrite Hp1, Hp2, Hp3, Hp4. repeat split. exact Ht2.
Qed.

Lemma end_reports_on_every_call_witness :
  lifecycle (st (endGame (st oneHit) (endGame (st oneHit) oneHit))) = Stopped /\
  reports (endGame (st oneHit) (endGame (st oneHit) oneHit)) = [1; 1].
Proof.
  destruct (end_reports_on_every_call (st oneHit) (st oneHit) oneHit)
    as (Hr & _ & _ & _ & Hs).
  destruct (Hs eq_refl) as (_ & Hl & _).
  split; [exact Hl|]. rewrite Hr. reflexivity.
Defined.

(** C2 fails as written: ending the one-hit game twice reaches
    [updateUserStats] twice. *)
Lemma endGame_twice_counterexample :
  reports oneHit = [] /\
  reports (endGame (st oneHit) oneHit) = [1] /\
  reports (endGame (st oneHit) (endGame (st oneHit) oneHit)) = [1; 1].
Proof. repeat split. Qed.

(** ** Untracked timers survive everything but their own firing *)

Lemma untouchable_frame (t : Timer) (m m' : Machine) :
  timers m' = timers m -> refs m' = refs m -> nextHandle m' = nextHandle m ->
  Untouchable t m -> Untouchable t m'.
Proof.
  unfold Untouchable, untracked. intros -> -> ->. exact (fun H => H).
Qed.

Lemma preserving_setState (f : State -> State) : Preserving (setState f).
Proof.
  intros t m. apply untouchable_frame; unfold setState;
    destruct (mounted m); reflexivity.
Qed.

Lemma preserving_put_now (x : Z) : Preserving (put_now x).
Proof. intros t m. apply untouchable_frame; reflexivity. Qed.

Lemma preserving_put_eff1 (s : State) : Preserving (put_eff1 s).
Proof. intros t m. apply untouchable_frame; reflexivity. Qed.

Lemma preserving_put_eff2 (s : State) : Preserving (put_eff2 s).
Proof. intros t m. apply untouchable_frame; reflexivity. Qed.

Lemma preserving_put_eff3 (s : State) : Preserving (put_eff3 s).
Proof. intros t m. apply untouchable_frame; reflexivity. Qed.

Lemma preserving_setRoundInProgress (b : bool) :
  Preserving (setRoundInProgress b).
Proof.
  intros t m (Hin & Hun & Hlt). split; [assumption|]. split; [|assumption].
  intros k. specialize (Hun k). destruct k; exact Hun.
Qed.

Lemma preserving_clearRef (k : Slot) : Preserving (clearRef k).
Proof.
  intros t m (Hin & Hun & Hlt). split; [|split].
  - apply In_clearRef. split; [assumption | apply Hun].
  - intros k'. destruct (getSlot k (refs m)) eqn:E.
    + unfold clearRef. rewrite E. cbn.
      specialize (Hun k'). destruct k, k'; cbn in *; congruence.
    + rewrite clearRef_empty_slot by assumption. apply Hun.
  - unfold clearRef. destruct (getSlot k (refs m)); assumption.
Qed.

(** Arming a timer and storing its handle in a slot. *)
Lemma preserving_arm (k : Slot) (c : Callback) (d : Z) (p : option Z) :
  Preserving (fun m => put_refs (setSlot k (Some (fst (schedule d p c m)))
                                         (refs (snd (schedule d p c m))))
                                (snd (schedule d p c m))).
Proof.
  intros t m (Hin & Hun & Hlt). cbn. split; [|split].
  - apply in_or_app. left. assumption.
  - intros k' E. specialize (Hun k').
    destruct k, k'; cbn in *; try congruence;
      inversion E as [E']; rewrite E' in Hlt; lia.
  - cbn. lia.
Qed.

(** Arming a timer without keeping its handle. *)
Lemma preserving_schedule (c : Callback) (d : Z) (p : option Z) :
  Preserving (fun m => snd (schedule d p c m)).
Proof.
  intros t m (Hin & Hun & Hlt). cbn. split; [|split].
  - apply in_or_app. left. assumption.
  - exact Hun.
  - cbn. lia.
Qed.

Lemma preserving_spawnTarget : Preserving spawnTarget.
Proof.
  intros t m H. unfold spawnTarget, draw. cbn.
  apply (preserving_schedule (CbExpire (targetIdRef (refs m)))
                             TARGET_LIFETIME None).
  apply preserving_setState.
  destruct H as (Hin & Hun & Hlt). split; [assumption|].
  split; [|assumption].
  intros k. specialize (Hun k). destruct k; exact Hun.
Qed.

Lemma preserving_startColorRound (r : State) : Preserving (startColorRound r).
Proof.
  intros t m H. unfold startColorRound, draw. cbn zeta.
  match goal with
  | |- Untouchable t (let (h, m0) := setTimeout ?c ?d ?x in _) =>
      change (Untouchable t
                (put_refs (setSlot WaitTimerRef
                             (Some (fst (schedule d None c x)))
                             (refs (snd (schedule d None c x))))
                          (snd (schedule d None c x))))
  end.
  apply preserving_arm.
  apply (untouchable_frame t
           (setReactionTime None
              (setCircleColor Red (setIsWaiting true
                 (setRoundInProgress true m))))); try reflexivity.
  do 3 apply preserving_setState. apply preserving_setRoundInProgress.
  assumption.
Qed.

Lemma preserving_effect1 (s : State) : Preserving (effect1 s).
Proof.
  intros t m H. unfold effect1.
  destruct (isTarget m && isPlaying s && negb (isPaused s) && (timeLeft s >? 0)).
  - apply (preserving_arm TimerRef (CbCountdown s) COUNTDOWN_PERIOD
                          (Some COUNTDOWN_PERIOD)). assumption.
  - apply preserving_clearRef. assumption.
Qed.

Lemma preserving_effect2 (s : State) : Preserving (effect2 s).
Proof.
  intros t m H. unfold effect2.
  destruct (isTarget m && isPlaying s && negb (isPaused s)).
  - apply (preserving_arm TargetSpawnTimerRef CbSpawn SPAWN_PERIOD
                          (Some SPAWN_PERIOD)).
    apply preserving_spawnTarget. assumption.
  - apply preserving_clearRef. assumption.
Qed.

Lemma preserving_effect3 (s : State) : Preserving (effect3 s).
Proof.
  intros t m H. unfold effect3.
  destruct (isColor m && isPlaying s && negb (isPaused s)
            && negb (roundInProgressRef (refs m))).
  - apply preserving_startColorRound. assumption.
  - assumption.
Qed.

Lemma preserving_cleanup3 (s : State) : Preserving (cleanup3 s).
Proof.
  intros t m H. unfold cleanup3, clearTimeoutRef.
  destruct (negb (isPlaying s) || isPaused s); [|assumption].
  apply preserving_setRoundInProgress. do 2 apply preserving_clearRef.
  assumption.
Qed.

Lemma preserving_commit : Preserving commit.
Proof.
  intros t m H. unfold commit. destruct (mounted m); [|assumption].
  cbv zeta.
  repeat match goal with
         | |- Untouchable t (if ?c then _ else _) => destruct c
         | |- Untouchable t (put_eff1 _ _) => apply preserving_put_eff1
         | |- Untouchable t (put_eff2 _ _) => apply preserving_put_eff2
         | |- Untouchable t (put_eff3 _ _) => apply preserving_put_eff3
         | |- Untouchable t (effect1 _ _) => apply preserving_effect1
         | |- Untouchable t (effect2 _ _) => apply preserving_effect2
         | |- Untouchable t (effect3 _ _) => apply preserving_effect3
         | |- Untouchable t (cleanup1 _) => apply preserving_clearRef
         | |- Untouchable t (cleanup2 _) => apply preserving_clearRef
         | |- Untouchable t (cleanup3 _ _) => apply preserving_cleanup3
         end; assumption.
Qed.

Lemma preserving_pauseGame : Preserving pauseGame.
Proof.
  intros t m H. unfold pauseGame, clearTimeoutRef.
  assert (H' : Untouchable t (setIsPaused true m))
    by (apply preserving_setState; assumption).
  replace (challengeType (setIsPaused true m)) with (challengeType m)
    by (unfold setIsPaused, setState; destruct (mounted m); reflexivity).
  destruct (challengeType m); [assumption|].
  do 2 apply preserving_clearRef. assumption.
Qed.

Lemma preserving_resumeGame : Preserving resumeGame.
Proof. intros t m H. apply preserving_setState. assumption. Qed.

Lemma preserving_unmount : Preserving unmount.
Proof.
  intros t m H. unfold unmount. destruct (mounted m); [|assumption].
  apply (untouchable_frame t
           (cleanup3 (eff3 (cleanup2 (cleanup1 m))) (cleanup2 (cleanup1 m))));
    try reflexivity.
  apply preserving_cleanup3. do 2 apply preserving_clearRef. assumption.
Qed.

(** ** A re-render changes neither the clock nor the core of the state *)

Lemma stable_setState (f : State -> State) (m : Machine) :
  (forall s, core (f s) = core s) -> stable (setState f m) = stable m.
Proof.
  intros Hf. unfold setState, stable.
  destruct (mounted m) eqn:E; [|rewrite E; reflexivity].
  cbn. rewrite Hf, E. reflexivity.
Qed.

Lemma stable_clearRef (k : Slot) (m : Machine) :
  stable (clearRef k m) = stable m.
Proof. unfold clearRef. destruct (getSlot k (refs m)); reflexivity. Qed.

Lemma stable_spawnTarget (m : Machine) : stable (spawnTarget m) = stable m.
Proof.
  unfold spawnTarget, draw. cbn zeta. cbn [snd setTimeout schedule].
  match goal with
  | |- stable (put_nextHandle _ (put_timers _ ?x)) = _ =>
      change (stable x = stable m)
  end.
  rewrite stable_setState by reflexivity. reflexivity.
Qed.

Lemma stable_startColorRound (r : State) (m : Machine) :
  stable (startColorRound r m) = stable m.
Proof.
  unfold startColorRound, draw. cbn zeta. cbn [setTimeout schedule].
  match goal with
  | |- stable (put_refs _ (put_nextHandle _ (put_timers _ (put_rix _ ?x))))
       = _ => change (stable x = stable m)
  end.
  unfold setReactionTime, setCircleColor, setIsWaiting.
  rewrite !stable_setState by reflexivity. reflexivity.
Qed.

Lemma stable_arm (k : Slot) (c : Callback) (d : Z) (p : option Z)
  (m : Machine) :
  stable (let (h, m0) := schedule d p c m in
          put_refs (setSlot k (Some h) (refs m0)) m0) = stable m.
Proof. reflexivity. Qed.

Lemma stable_effect1 (s : State) (m : Machine) :
  stable (effect1 s m) = stable m.
Proof.
  unfold effect1.
  destruct (isTarget m && isPlaying s && negb (isPaused s) && (timeLeft s >? 0));
    [reflexivity | apply stable_clearRef].
Qed.

Lemma stable_effect2 (s : State) (m : Machine) :
  stable (effect2 s m) = stable m.
Proof.
  unfold effect2.
  destruct (isTarget m && isPlaying s && negb (isPaused s));
    [|apply stable_clearRef].
  cbv zeta. unfold setInterval. rewrite stable_arm. apply stable_spawnTarget.
Qed.

Lemma stable_effect3 (s : State) (m : Machine) :
  stable (effect3 s m) = stable m.
Proof.
  unfold effect3.
  destruct (isColor m && isPlaying s && negb (isPaused s)
            && negb (roundInProgressRef (refs m)));
    [apply stable_startColorRound | reflexivity].
Qed.

Lemma stable_cleanup3 (s : State) (m : Machine) :
  stable (cleanup3 s m) = stable m.
Proof.
  unfold cleanup3, clearTimeoutRef.
  destruct (negb (isPlaying s) || isPaused s); [|reflexivity].
  change (stable (clearRef ColorTimerRef (clearRef WaitTimerRef m)) = stable m).
  rewrite !stable_clearRef. reflexivity.
Qed.

Lemma stable_put_eff1 (s : State) (m : Machine) :
  stable (put_eff1 s m) = stable m.
Proof. reflexivity. Qed.
Lemma stable_put_eff2 (s : State) (m : Machine) :
  stable (put_eff2 s m) = stable m.
Proof. reflexivity. Qed.
Lemma stable_put_eff3 (s : State) (m : Machine) :
  stable (put_eff3 s m) = stable m.
Proof. reflexivity. Qed.

Create Rewrite HintDb stable_db.
#[local] Hint Rewrite stable_put_eff1 stable_put_eff2 stable_put_eff3
  stable_effect1 stable_effect2 stable_effect3 stable_cleanup3
  stable_clearRef : stable_db.

Lemma stable_commit (m : Machine) : stable (commit m) = stable m.
Proof.
  unfold commit. destruct (mounted m) eqn:E; [|reflexivity]. cbv zeta.
  unfold cleanup1, cleanup2, clearIntervalRef.
  repeat match goal with
         | |- context [if ?c then _ else _] => destruct c
         end; autorewrite with stable_db; reflexivity.
Qed.

Lemma stable_now (m m' : Machine) : stable m' = stable m -> now m' = now m.
Proof. unfold stable. intros H. inversion H. reflexivity. Qed.

Lemma stable_mounted (m m' : Machine) :
  stable m' = stable m -> mounted m' = mounted m.
Proof. unfold stable. intros H. inversion H. reflexivity. Qed.

Lemma stable_isPaused (m m' : Machine) :
  stable m' = stable m -> isPaused (st m') = isPaused (st m).
Proof. unfold stable, core. intros H. inversion H. reflexivity. Qed.


Lemma stable_score (m m' : Machine) :
  stable m' = stable m -> score (st m') = score (st m).
Proof. unfold stable, core. intros H. inversion H. reflexivity. Qed.

(** ** Start (C9) *)

Lemma stable_flags (m m' : Machine) :
  stable m' = stable m ->
  isPlaying (st m') = isPlaying (st m) /\
  isPaused (st m') = isPaused (st m) /\
  gameStarted (st m') = gameStarted (st m).
Proof.
  unfold stable, core. intros H. inversion H. repeat split.
Qed.

Lemma enabled_Start (m : Machine) :
  enabled Start m
  = mounted m && (negb (gameStarted (st m)) && negb (loading (st m))).
Proof. reflexivity. Qed.

Lemma startGame_flags (m : Machine) :
  mounted m = true ->
  isPlaying (st (startGame m)) = true /\
  isPaused (st (startGame m)) = false /\
  gameStarted (st (startGame m)) = true.
Proof.
  intros Hm. open_machine m. subst. destruct mTy; repeat split.
Qed.

(** C9, as the code has it. [startGame] has no lifecycle test and no
    failure signal: from every lifecycle it resets the sub-state of the
    mode and leaves the session Running. It touches no timer; the
    effects that follow the re-render start the spawner or the round.
    Where the specification accepts the call, both agree. The view
    offers the Start control exactly on the start card (the game not
    started, nothing loading): a Start that comes from the view finds
    the start card, leaves the session Running, and then finds the
    control gone. *)
Theorem startGame_always_starts (m : Machine) :
  mounted m = true ->
  lifecycle (st (startGame m)) = Running /\
  gameStarted (st (startGame m)) = true /\
  (challengeType m = TargetGame ->
   score (st (startGame m)) = 0 /\
   timeLeft (st (startGame m)) = GAME_DURATION /\
   targets (st (startGame m)) = []) /\
  (challengeType m = ColorGame ->
   circleColor (st (startGame m)) = Red /\
   reactionTime (st (startGame m)) = None /\
   roundsCompleted (st (startGame m)) = 0 /\
   bestReactionTime (st (startGame m)) = None /\
   greenTime (st (startGame m)) = None /\
   isWaiting (st (startGame m)) = false /\
   colorScore (st (startGame m)) = 0 /\
   roundInProgressRef (refs (startGame m)) = false) /\
  timers (startGame m) = timers m /\
  (lifecycle (st m) = Stopped -> start_spec m = Some (startGame m)) /\
  (enabled Start m = true <->
   gameStarted (st m) = false /\ loading (st m) = false) /\
  enabled Start (startGame m) = false /\
  (forall dt m',
     step (Act dt Start) m = Some m' ->
     gameStarted (st m) = false /\ loading (st m) = false /\
     m' = commit (startGame (put_now (now m + dt) m)) /\
     lifecycle (st m') = Running /\
     enabled Start m' = false).
Proof.
  intros Hm. unfold start_spec.
  assert (Hen : enabled Start m = true <->
                gameStarted (st m) = false /\ loading (st m) = false).
  { rewrite enabled_Start, Hm. cbn [andb].
    destruct (gameStarted (st m)), (loading (st m)); cbn;
      split; intros H; try discriminate; try (destruct H; discriminate);
      auto. }
  split; [|split; [|split; [|split; [|split; [|split; [|split; [|split]]]]]]].
  - open_machine m. subst. destruct mTy; reflexivity.
  - open_machine m. subst. destruct mTy; reflexivity.
  - intros Hty. open_machine m. subst. repeat split.
  - intros Hty. open_machine m. subst. repeat split.
  - open_machine m. subst. destruct mTy; reflexivity.
  - intros ->. reflexivity.
  - exact Hen.
  - rewrite enabled_Start.
    destruct (startGame_flags m Hm) as (_ & _ & ->).
    apply andb_false_r.
  - intros dt m' Hs. cbn [step] in Hs.
    destruct (enabled Start m) eqn:Ee;
      [|rewrite andb_false_r in Hs; discriminate].
    destruct ((0 <=? dt) && _ && true); [|discriminate].
    injection Hs as <-. cbn [handle_action].
    destruct (proj1 Hen eq_refl) as [Hg Hl].
    split; [exact Hg|]. split; [exact Hl|]. split; [reflexivity|].
    destruct (startGame_flags (put_now (now m + dt) m) Hm) as (Hp & Hq & Hs).
    destruct (stable_flags _ _
                (stable_commit (startGame (put_now (now m + dt) m))))
      as (Ep & Eq & Es).
    split.
    + unfold lifecycle. rewrite Ep, Eq, Hp, Hq. reflexivity.
    + rewrite enabled_Start, Es, Hs. apply andb_false_r.
Qed.

Lemma startGame_always_starts_witness :
  lifecycle (st oneHit) = Running /\
  lifecycle (st (startGame oneHit)) = Running /\
  score (st (startGame oneHit)) = 0 /\
  enabled Start oneHit = false.
Proof.
  destruct (startGame_always_starts oneHit eq_refl)
    as (Hl & _ & Ht & _).
  split; [reflexivity|]. split; [exact Hl|].
  split; [exact (proj1 (Ht eq_refl)) | reflexivity].
Defined.

(** C9 fails as written: in a Running game with one hit the
    specification's [start] answers [InvalidState], while [startGame]
    goes through and wipes the score. *)
Lemma startGame_running_counterexample :
  lifecycle (st oneHit) = Running /\
  start_spec oneHit = None /\
  score (st oneHit) = 1 /\
  score (st (startGame oneHit)) = 0 /\
  lifecycle (st (startGame oneHit)) = Running.
Proof. repeat split. Qed.

(** ** Target expiry across a pause (C8) *)

Lemma stable_setIsPaused (b : bool) (m : Machine) :
  mounted m = true ->
  stable (setIsPaused b m)
  = (now m, true, challengeType m, backend m, core (with_isPaused b (st m))).
Proof.
  intros Hm. unfold setIsPaused, setState. rewrite Hm.
  unfold stable, backend. cbn. rewrite Hm. reflexivity.
Qed.

Lemma stable_pauseGame (m : Machine) :
  mounted m = true ->
  stable (pauseGame m)
  = (now m, true, challengeType m, backend m, core (with_isPaused true (st m))).
Proof.
  intros Hm. rewrite <- (stable_setIsPaused true m Hm).
  unfold pauseGame, clearTimeoutRef.
  destruct (challengeType (setIsPaused true m)); [reflexivity|].
  rewrite !stable_clearRef. reflexivity.
Qed.

Lemma expireTarget_mounted (id : Z) (m : Machine) :
  mounted m = true ->
  targets (st (expireTarget id m)) = removeTarget id (targets (st m)) /\
  score (st (expireTarget id m)) = score (st m).
Proof.
  intros Hm. unfold expireTarget, setState. rewrite Hm. split; reflexivity.
Qed.

(** C8, as the code has it. Pausing does nothing to a target's removal
    timeout: the same timer, with the same due time, is pending after the
    pause and after the resume, so the time spent paused counts towards
    the target's age and the lifetime is never reset. When the timeout
    falls into the pause its callback runs there and removes the target,
    without a change of the score. *)
Theorem pause_leaves_expiry_running
  (m : Machine) (t : Timer) (id tp tr : Z) :
  mounted m = true ->
  cb t = CbExpire id ->
  Untouchable t m ->
  In t (timers (commit (pauseGame (put_now tp m)))) /\
  isPaused (st (commit (pauseGame (put_now tp m)))) = true /\
  now (commit (pauseGame (put_now tp m))) = tp /\
  targets (st (run_callback (cb t) (commit (pauseGame (put_now tp m)))))
  = removeTarget id (targets (st (commit (pauseGame (put_now tp m))))) /\
  score (st (run_callback (cb t) (commit (pauseGame (put_now tp m)))))
  = score (st (commit (pauseGame (put_now tp m)))) /\
  In t (timers (commit (resumeGame
                  (put_now tr (commit (pauseGame (put_now tp m))))))) /\
  isPaused (st (commit (resumeGame
                  (put_now tr (commit (pauseGame (put_now tp m))))))) = false /\
  now (commit (resumeGame
                  (put_now tr (commit (pauseGame (put_now tp m)))))) = tr.
Proof.
  intros Hm Hcb Hsafe.
  assert (Hp : Untouchable t (commit (pauseGame (put_now tp m)))).
  { apply preserving_commit, preserving_pauseGame, preserving_put_now.
    assumption. }
  assert (Hstp : stable (commit (pauseGame (put_now tp m)))
                 = (tp, true, challengeType m, backend m,
                    core (with_isPaused true (st m)))).
  { rewrite stable_commit. apply (stable_pauseGame (put_now tp m)).
    exact Hm. }
  generalize dependent (commit (pauseGame (put_now tp m))).
  intros p Hp Hstp.
  assert (Hmp : mounted p = true).
  { apply (f_equal (fun x => snd (fst (fst (fst x))))) in Hstp. exact Hstp. }
  assert (Hpp : isPaused (st p) = true).
  { apply (f_equal snd) in Hstp. unfold stable, core in Hstp. cbn in Hstp.
    congruence. }
  assert (Hnp : now p = tp).
  { apply (f_equal (fun x => fst (fst (fst (fst x))))) in Hstp. exact Hstp. }
  assert (Hq : Untouchable t (commit (resumeGame (put_now tr p)))).
  { apply preserving_commit, preserving_resumeGame, preserving_put_now.
    assumption. }
  assert (Hstq : stable (commit (resumeGame (put_now tr p)))
                 = (tr, true, challengeType p, backend p,
                    core (with_isPaused false (st p)))).
  { rewrite stable_commit. apply (stable_setIsPaused false (put_now tr p)).
    exact Hmp. }
  generalize dependent (commit (resumeGame (put_now tr p))).
  intros q Hq Hstq.
  split; [exact (proj1 Hp)|]. split; [assumption|]. split; [assumption|].
  rewrite Hcb. cbn [run_callback].
  destruct (expireTarget_mounted id p Hmp) as [Ht Hs].
  split; [exact Ht|]. split; [exact Hs|].
  split; [exact (proj1 Hq)|]. split.
  - apply (f_equal snd) in Hstq. unfold stable, core in Hstq. cbn in Hstq.
    congruence.
  - apply (f_equal (fun x => fst (fst (fst (fst x))))) in Hstq. exact Hstq.
Qed.

Lemma startedTarget_expiry_untouchable :
  Untouchable expiryOfTarget0 startedTarget.
Proof.
  split; [|split].
  - right. left. reflexivity.
  - intros k. destruct k; discriminate.
  - reflexivity.
Defined.

Lemma pause_leaves_expiry_running_witness :
  In expiryOfTarget0
     (timers (commit (resumeGame (put_now 2000
                (commit (pauseGame (put_now 1000 startedTarget))))))) /\
  due expiryOfTarget0 - 2000 <> due expiryOfTarget0 - 1000.
Proof.
  destruct (pause_leaves_expiry_running startedTarget expiryOfTarget0
              0 1000 2000 eq_refl eq_refl startedTarget_expiry_untouchable)
    as (_ & _ & _ & _ & _ & Hin & _).
  split; [exact Hin | discriminate].
Defined.

(** C8 fails as written. Target 0 is spawned at Start with 3000 ms to
    live; the game is paused at 1000 ms, when 2000 ms remain. The next
    event is the target's own timeout, at 3000 ms and still paused: the
    target is removed during the pause. Resuming at 2000 ms instead
    finds the timeout still due at 3000 ms, 1000 ms away, not 2000. *)
Lemma pause_expiry_counterexample :
  liveIds (st pausedTarget) = [0] /\
  lifecycle (st pausedTarget) = Paused /\
  timers pausedTarget = [expiryOfTarget0] /\
  due expiryOfTarget0 - now pausedTarget = 2000 /\
  option_map (fun m => (lifecycle (st m), liveIds (st m), now m))
             (step Fire pausedTarget) = Some (Paused, [], 3000) /\
  option_map (fun m => (lifecycle (st m),
                        filter isExpiry (timers m), now m))
             (step (Act 1000 ResumeBtn) pausedTarget)
  = Some (Running,
          [expiryOfTarget0; mkTimer 5 5000 None (CbExpire 1)], 2000).
Proof. vm_compute. repeat split. Qed.

(** ** Pause followed by teardown (C1) *)

(** Whatever the session, pausing and discarding the view releases no
    timer the component holds no handle of. *)
Lemma pause_teardown_keeps_untracked (m : Machine) (t : Timer) :
  Untouchable t m -> Untouchable t (unmount (commit (pauseGame m))).
Proof.
  intros H.
  apply preserving_unmount, preserving_commit, preserving_pauseGame.
  assumption.
Qed.


(** ** The colour game, event by event *)

Arguments commit : simpl never.

Lemma commit_synced (m : Machine) : synced m -> commit m = m.
Proof.
  unfold commit, synced. intros (H1 & H2 & H3).
  rewrite H1, H2, H3. destruct (mounted m); reflexivity.
Qed.

(** Only the third effect re-runs, and its cleanup was created while the
    game was running. *)
Lemma commit_round_advanced (m : Machine) :
  mounted m = true ->
  deps1_changed (eff1 m) (st m) = false ->
  deps2_changed (eff2 m) (st m) = false ->
  deps3_changed (eff3 m) (st m) = true ->
  isPlaying (eff3 m) = true -> isPaused (eff3 m) = false ->
  commit m = put_eff3 (st m) (effect3 (st m) m).
Proof.
  intros Hm H1 H2 H3 Hp Hq. unfold commit. rewrite Hm, H1, H2, H3.
  cbv zeta. unfold cleanup3. rewrite Hp, Hq. reflexivity.
Qed.

Lemma geb_false (a b : Z) : a < b -> (a >=? b) = false.
Proof. intros H. rewrite Z.geb_leb. apply Z.leb_gt. assumption. Qed.

Lemma geb_true (a b : Z) : b <= a -> (a >=? b) = true.
Proof. intros H. rewrite Z.geb_leb. apply Z.leb_le. assumption. Qed.

Lemma deps_flags (b1 b2 c1 c2 : bool) (x : bool) :
  negb (eqb b1 c1 && eqb b2 c2 && x) = false ->
  b1 = c1 /\ b2 = c2 /\ x = true.
Proof. destruct b1, b2, c1, c2, x; cbn; intros H; try discriminate; auto. Qed.

Ltac open_top m :=
  destruct m as [mTy mSt mRefs mE1 mE2 mE3 mMt mNow mTm mNh mRnd mRix
                 mCu mIo mUo mStats mRep mAl].

Ltac open_refs rf :=
  destruct rf as [rTimer rSpawn rTid rColor rWait rRip].

(** Take a [ColorPlaying] hypothesis apart, down to the flags of the
    renders the effects last ran in. *)
Ltac open_playing H :=
  let Hty := fresh "Hty" in let Hmt := fresh "Hmt" in
  let Hpl := fresh "Hpl" in let Hpa := fresh "Hpa" in
  let Hgs := fresh "Hgs" in let Hsy := fresh "Hsy" in
  let Hk := fresh "Hk" in let Hc := fresh "Hc" in
  let Hs1 := fresh "Hs1" in let Hs2 := fresh "Hs2" in
  let Hs3 := fresh "Hs3" in
  destruct H as (Hty & Hmt & Hpl & Hpa & Hgs & Hsy & Hk & Hc);
  destruct Hsy as (Hs1 & Hs2 & Hs3);
  cbn in Hty, Hmt, Hpl, Hpa, Hgs, Hs1, Hs2, Hs3, Hk, Hc.

Ltac solve_playing :=
  unfold ColorPlaying, synced; cbn;
  repeat split; try assumption; try reflexivity; try lia.

Lemma fire_arm (k c : Z) (m : Machine) :
  WaitingFor k c m ->
  exists m', step Fire m = Some m' /\ ArmedFor k c m' /\
             backend m' = backend m.
Proof.
  intros ((Hp & Hred & Hnow & h0 & d0 & r0 & Htm0 & Hd)
          & h & d & r & Htm & Hslot & Hrip & Hrk & Hrc).
  rewrite Htm in Htm0. inversion Htm0; subst h0 d0 r0. clear Htm0.
  open_top m. open_refs mRefs. open_playing Hp.
  cbn in Hred, Hnow, Htm, Hd, Hslot, Hrip.
  subst mTy mMt mTm rWait rRip. unfold MIN_WAIT_TIME in Hd.
  unfold step. cbn [timers next_timer].
  unfold fire_timer.
  cbn [cb due now timers period handle rearm put_now put_timers run_callback].
  rewrite Z.max_r by lia.
  cbn -[commit]. rewrite Pos.eqb_refl. cbn -[commit].
  rewrite commit_synced by solve_playing.
  eexists. split; [reflexivity|]. split; [|reflexivity].
  split.
  - split; [solve_playing|]. cbn. split; [reflexivity|].
    split; [reflexivity|]. split; [lia|].
    do 2 eexists. split; reflexivity.
  - cbn. do 2 eexists. repeat split; assumption.
Qed.

(** The part of [step] before the handler, for a tap on the armed
    circle. *)
Lemma step_tap_armed (k c l : Z) (m : Machine) :
  Armed k c m -> inTime l ->
  step (Act l TapCircle) m
  = Some (commit (handleColorPress (st m) (put_now (now m + l) m))).
Proof.
  intros (Hp & Hgreen & Hgt & Hnow & h & r & Htm & Hslot) [Hl0 Hl1].
  open_playing Hp. unfold step. rewrite Htm. cbn [next_timer due].
  replace (0 <=? l) with true by (symmetry; apply Z.leb_le; assumption).
  replace (now m + MISS_DELAY <? now m + l) with false
    by (symmetry; apply Z.ltb_ge; unfold inTime in *; lia).
  unfold enabled, isColor, isTarget. rewrite Hmt, Hty, Hgs, Hpa. reflexivity.
Qed.

Lemma tap_scored (k c l : Z) (m : Machine) :
  Armed k c m -> inTime l -> k + 1 < MAX_COLOR_ROUNDS ->
  exists m', step (Act l TapCircle) m = Some m' /\
             Resolved k (c + calculateReactionScore l) m' /\
             backend m' = backend m.
Proof.
  intros HA Hl Hk9. rewrite (step_tap_armed k c l m HA Hl).
  destruct HA as (Hp & Hgreen & Hgt & Hnow & h & r & Htm & Hslot).
  destruct Hl as [Hl0 Hl1].
  open_top m. open_refs mRefs. open_playing Hp.
  cbn in Hgreen, Hgt, Hnow, Htm, Hslot.
  subst mTy mMt mTm rColor.
  cbn [st put_now now].
  unfold handleColorPress. rewrite Hgreen, Hgt. cbn [truthy now put_now].
  replace (mNow =? 0) with false by (symmetry; apply Z.eqb_neq; lia).
  cbn [negb].
  replace (mNow + l - mNow) with l by lia.
  rewrite Hk, (geb_false (k + 1)) by assumption.
  match goal with
  | |- context [if ?b then setBestReactionTime _ _ else _] => destruct b
  end;
    cbn -[commit]; rewrite Pos.eqb_refl; cbn -[commit];
    rewrite commit_synced by solve_playing;
    (eexists; split; [reflexivity|]; split; [|reflexivity];
     split; [solve_playing|]; cbn; split; [lia|];
     eexists; reflexivity).
Qed.


Lemma wait_in_range (x : Z) :
  MIN_WAIT_TIME <= x mod (MAX_WAIT_TIME - MIN_WAIT_TIME) + MIN_WAIT_TIME
  < MAX_WAIT_TIME.
Proof.
  unfold MAX_WAIT_TIME, MIN_WAIT_TIME.
  pose proof (Z.mod_pos_bound x (4000 - 1000)). lia.
Qed.

Lemma effect3_starts (s : State) (m : Machine) :
  challengeType m = ColorGame -> isPlaying s = true -> isPaused s = false ->
  roundInProgressRef (refs m) = false ->
  effect3 s m = startColorRound s m.
Proof.
  intros Hty Hp Hq Hr. unfold effect3, isColor, isTarget.
  rewrite Hty, Hp, Hq, Hr. reflexivity.
Qed.

Lemma fire_next_round (k c : Z) (m : Machine) :
  Resolved k c m ->
  exists m', step Fire m = Some m' /\ WaitingFor (k + 1) c m' /\
             backend m' = backend m.
Proof.
  intros (Hp & Hnow & h & Htm).
  open_top m. open_refs mRefs. open_playing Hp. cbn in Hnow, Htm.
  subst mTy mMt mTm.
  unfold deps3_changed in Hs3. apply deps_flags in Hs3.
  destruct Hs3 as (Hp3 & Hq3 & Hk3). rewrite Hpl in Hp3. rewrite Hpa in Hq3.
  apply Z.eqb_eq in Hk3. rewrite Hk in Hk3.
  unfold step. cbn [timers next_timer]. unfold fire_timer.
  cbn [cb due now timers period handle rearm put_now put_timers run_callback].
  rewrite Z.max_r by (unfold ROUND_DELAY; lia).
  cbn -[commit]. rewrite Pos.eqb_refl. cbn -[commit].
  rewrite commit_round_advanced;
    [ | reflexivity | exact Hs1 | exact Hs2 | | exact Hp3 | exact Hq3 ].
  2:{ unfold deps3_changed. cbn. rewrite Hp3, Hq3, Hpl, Hpa, Hk3. cbn.
      replace (k =? k + 1) with false by (symmetry; apply Z.eqb_neq; lia).
      reflexivity. }
  rewrite effect3_starts; [ | reflexivity | exact Hpl | exact Hpa | reflexivity ].
  eexists. split; [reflexivity|]. split; [|reflexivity].
  pose proof (wait_in_range (mRnd mRix)) as Hw.
  split; [split|].
  - unfold ColorPlaying, synced. cbn. repeat split; try assumption.
    unfold deps3_changed. cbn. rewrite Hpl, Hpa, Z.eqb_refl. reflexivity.
  - cbn. split; [reflexivity|]. split; [unfold ROUND_DELAY; lia|].
    do 3 eexists. split; [reflexivity|].
    change (MAX_WAIT_TIME - MIN_WAIT_TIME) with 3000 in Hw. lia.
  - cbn. do 3 eexists. repeat split; try reflexivity; assumption.
Qed.






Lemma stable_backend (m m' : Machine) :
  stable m' = stable m -> backend m' = backend m.
Proof.
  unfold stable. intros H.
  exact (f_equal (fun x => snd (fst x)) H).
Qed.



(** ** Whole colour games *)

(** Evaluate a machine expression to an explicit record, leaving the
    arithmetic on symbolic values alone. *)
Ltac eval_machine t :=
  eval cbv - [Z.add Z.sub Z.mul Z.div Z.modulo Z.max Z.gtb Z.geb Z.leb Z.ltb
              Z.eqb Pos.eqb Pos.succ calculateReactionScore updateUserStats]
  in t.

Ltac run_lhs :=
  match goal with
  | |- ?lhs = _ => let v := eval_machine lhs in change lhs with v
  end.

Lemma run_app (es1 es2 : list Event) (m : Machine) :
  run (es1 ++ es2) m
  = match run es1 m with
    | Some m' => run es2 m'
    | None => None
    end.
Proof.
  revert m. induction es1 as [|e es1 IH]; intros m; [reflexivity|].
  cbn [app run]. destruct (step e m); [apply IH | reflexivity].
Qed.

Lemma start_color (user : bool) (oracle : nat -> Z) :
  exists m,
    step (Act 0 Start) (mount ColorGame user oracle) = Some m /\
    WaitingFor 0 0 m /\
    backend m = (user, true, true, None, [], []).
Proof.
  eexists. split.
  - run_lhs. reflexivity.
  - pose proof (wait_in_range (oracle 0%nat)) as Hw.
    change (MAX_WAIT_TIME - MIN_WAIT_TIME) with 3000 in Hw.
    unfold MIN_WAIT_TIME in Hw.
    split; [|reflexivity].
    split; [split; [|split; [|split]]|].
    + unfold ColorPlaying, synced. repeat split.
    + reflexivity.
    + cbv. discriminate.
    + do 3 eexists. split; [reflexivity|]. cbn. unfold MIN_WAIT_TIME. lia.
    + do 3 eexists. repeat split.
Qed.

Lemma scored_round_run (k c l : Z) (m : Machine) :
  WaitingFor k c m -> inTime l -> k + 1 < MAX_COLOR_ROUNDS ->
  exists m', run (scoredRound l) m = Some m' /\
             WaitingFor (k + 1) (c + calculateReactionScore l) m' /\
             backend m' = backend m.
Proof.
  intros Hw Hl Hk.
  destruct (fire_arm k c m Hw) as (m1 & E1 & Ha & B1).
  destruct (tap_scored k c l m1 (proj1 Ha) Hl Hk) as (m2 & E2 & Hr & B2).
  destruct (fire_next_round k _ m2 Hr) as (m3 & E3 & Hw3 & B3).
  exists m3. split; [|split; [assumption | congruence]].
  unfold scoredRound. cbn [run]. rewrite E1, E2, E3. reflexivity.
Qed.

Lemma scored_rounds_run (ls : list Z) :
  forall (k c : Z) (m : Machine),
    WaitingFor k c m -> Forall inTime ls ->
    k + Z.of_nat (length ls) < MAX_COLOR_ROUNDS ->
    exists m', run (scoredRounds ls) m = Some m' /\
               WaitingFor (k + Z.of_nat (length ls)) (c + points ls) m' /\
               backend m' = backend m.
Proof.
  induction ls as [|l ls IH]; intros k c m Hw Hall Hk.
  - exists m. cbn [length points fold_right Z.of_nat].
    rewrite !Z.add_0_r. split; [reflexivity|]. split; [assumption|reflexivity].
  - inversion Hall as [|? ? Hl Hls]; subst.
    cbn [length] in Hk. rewrite Nat2Z.inj_succ in Hk.
    destruct (scored_round_run k c l m Hw Hl ltac:(lia))
      as (m1 & E1 & Hw1 & B1).
    destruct (IH (k + 1) (c + calculateReactionScore l) m1 Hw1 Hls
                 ltac:(lia)) as (m2 & E2 & Hw2 & B2).
    exists m2. split; [|split; [|congruence]].
    + unfold scoredRounds. cbn [flat_map]. rewrite run_app.
      fold (scoredRounds ls). rewrite E1. exact E2.
    + cbn [length points fold_right]. rewrite Nat2Z.inj_succ.
      replace (k + Z.succ (Z.of_nat (length ls)))
        with (k + 1 + Z.of_nat (length ls)) by lia.
      replace (c + (calculateReactionScore l + fold_right
                 (fun l0 acc => calculateReactionScore l0 + acc) 0 ls))
        with (c + calculateReactionScore l + points ls)
        by (unfold points; lia).
      exact Hw2.
Qed.

Lemma points_nonneg (ls : list Z) : 0 <= points ls.
Proof.
  induction ls as [|l ls IH]; [reflexivity|].
  cbn [points fold_right]. fold (points ls).
  pose proof (calculateReactionScore_nonneg l). lia.
Qed.

Lemma backend_fields (m : Machine) (u i o : bool) (s : option Stats)
  (r : list Z) (a : list Alert) :
  backend m = (u, i, o, s, r, a) ->
  currentUser m = u /\ initOk m = i /\ updateOk m = o /\ stats m = s /\
  reports m = r /\ alerts m = a.
Proof. unfold backend. intros H. inversion H. repeat split. Qed.

(** X1. Scored rounds accumulate. After Start on a fresh colour screen
    and up to nine rounds, each answered on green within the three
    seconds of the miss timer, the game is running in its Waiting phase:
    the circle is red, the round counter equals the number of rounds
    played, the score is the sum of the rounds' points, exactly one timer
    (the next arm timer) is pending, and nothing was reported or shown. *)
Theorem color_rounds_accumulate
  (user : bool) (oracle : nat -> Z) (ls : list Z) :
  Forall inTime ls -> (length ls <= 9)%nat ->
  exists m,
    run (Act 0 Start :: scoredRounds ls) (mount ColorGame user oracle)
    = Some m /\
    lifecycle (st m) = Running /\
    circleColor (st m) = Red /\
    roundsCompleted (st m) = Z.of_nat (length ls) /\
    colorScore (st m) = points ls /\
    length (timers m) = 1%nat /\
    reports m = [] /\ alerts m = [].
Proof.
  intros Hall Hlen.
  destruct (start_color user oracle) as (m0 & E0 & Hw0 & B0).
  destruct (scored_rounds_run ls 0 0 m0 Hw0 Hall)
    as (m1 & E1 & Hw1 & B1); [unfold MAX_COLOR_ROUNDS; lia|].
  exists m1. split; [cbn [run]; rewrite E0; exact E1|].
  rewrite B0 in B1. apply backend_fields in B1.
  destruct B1 as (_ & _ & _ & _ & Hr & Ha).
  destruct Hw1 as ((Hp & Hred & _ & h & d & r & Htm & _) & _).
  destruct Hp as (_ & _ & Hpl & Hpa & _ & _ & Hk & Hc).
  unfold lifecycle. rewrite Hpl, Hpa, Htm.
  split; [reflexivity|]. split; [assumption|]. split; [assumption|].
  split; [assumption|]. split; [reflexivity|]. split; assumption.
Qed.

Lemma color_rounds_accumulate_witness :
  exists m,
    run (Act 0 Start :: scoredRounds [200; 450])
        (mount ColorGame true oracle0) = Some m /\
    roundsCompleted (st m) = 2 /\
    colorScore (st m) = points [200; 450].
Proof.
  destruct (color_rounds_accumulate true oracle0 [200; 450])
    as (m & E & _ & _ & Hk & Hc & _).
  - repeat constructor; unfold MISS_DELAY; lia.
  - cbn. lia.
  - exists m. split; [exact E|]. split; assumption.
Defined.





(** C10 at its failing input. Ten rounds answered 200 ms after green by
    a signed-in player give ten times 80 points, but [endColorGame] runs
    from the render in which the tenth tap was handled, where the score
    is still that of nine rounds: it reports [floor(720 / 10) = 72] and
    shows 720 points and 720 XP, not 80 and 800. *)
Theorem last_round_missing_from_report :
  run tenTaps (mount ColorGame true oracle0) = Some afterTenTaps /\
  step Fire afterTenTaps = Some afterTenRounds /\
  colorScore (st afterTenRounds) = 800 /\
  colorScore (st afterTenRounds) / COLOR_SCORE_XP_DIVISOR = 80 /\
  reports afterTenRounds = [72] /\
  alerts afterTenRounds = [AlertColorComplete 720 720 1] /\
  option_map totalXP (stats afterTenRounds) = Some 720.
Proof.
  split; [vm_compute; reflexivity|].
  split; [vm_compute; reflexivity|].
  split; [|split; [|split; [|split]]]; reflexivity.
Qed.


(** ** Game over in the colour game *)





Lemma handleColorFail_mounted (r : State) (m : Machine) :
  mounted (handleColorFail r m) = mounted m.
Proof.
  open_machine m. destruct mMt, rWait, rColor, mCu, mIo, mUo;
    unfold handleColorFail; split_score_tests; model_cbv; reflexivity.
Qed.








(** ** Re-renders in general *)

Lemma effs_setState (f : State -> State) (m : Machine) :
  effs (setState f m) = effs m.
Proof. unfold setState. destruct (mounted m); reflexivity. Qed.

Lemma effs_clearRef (k : Slot) (m : Machine) : effs (clearRef k m) = effs m.
Proof. unfold clearRef. destruct (getSlot k (refs m)); reflexivity. Qed.

Lemma effs_spawnTarget (m : Machine) : effs (spawnTarget m) = effs m.
Proof.
  unfold spawnTarget, draw. cbn zeta. cbn [snd setTimeout schedule].
  match goal with
  | |- effs (put_nextHandle _ (put_timers _ ?x)) = _ =>
      change (effs x = effs m)
  end.
  rewrite effs_setState. reflexivity.
Qed.

Lemma effs_startColorRound (r : State) (m : Machine) :
  effs (startColorRound r m) = effs m.
Proof.
  unfold startColorRound, draw. cbn zeta. cbn [setTimeout schedule].
  match goal with
  | |- effs (put_refs _ (put_nextHandle _ (put_timers _ (put_rix _ ?x))))
       = _ => change (effs x = effs m)
  end.
  unfold setReactionTime, setCircleColor, setIsWaiting.
  rewrite !effs_setState. reflexivity.
Qed.

Lemma effs_arm (k : Slot) (c : Callback) (d : Z) (p : option Z)
  (m : Machine) :
  effs (let (h, m0) := schedule d p c m in
        put_refs (setSlot k (Some h) (refs m0)) m0) = effs m.
Proof. reflexivity. Qed.

Lemma effs_effect1 (s : State) (m : Machine) : effs (effect1 s m) = effs m.
Proof.
  unfold effect1.
  destruct (isTarget m && isPlaying s && negb (isPaused s) && (timeLeft s >? 0));
    [reflexivity | apply effs_clearRef].
Qed.

Lemma effs_effect2 (s : State) (m : Machine) : effs (effect2 s m) = effs m.
Proof.
  unfold effect2.
  destruct (isTarget m && isPlaying s && negb (isPaused s));
    [|apply effs_clearRef].
  cbv zeta. unfold setInterval. rewrite effs_arm. apply effs_spawnTarget.
Qed.

Lemma effs_effect3 (s : State) (m : Machine) : effs (effect3 s m) = effs m.
Proof.
  unfold effect3.
  destruct (isColor m && isPlaying s && negb (isPaused s)
            && negb (roundInProgressRef (refs m)));
    [apply effs_startColorRound | reflexivity].
Qed.

Lemma effs_cleanup3 (s : State) (m : Machine) : effs (cleanup3 s m) = effs m.
Proof.
  unfold cleanup3, clearTimeoutRef.
  destruct (negb (isPlaying s) || isPaused s); [|reflexivity].
  change (effs (clearRef ColorTimerRef (clearRef WaitTimerRef m)) = effs m).
  rewrite !effs_clearRef. reflexivity.
Qed.

Lemma effs_put_eff1 (s : State) (m : Machine) :
  effs (put_eff1 s m) = (s, snd (fst (effs m)), snd (effs m)).
Proof. reflexivity. Qed.
Lemma effs_put_eff2 (s : State) (m : Machine) :
  effs (put_eff2 s m) = (fst (fst (effs m)), s, snd (effs m)).
Proof. reflexivity. Qed.
Lemma effs_put_eff3 (s : State) (m : Machine) :
  effs (put_eff3 s m) = (fst (fst (effs m)), snd (fst (effs m)), s).
Proof. reflexivity. Qed.

Create Rewrite HintDb effs_db.
#[local] Hint Rewrite effs_put_eff1 effs_put_eff2 effs_put_eff3
  effs_effect1 effs_effect2 effs_effect3 effs_cleanup3 effs_clearRef
  : effs_db.















(** ** Pause and resume in the colour game *)


















(** * gameUtils *)

Section Documents.
Context {A : Type}.
Implicit Types (l : list (GameUtils.UserId * A)) (id : GameUtils.UserId).

Lemma getDoc_setDoc_same id (v : A) l :
  GameUtils.getDoc id (GameUtils.setDoc id v l) = Some v.
Proof.
  induction l as [|[k v'] l IH]; cbn.
  - rewrite String.eqb_refl. reflexivity.
  - destruct (String.eqb k id) eqn:E; cbn; rewrite E; [reflexivity | exact IH].
Qed.

Lemma getDoc_setDoc_other id id' (v : A) l :
  id <> id' ->
  GameUtils.getDoc id' (GameUtils.setDoc id v l) = GameUtils.getDoc id' l.
Proof.
  intros Hne. induction l as [|[k v'] l IH]; cbn.
  - destruct (String.eqb id id') eqn:E; [|reflexivity].
    apply String.eqb_eq in E. contradiction.
  - destruct (String.eqb k id) eqn:E; cbn.
    + apply String.eqb_eq in E. subst k.
      destruct (String.eqb id id') eqn:E'; [|reflexivity].
      apply String.eqb_eq in E'. contradiction.
    + rewrite IH. reflexivity.
Qed.

Lemma getDoc_setDoc id id' (v : A) l :
  GameUtils.getDoc id' (GameUtils.setDoc id v l)
  = if String.eqb id id' then Some v else GameUtils.getDoc id' l.
Proof.
  destruct (String.eqb id id') eqn:E.
  - apply String.eqb_eq in E. subst. apply getDoc_setDoc_same.
  - apply String.eqb_neq in E. apply getDoc_setDoc_other. exact E.
Qed.

Lemma getDoc_removeItem id id' l :
  GameUtils.getDoc id' (GameUtils.removeItem id l)
  = if String.eqb id id' then None else GameUtils.getDoc id' l.
Proof.
  unfold GameUtils.removeItem.
  induction l as [|[k v] l IH]; cbn.
  - destruct (String.eqb id id'); reflexivity.
  - destruct (String.eqb k id) eqn:E; cbn.
    + apply String.eqb_eq in E. subst k. rewrite IH.
      destruct (String.eqb id id'); reflexivity.
    + rewrite IH. destruct (String.eqb k id') eqn:E'; [|reflexivity].
      apply String.eqb_eq in E'. subst k.
      rewrite String.eqb_sym, E. reflexivity.
Qed.

Lemma getDoc_In id (v : A) l :
  In (id, v) l -> GameUtils.getDoc id l <> None.
Proof.
  induction l as [|[k v'] l IH]; cbn; [tauto|].
  intros [H|H].
  - inversion H; subst. rewrite String.eqb_refl. discriminate.
  - destruct (String.eqb k id); [discriminate | auto].
Qed.

End Documents.

Ltac store_cbn :=
  cbn [GameUtils.users GameUtils.userStats GameUtils.cache
       GameUtils.put_users GameUtils.put_userStats GameUtils.put_cache fst snd].

Lemma consistent_empty : GameUtils.Consistent GameUtils.emptyStore.
Proof.
  split; cbn; try discriminate; intros; tauto.
Qed.

Lemma getDoc_setDoc_some {A : Type} (id id' : GameUtils.UserId) (v : A)
  (l : list (GameUtils.UserId * A)) :
  GameUtils.getDoc id' l <> None ->
  GameUtils.getDoc id' (GameUtils.setDoc id v l) <> None.
Proof.
  rewrite getDoc_setDoc. destruct (String.eqb id id'); [discriminate | auto].
Qed.

Lemma consistent_initializeUserProfile (userId : GameUtils.UserId)
  (em : String.string) (w : GameUtils.Store) :
  GameUtils.Consistent w -> GameUtils.Consistent (GameUtils.initializeUserProfile userId em w).
Proof.
  intros [Ha Hb Hc Hd He]. unfold GameUtils.initializeUserProfile.
  destruct (GameUtils.getDoc userId (GameUtils.users w)) eqn:Eu;
    [split; assumption|].
  pose proof (proj1 (Ha userId) Eu) as Es.
  split; store_cbn.
  - intros id. rewrite !getDoc_setDoc.
    destruct (String.eqb userId id); [split; discriminate | apply Ha].
  - intros id d s. rewrite !getDoc_setDoc.
    destruct (String.eqb userId id); [|apply Hb].
    intros H1 H2. inversion H1; inversion H2; subst. repeat split.
  - intros id c Hcache. rewrite getDoc_setDoc.
    destruct (String.eqb userId id) eqn:E; [|apply Hc; exact Hcache].
    apply String.eqb_eq in E. subst id.
    apply Hc in Hcache. congruence.
  - intros id d. rewrite getDoc_setDoc.
    destruct (String.eqb userId id) eqn:E.
    + intros H. inversion H; subst. cbn.
      split; [constructor|]. split; [tauto|]. intros f [].
    + intros H. destruct (Hd id d H) as (H1 & H2 & H3).
      split; [assumption|]. split; [assumption|].
      intros f Hf. apply getDoc_setDoc_some. apply H3. exact Hf.
  - intros id s. rewrite getDoc_setDoc.
    destruct (String.eqb userId id); [|apply He].
    intros H. inversion H; subst. cbn. split; [reflexivity | lia].
Qed.

Lemma fst_getUserStats (userId : GameUtils.UserId) (nowMs : Z)
  (w : GameUtils.Store) :
  GameUtils.users (fst (GameUtils.getUserStats userId nowMs w))
  = GameUtils.users w /\
  GameUtils.userStats (fst (GameUtils.getUserStats userId nowMs w))
  = GameUtils.userStats w /\
  (GameUtils.cache (fst (GameUtils.getUserStats userId nowMs w))
   = GameUtils.cache w \/
   exists s, GameUtils.getDoc userId (GameUtils.userStats w) = Some s /\
     GameUtils.cache (fst (GameUtils.getUserStats userId nowMs w))
     = GameUtils.setDoc userId (GameUtils.mkCached s nowMs)
                        (GameUtils.cache w)).
Proof.
  unfold GameUtils.getUserStats.
  destruct (GameUtils.getDoc userId (GameUtils.cache w)) as [c|];
    [destruct (nowMs - GameUtils.c_timestamp c <? GameUtils.CACHE_LIFETIME)|];
    try destruct (GameUtils.getDoc userId (GameUtils.userStats w)) as [s|];
    cbn; (split; [reflexivity|]); (split; [reflexivity|]);
    first [left; reflexivity | right; eexists; split; reflexivity].
Qed.

Lemma consistent_getUserStats (userId : GameUtils.UserId) (nowMs : Z)
  (w : GameUtils.Store) :
  GameUtils.Consistent w -> GameUtils.Consistent (fst (GameUtils.getUserStats userId nowMs w)).
Proof.
  intros [Ha Hb Hc Hd He].
  destruct (fst_getUserStats userId nowMs w) as (Eu & Es & Ec).
  split; rewrite ?Eu, ?Es; try assumption.
  destruct Ec as [Ec | (s & Hs & Ec)]; rewrite Ec; [assumption|].
  intros id c. rewrite getDoc_setDoc.
  destruct (String.eqb userId id) eqn:E; [|apply Hc].
  apply String.eqb_eq in E. subst id.
  intros H. inversion H; subst. exact Hs.
Qed.

Lemma inSync_syncUserDoc (s : Stats) (d : GameUtils.UserDoc) :
  GameUtils.inSync (GameUtils.syncUserDoc s d) s.
Proof. repeat split. Qed.

Lemma consistent_updateUserStats (userId : GameUtils.UserId)
  (score nowMs : Z) (w : GameUtils.Store) :
  GameUtils.Consistent w ->
  GameUtils.Consistent (fst (GameUtils.updateUserStats userId score nowMs w)).
Proof.
  intros [Ha Hb Hc Hd He]. unfold GameUtils.updateUserStats.
  destruct (GameUtils.getDoc userId (GameUtils.userStats w)) as [s0|] eqn:Es;
    [|split; assumption].
  cbn [GameUtils.users GameUtils.put_userStats].
  destruct (GameUtils.getDoc userId (GameUtils.users w)) as [d|] eqn:Eu;
    [|apply Ha in Eu; congruence].
  store_cbn. split; store_cbn.
  - intros id. rewrite !getDoc_setDoc.
    destruct (String.eqb userId id); [split; discriminate | apply Ha].
  - intros id d' s'. rewrite !getDoc_setDoc.
    destruct (String.eqb userId id); [|apply Hb].
    intros H1 H2. inversion H1; inversion H2; subst.
    apply inSync_syncUserDoc.
  - intros id c. rewrite getDoc_removeItem, getDoc_setDoc.
    destruct (String.eqb userId id); [discriminate | apply Hc].
  - intros id d'. rewrite getDoc_setDoc.
    destruct (String.eqb userId id) eqn:E.
    + apply String.eqb_eq in E. subst id.
      intros H. inversion H; subst. cbn.
      destruct (Hd userId d Eu) as (H1 & H2 & H3).
      split; [assumption|]. split; [assumption|].
      intros f Hf. apply getDoc_setDoc_some. apply H3. exact Hf.
    + intros H. destruct (Hd id d' H) as (H1 & H2 & H3).
      split; [assumption|]. split; [assumption|].
      intros f Hf. apply getDoc_setDoc_some. apply H3. exact Hf.
  - intros id s. rewrite getDoc_setDoc.
    destruct (String.eqb userId id); [|apply He].
    intros H. inversion H; subst. unfold updateUserStats. cbn.
    split; [reflexivity|]. destruct (He userId s0 Es). lia.
Qed.

Lemma whereUsername_In (name : String.string)
  (l : list (GameUtils.UserId * GameUtils.UserDoc))
  (p : GameUtils.UserId * GameUtils.UserDoc)
  (rest : list (GameUtils.UserId * GameUtils.UserDoc)) :
  GameUtils.whereUsername name l = p :: rest ->
  In p l /\ GameUtils.username (snd p) = name.
Proof.
  intros H. assert (Hin : In p (GameUtils.whereUsername name l))
    by (rewrite H; left; reflexivity).
  unfold GameUtils.whereUsername in Hin. apply filter_In in Hin.
  destruct Hin as [H1 H2]. split; [assumption|].
  apply String.eqb_eq. exact H2.
Qed.

Lemma includes_In (l : list GameUtils.UserId) (id : GameUtils.UserId) :
  GameUtils.includes l id = true <-> In id l.
Proof.
  unfold GameUtils.includes. rewrite existsb_exists. split.
  - intros (x & Hx & E). apply String.eqb_eq in E. subst. exact Hx.
  - intros H. exists id. split; [exact H | apply String.eqb_refl].
Qed.

Lemma consistent_addFriendByUsername (userId : GameUtils.UserId)
  (name : String.string) (w : GameUtils.Store) :
  GameUtils.Consistent w ->
  GameUtils.Consistent (fst (GameUtils.addFriendByUsername userId name w)).
Proof.
  intros Hw. pose proof Hw as [Ha Hb Hc Hd He].
  unfold GameUtils.addFriendByUsername.
  destruct (GameUtils.whereUsername name (GameUtils.users w))
    as [|[friendId friendDoc] rest] eqn:Eq; [exact Hw|].
  apply whereUsername_In in Eq. destruct Eq as [Hin _].
  destruct (String.eqb friendId userId) eqn:Eself; [exact Hw|].
  apply String.eqb_neq in Eself.
  destruct (GameUtils.getDoc userId (GameUtils.users w)) as [d|] eqn:Eu;
    [|destruct (GameUtils.includes [] friendId); exact Hw].
  destruct (GameUtils.includes (GameUtils.friends d) friendId) eqn:Einc;
    [exact Hw|].
  assert (Hnew : ~ In friendId (GameUtils.friends d)).
  { intros H. apply includes_In in H. congruence. }
  store_cbn. split; store_cbn.
  - intros id. rewrite getDoc_setDoc.
    destruct (String.eqb userId id) eqn:E; [|apply Ha].
    apply String.eqb_eq in E. subst id. split; [discriminate|].
    intros H. apply Ha in H. congruence.
  - intros id d' s'. rewrite getDoc_setDoc.
    destruct (String.eqb userId id) eqn:E; [|apply Hb].
    apply String.eqb_eq in E. subst id.
    intros H1 H2. inversion H1; subst. exact (Hb userId d s' Eu H2).
  - exact Hc.
  - intros id d'. rewrite getDoc_setDoc.
    destruct (String.eqb userId id) eqn:E.
    + apply String.eqb_eq in E. subst id.
      intros H. inversion H; subst. cbn.
      destruct (Hd userId d Eu) as (H1 & H2 & H3).
      split; [|split].
      * apply NoDup_app; [assumption | repeat constructor; tauto |].
        intros x Hx [Hx'|[]]. subst. contradiction.
      * rewrite in_app_iff. intros [H'|[H'|[]]]; [contradiction|].
        subst. contradiction.
      * intros f Hf. apply getDoc_setDoc_some.
        apply in_app_iff in Hf. destruct Hf as [Hf|[Hf|[]]]; [auto|].
        subst f. exact (getDoc_In _ _ _ Hin).
    + intros H. destruct (Hd id d' H) as (H1 & H2 & H3).
      split; [assumption|]. split; [assumption|].
      intros f Hf. apply getDoc_setDoc_some. apply H3. exact Hf.
  - exact He.
Qed.

Lemma fst_getNextChallenge (userId : GameUtils.UserId) (nowMs : Z)
  (w : GameUtils.Store) :
  fst (GameUtils.getNextChallenge userId nowMs w)
  = fst (GameUtils.getUserStats userId nowMs w).
Proof.
  unfold GameUtils.getNextChallenge.
  destruct (GameUtils.getUserStats userId nowMs w). reflexivity.
Qed.

Lemma consistent_call (c : GameUtils.Call) (w : GameUtils.Store) :
  GameUtils.Consistent w -> GameUtils.Consistent (GameUtils.call c w).
Proof.
  intros Hw. destruct c; cbn [GameUtils.call].
  - apply consistent_initializeUserProfile; assumption.
  - apply consistent_getUserStats; assumption.
  - apply consistent_updateUserStats; assumption.
  - apply consistent_addFriendByUsername; assumption.
  - rewrite fst_getNextChallenge. apply consistent_getUserStats; assumption.
Qed.

Lemma consistent_calls (cs : list GameUtils.Call) (w : GameUtils.Store) :
  GameUtils.Consistent w -> GameUtils.Consistent (GameUtils.calls cs w).
Proof.
  unfold GameUtils.calls. revert w.
  induction cs as [|c cs IH]; intros w Hw; [exact Hw|].
  cbn [fold_left]. apply IH. apply consistent_call. exact Hw.
Qed.

(** ** Properties of every store the module builds *)






(** X9. The level follows the total XP. After any sequence of calls on
    an empty store the statistics of a user have
    [level = floor(totalXP / 1000) + 1]; so the XP shown by
    [getXPProgress] for them is [totalXP mod 1000], at least 0 and below
    the 1000 needed, and the total XP lies between the thresholds
    [getXPForNextLevel] gives for the level below and for the level. *)
Theorem level_follows_total_xp
  (cs : list GameUtils.Call) (id : GameUtils.UserId) :
  let s := GameUtils.currentStats id
             (GameUtils.calls cs GameUtils.emptyStore) in
  let p := GameUtils.getXPProgress (totalXP s) (level s) in
  level s = totalXP s / XP_PER_LEVEL + 1 /\
  GameUtils.current p = totalXP s mod XP_PER_LEVEL /\
  0 <= GameUtils.current p < GameUtils.needed p /\
  GameUtils.getXPForNextLevel (level s - 1) <= totalXP s
    < GameUtils.getXPForNextLevel (level s).
Proof.
  pose proof (consistent_calls cs _ consistent_empty) as [_ _ _ _ He].
  specialize (He id). unfold GameUtils.currentStats.
  destruct (GameUtils.getDoc id (GameUtils.userStats _)) as [s|].
  - destruct (He s eq_refl) as [Hl _]. cbv zeta.
    unfold GameUtils.getXPProgress, GameUtils.getXPForNextLevel.
    cbn [GameUtils.current GameUtils.needed]. rewrite Hl.
    unfold XP_PER_LEVEL.
    pose proof (Z.div_mod (totalXP s) 1000 ltac:(lia)) as Hdm.
    pose proof (Z.mod_pos_bound (totalXP s) 1000 ltac:(lia)) as Hb.
    repeat split; lia.
  - cbv. repeat split; congruence.
Qed.

(** ** One user's history *)







(** ** The friends leaderboard *)







(** ** The recommended challenge *)





(** ** Scores that are not negative *)

Lemma userStats_addFriendByUsername (id : GameUtils.UserId)
  (name : String.string) (w : GameUtils.Store) :
  GameUtils.userStats (fst (GameUtils.addFriendByUsername id name w))
  = GameUtils.userStats w /\
  GameUtils.cache (fst (GameUtils.addFriendByUsername id name w))
  = GameUtils.cache w.
Proof.
  unfold GameUtils.addFriendByUsername.
  destruct (GameUtils.whereUsername name (GameUtils.users w))
    as [|[friendId friendDoc] rest]; [split; reflexivity|].
  destruct (String.eqb friendId id); [split; reflexivity|].
  destruct (GameUtils.getDoc id (GameUtils.users w)) as [d|];
    destruct (GameUtils.includes _ friendId); split; reflexivity.
Qed.

Lemma userStats_call (c : GameUtils.Call) (w : GameUtils.Store)
  (id : GameUtils.UserId) (s : Stats) :
  GameUtils.getDoc id (GameUtils.userStats (GameUtils.call c w)) = Some s ->
  GameUtils.getDoc id (GameUtils.userStats w) = Some s \/
  s = GameUtils.newStats \/
  exists s0 nowMs,
    GameUtils.getDoc id (GameUtils.userStats w) = Some s0 /\
    s = fst (updateUserStats (Some s0) nowMs (GameUtils.reportedScore c)).
Proof.
  destruct c as [u em | u t | u sc t | u name | u t];
    cbn [GameUtils.call GameUtils.reportedScore].
  - unfold GameUtils.initializeUserProfile.
    destruct (GameUtils.getDoc u (GameUtils.users w)); [auto|].
    store_cbn. rewrite getDoc_setDoc.
    destruct (String.eqb u id); [|auto].
    intros H. injection H as <-. right. left. reflexivity.
  - rewrite (proj1 (proj2 (fst_getUserStats u t w))). auto.
  - unfold GameUtils.updateUserStats.
    destruct (GameUtils.getDoc u (GameUtils.userStats w)) as [s0|] eqn:Es;
      [|auto].
    store_cbn.
    destruct (GameUtils.getDoc u (GameUtils.users w)); store_cbn;
      rewrite getDoc_setDoc;
      (destruct (String.eqb u id) eqn:E; [|auto]);
      apply String.eqb_eq in E; subst u;
      intros H; injection H as <-; right; right;
      exists s0, t; (split; [exact Es | reflexivity]).
  - rewrite (proj1 (userStats_addFriendByUsername u name w)). auto.
  - rewrite fst_getNextChallenge.
    rewrite (proj1 (proj2 (fst_getUserStats u t w))). auto.
Qed.

Lemma nonneg_stats_calls (cs : list GameUtils.Call) :
  forall w : GameUtils.Store,
    Forall (fun c => 0 <= GameUtils.reportedScore c) cs ->
    (forall id s, GameUtils.getDoc id (GameUtils.userStats w) = Some s ->
       0 <= weeklyXP s <= totalXP s /\
       0 <= XP_PER_SCORE_POINT * bestScore s <= totalXP s) ->
    forall id s,
      GameUtils.getDoc id (GameUtils.userStats (GameUtils.calls cs w))
      = Some s ->
      0 <= weeklyXP s <= totalXP s /\
      0 <= XP_PER_SCORE_POINT * bestScore s <= totalXP s.
Proof.
  induction cs as [|c cs IH]; intros w Hall Hw; [exact Hw|].
  inversion Hall as [|? ? Hc Hcs]; subst.
  change (GameUtils.calls (c :: cs) w)
    with (GameUtils.calls cs (GameUtils.call c w)).
  apply IH; [exact Hcs|].
  intros id s Hs. apply userStats_call in Hs.
  destruct Hs as [Hs | [Hs | (s0 & t & Hs0 & Hs)]].
  - exact (Hw id s Hs).
  - subst s. cbn. unfold XP_PER_SCORE_POINT. lia.
  - specialize (Hw id s0 Hs0). subst s. unfold updateUserStats.
    cbn [fst totalXP weeklyXP bestScore].
    unfold XP_PER_SCORE_POINT in *.
    destruct (match lastChallengeDate s0 with
              | Some d => 7 * MS_PER_DAY <? t - d
              | None => true
              end); lia.
Qed.

(** X14. Weekly XP and best score are covered by the total. If no call
    reports a negative score, then after any sequence of calls on an
    empty store the statistics of every user have a weekly XP between 0
    and the total XP, ten XP per point of the best score do not exceed
    the total XP, and the level is at least 1. *)
Theorem weekly_xp_within_total
  (cs : list GameUtils.Call) (id : GameUtils.UserId) :
  Forall (fun c => 0 <= GameUtils.reportedScore c) cs ->
  let s := GameUtils.currentStats id
             (GameUtils.calls cs GameUtils.emptyStore) in
  0 <= weeklyXP s <= totalXP s /\
  0 <= XP_PER_SCORE_POINT * bestScore s <= totalXP s /\
  1 <= level s.
Proof.
  intros Hall. cbv zeta.
  pose proof (nonneg_stats_calls cs GameUtils.emptyStore Hall) as Hn.
  pose proof (consistent_calls cs _ consistent_empty) as [_ _ _ _ He].
  unfold GameUtils.currentStats.
  destruct (GameUtils.getDoc id (GameUtils.userStats _)) as [s|] eqn:Es.
  - destruct (Hn ltac:(cbn; discriminate) id s Es) as (H1 & H2).
    destruct (He id s Es) as (Hl & _).
    split; [exact H1|]. split; [exact H2|].
    rewrite Hl. unfold XP_PER_LEVEL.
    pose proof (Z.div_pos (totalXP s) 1000 ltac:(lia) ltac:(lia)). lia.
  - cbv. repeat split; congruence.
Qed.

Lemma weekly_xp_within_total_witness :
  weeklyXP (GameUtils.currentStats GameUtils.alice
              (GameUtils.calls GameUtils.sampleCalls GameUtils.emptyStore))
  <= 120.
Proof.
  destruct (weekly_xp_within_total GameUtils.sampleCalls GameUtils.alice)
    as ((_ & H) & _).
  - repeat constructor; cbn; lia.
  - exact H.
Defined.

(** ** New profiles and new friends *)




(** X16. Adding a friend is one-sided and all or nothing. When
    [addFriendByUsername] throws, the store is as before. When it
    returns, the returned profile carries the requested user name and
    belongs to another user who was not yet in the caller's friends list;
    the caller's list is the old one with that user's id at the end, the
    rest of the caller's profile is unchanged, and no other document
    changes: in particular the new friend's own friends list does not
    gain the caller. *)
Theorem addFriendByUsername_one_sided
  (id : GameUtils.UserId) (name : String.string) (w : GameUtils.Store) :
  let w' := fst (GameUtils.addFriendByUsername id name w) in
  match snd (GameUtils.addFriendByUsername id name w) with
  | inl _ => w' = w
  | inr friendDoc =>
      GameUtils.username friendDoc = name /\
      GameUtils.userStats w' = GameUtils.userStats w /\
      GameUtils.cache w' = GameUtils.cache w /\
      (forall other, other <> id ->
         GameUtils.getDoc other (GameUtils.users w')
         = GameUtils.getDoc other (GameUtils.users w)) /\
      exists friendId d,
        In (friendId, friendDoc) (GameUtils.users w) /\
        friendId <> id /\
        GameUtils.getDoc id (GameUtils.users w) = Some d /\
        ~ In friendId (GameUtils.friends d) /\
        GameUtils.getDoc id (GameUtils.users w')
        = Some (GameUtils.with_friends
                  (GameUtils.friends d ++ [friendId]) d)
  end.
Proof.
  cbv zeta. unfold GameUtils.addFriendByUsername.
  destruct (GameUtils.whereUsername name (GameUtils.users w))
    as [|[friendId friendDoc] rest] eqn:Eq; [reflexivity|].
  apply whereUsername_In in Eq. destruct Eq as [Hin Hname].
  destruct (String.eqb friendId id) eqn:Eself; [reflexivity|].
  apply String.eqb_neq in Eself.
  destruct (GameUtils.getDoc id (GameUtils.users w)) as [d|] eqn:Eu;
    [|destruct (GameUtils.includes [] friendId); reflexivity].
  destruct (GameUtils.includes (GameUtils.friends d) friendId) eqn:Einc;
    [reflexivity|].
  store_cbn. split; [exact Hname|]. split; [reflexivity|].
  split; [reflexivity|]. split.
  - intros other Hne. apply getDoc_setDoc_other. congruence.
  - exists friendId, d. split; [exact Hin|]. split; [exact Eself|].
    split; [reflexivity|]. split.
    + intros H. apply includes_In in H. congruence.
    + apply getDoc_setDoc_same.
Qed.

(** ** After the screen is gone *)

Ltac split_tests :=
  repeat match goal with
         | |- context [if (?a >? ?b) then _ else _] => destruct (a >? b)
         | |- context [andb _ (?a >? ?b)] => destruct (a >? b)
         | |- context [if (?a <=? ?b) then _ else _] => destruct (a <=? b)
         | |- context [if (?a >=? ?b) then _ else _] => destruct (a >=? b)
         | |- context [if (?a <? ?b) then _ else _] => destruct (a <? b)
         end.





(** ** A signed-out player *)

Lemma account_backend (m m' : Machine) :
  backend m' = backend m -> account m' = account m.
Proof.
  unfold backend, account. intros H. injection H as H1 _ _ H4 H5 _.
  rewrite H1, H4, H5. reflexivity.
Qed.

Lemma account_commit (m : Machine) : account (commit m) = account m.
Proof. apply account_backend. apply stable_backend. apply stable_commit. Qed.

Lemma account_handleColorFail (r : State) (m : Machine) :
  currentUser m = false -> account (handleColorFail r m) = account m.
Proof.
  intros Hu. open_machine m. subst.
  destruct mMt, rWait, rColor; unfold handleColorFail; split_score_tests;
    model_cbv; reflexivity.
Qed.

Lemma account_handleColorMiss (r : State) (m : Machine) :
  currentUser m = false -> account (handleColorMiss r m) = account m.
Proof.
  intros Hu. open_machine m. subst.
  destruct mMt, rWait; unfold handleColorMiss; split_score_tests;
    model_cbv; reflexivity.
Qed.

Lemma account_endColorGame (r : State) (m : Machine) :
  currentUser m = false -> account (endColorGame r m) = account m.
Proof.
  intros Hu. open_machine m. subst.
  destruct mMt, rWait, rColor; unfold endColorGame; split_score_tests;
    model_cbv; reflexivity.
Qed.

Lemma account_endGame (r : State) (m : Machine) :
  currentUser m = false -> account (endGame r m) = account m.
Proof.
  intros Hu. open_machine m. subst.
  destruct mMt, rTimer, rSpawn; unfold endGame; model_cbv; reflexivity.
Qed.

Lemma account_setState (f : State -> State) (m : Machine) :
  account (setState f m) = account m.
Proof. unfold setState. destruct (mounted m); reflexivity. Qed.

Lemma account_clearRef (k : Slot) (m : Machine) :
  account (clearRef k m) = account m.
Proof. unfold clearRef. destruct (getSlot k (refs m)); reflexivity. Qed.

Lemma account_unmount (m : Machine) : account (unmount m) = account m.
Proof.
  unfold unmount. destruct (mounted m); [|reflexivity].
  unfold cleanup3, cleanup2, cleanup1, clearIntervalRef, clearTimeoutRef.
  match goal with
  | |- context [if ?c then _ else _] => destruct c
  end;
  change (account (put_mounted false ?x)) with (account x);
  try change (account (setRoundInProgress false ?x)) with (account x);
  rewrite ?account_clearRef; reflexivity.
Qed.

Lemma account_handleColorPress (r : State) (m : Machine) :
  currentUser m = false -> account (handleColorPress r m) = account m.
Proof.
  intros Hu. unfold handleColorPress.
  destruct (circleColor r); [apply account_handleColorFail; exact Hu|].
  destruct (truthy (greenTime r)); [|reflexivity].
  open_machine m.
  destruct mMt, rColor;
    repeat match goal with
           | |- context [if ?c then _ else _] => destruct c
           end; reflexivity.
Qed.

Lemma account_callback (c : Callback) (m : Machine) :
  currentUser m = false -> account (run_callback c m) = account m.
Proof.
  intros Hu. destruct c as [r | | id | r | r | r | n]; cbn [run_callback].
  - unfold countdownTick. destruct (timeLeft (st m) <=? 1).
    + unfold setTimeLeft. rewrite account_setState.
      apply account_endGame. exact Hu.
    + apply account_setState.
  - apply account_backend. apply stable_backend. apply stable_spawnTarget.
  - apply account_setState.
  - open_machine m. destruct mMt; reflexivity.
  - apply account_handleColorMiss. exact Hu.
  - apply account_endColorGame. exact Hu.
  - open_machine m. destruct mMt; reflexivity.
Qed.

Lemma account_action (a : UserAction) (m : Machine) :
  currentUser m = false -> account (handle_action a m) = account m.
Proof.
  intros Hu. destruct a; cbn [handle_action].
  - open_machine m. destruct mTy, mMt; reflexivity.
  - open_machine m. destruct mTy, mMt, rColor, rWait; reflexivity.
  - apply account_setState.
  - unfold handleTargetPress. rewrite !account_setState. reflexivity.
  - apply account_handleColorPress. exact Hu.
  - unfold handleBack. destruct (isPlaying (st m));
      [reflexivity | apply account_unmount].
  - unfold leaveGame, clearTimeoutRef, clearIntervalRef.
    rewrite account_unmount, !account_clearRef.
    unfold setGameStarted, setTargets, setIsPlaying.
    rewrite !account_setState. reflexivity.
  - unfold playAgain, setLoading, setGameStarted.
    rewrite !account_setState. reflexivity.
  - open_machine m. destruct mMt; reflexivity.
  - unfold backToHome, setLoading.
    rewrite account_setState. apply account_unmount.
Qed.

Lemma account_step (e : Event) (m m' : Machine) :
  currentUser m = false -> step e m = Some m' -> account m' = account m.
Proof.
  intros Hu Hs. destruct e as [|dt a]; cbn [step] in Hs.
  - destruct (next_timer (timers m)) as [t|]; [|discriminate].
    injection Hs as <-. unfold fire_timer.
    rewrite account_commit, account_callback; reflexivity || exact Hu.
  - destruct ((0 <=? dt) && _ && enabled a m); [|discriminate].
    injection Hs as <-.
    rewrite account_commit, account_action; reflexivity || exact Hu.
Qed.

(** X18. A signed-out player never saves. If nobody is signed in, no run
    of the screen, in either mode, calls [updateUserStats] or touches the
    statistics document: the reported scores and the document stay as
    they were, and nobody gets signed in. *)
Theorem signed_out_never_saves (es : list Event) :
  forall m m' : Machine,
    currentUser m = false -> run es m = Some m' ->
    currentUser m' = false /\ reports m' = reports m /\ stats m' = stats m.
Proof.
  induction es as [|e es IH]; intros m m' Hu Hr; cbn [run] in Hr.
  - injection Hr as <-. auto.
  - destruct (step e m) as [m1|] eqn:Es; [|discriminate].
    pose proof (account_step e m m1 Hu Es) as Ha.
    unfold account in Ha. injection Ha as H1 H2 H3.
    destruct (IH m1 m' (eq_trans H1 Hu) Hr) as (I1 & I2 & I3).
    split; [exact I1|]. split; congruence.
Qed.

Lemma signed_out_never_saves_witness :
  reports afterSignedOutSession = [] /\ stats afterSignedOutSession = None.
Proof.
  destruct (signed_out_never_saves signedOutSession
              (mount ColorGame false oracle0) afterSignedOutSession)
    as (_ & H1 & H2).
  - reflexivity.
  - vm_compute. reflexivity.
  - split; [exact H1 | exact H2].
Defined.

(** ** Timers without a handle, in general *)

Lemma preserving_frame (f : Machine -> Machine) :
  (forall m, timers (f m) = timers m /\ refs (f m) = refs m /\
             nextHandle (f m) = nextHandle m) ->
  Preserving f.
Proof.
  intros H t m. destruct (H m) as (H1 & H2 & H3).
  apply untouchable_frame; assumption.
Qed.

Lemma preserving_pushAlert (a : Alert) : Preserving (pushAlert a).
Proof. apply preserving_frame. intros m. repeat split. Qed.

Lemma preserving_put_stats (x : option Stats) : Preserving (put_stats x).
Proof. apply preserving_frame. intros m. repeat split. Qed.

Lemma preserving_put_reports (x : list Z) : Preserving (put_reports x).
Proof. apply preserving_frame. intros m. repeat split. Qed.

Lemma preserving_put_mounted (b : bool) : Preserving (put_mounted b).
Proof. apply preserving_frame. intros m. repeat split. Qed.

(** One step of a handler written with the primitives of the model. *)
Ltac preserve_step t :=
  match goal with
  | H : Untouchable t ?m |- Untouchable t ?m => exact H
  | |- Untouchable t (setState _ _) => apply preserving_setState
  | |- Untouchable t (clearRef _ _) => apply preserving_clearRef
  | |- Untouchable t (setRoundInProgress _ _) =>
      apply preserving_setRoundInProgress
  | |- Untouchable t (pushAlert _ _) => apply preserving_pushAlert
  | |- Untouchable t (put_stats _ _) => apply preserving_put_stats
  | |- Untouchable t (put_reports _ _) => apply preserving_put_reports
  | |- Untouchable t (put_mounted _ _) => apply preserving_put_mounted
  | |- Untouchable t (put_now _ _) => apply preserving_put_now
  | |- Untouchable t (unmount _) => apply preserving_unmount
  | |- Untouchable t (commit _) => apply preserving_commit
  | |- Untouchable t (spawnTarget _) => apply preserving_spawnTarget
  | |- Untouchable t (snd (schedule ?d ?p ?c _)) =>
      apply (preserving_schedule c d p)
  | |- Untouchable t (if ?c then _ else _) => destruct c
  | |- _ => progress cbv beta iota zeta
  | |- Untouchable t (match ?c with Red => _ | Green => _ end) => destruct c
  | |- Untouchable t (match ?c with TargetGame => _ | ColorGame => _ end) =>
      destruct c
  end.

Ltac preserve t := repeat preserve_step t.

Ltac open_setters :=
  unfold saveFailed;
  unfold setScore, setTimeLeft, setTargets, setCircleColor, setReactionTime,
    setRoundsCompleted, setBestReactionTime, setGreenTime, setIsWaiting,
    setColorScore, setIsPlaying, setIsPaused, setGameStarted, setLoading,
    clearTimeoutRef, clearIntervalRef, setTimeout, setInterval.

Lemma preserving_saveColorScore (r : State) (mk : Shown -> Alert) :
  Preserving (saveColorScore r mk).
Proof.
  intros t m H.
  unfold saveColorScore, callInitializeUserProfile, callUpdateUserStats.
  open_setters. cbv zeta.
  destruct (initOk _); cbv beta iota zeta; [|preserve t].
  destruct (updateOk _); preserve t.
Qed.

Lemma preserving_endGame (r : State) : Preserving (endGame r).
Proof.
  intros t m H.
  unfold endGame, callInitializeUserProfile, callUpdateUserStats.
  open_setters. cbv zeta.
  destruct (currentUser _); [|preserve t].
  destruct (initOk _); cbv beta iota zeta; [|preserve t].
  destruct (challengeType _); [|preserve t].
  destruct (score r >? 0); [|preserve t].
  destruct (updateOk _); preserve t.
Qed.

Lemma preserving_resetColorGame : Preserving resetColorGame.
Proof. intros t m H. unfold resetColorGame. open_setters. preserve t. Qed.

Lemma preserving_endColorGame (r : State) : Preserving (endColorGame r).
Proof.
  intros t m H.
  unfold endColorGame, callInitializeUserProfile, callUpdateUserStats.
  open_setters. cbv zeta.
  destruct (currentUser _ && _);
    [|apply preserving_resetColorGame; preserve t].
  destruct (initOk _); cbv beta iota zeta; [|preserve t].
  destruct (updateOk _); preserve t.
Qed.

Lemma preserving_handleColorFail (r : State) : Preserving (handleColorFail r).
Proof.
  intros t m H. unfold handleColorFail. open_setters. cbv zeta.
  destruct (colorScore r >? 0); [|preserve t].
  destruct (currentUser _); [|preserve t].
  apply preserving_saveColorScore. preserve t.
Qed.

Lemma preserving_handleColorMiss (r : State) : Preserving (handleColorMiss r).
Proof.
  intros t m H. unfold handleColorMiss. open_setters. cbv zeta.
  destruct (colorScore r >? 0); [|preserve t].
  destruct (currentUser _); [|preserve t].
  apply preserving_saveColorScore. preserve t.
Qed.

Lemma preserving_turnGreen (r : State) : Preserving (turnGreen r).
Proof.
  intros t m H. unfold turnGreen. open_setters. cbv zeta.
  match goal with
  | |- Untouchable t (let (h, m0) := schedule ?d ?p ?c ?x in _) =>
      change (Untouchable t
                (put_refs (setSlot ColorTimerRef
                             (Some (fst (schedule d p c x)))
                             (refs (snd (schedule d p c x))))
                          (snd (schedule d p c x))))
  end.
  apply preserving_arm. preserve t.
Qed.

Lemma preserving_handleColorPress (r : State) :
  Preserving (handleColorPress r).
Proof.
  intros t m H. unfold handleColorPress.
  destruct (circleColor r); [apply preserving_handleColorFail; exact H|].
  destruct (truthy (greenTime r)); [|exact H].
  open_setters. cbv zeta.
  destruct (_ >=? _); preserve t.
Qed.

Lemma preserving_callback (c : Callback) : Preserving (run_callback c).
Proof.
  intros t m H. destruct c as [r | | id | r | r | r | n]; cbn [run_callback].
  - unfold countdownTick. open_setters.
    destruct (_ <=? 1); preserve t. apply preserving_endGame. exact H.
  - apply preserving_spawnTarget. exact H.
  - unfold expireTarget. preserve t.
  - apply preserving_turnGreen. exact H.
  - apply preserving_handleColorMiss. exact H.
  - apply preserving_endColorGame. exact H.
  - unfold nextRound. open_setters. preserve t.
Qed.

Lemma preserving_action (a : UserAction) : Preserving (handle_action a).
Proof.
  intros t m H. destruct a; cbn [handle_action].
  - unfold startGame. open_setters. cbv zeta.
    destruct (challengeType m); preserve t.
  - apply preserving_pauseGame. exact H.
  - apply preserving_resumeGame. exact H.
  - unfold handleTargetPress. preserve t.
  - apply preserving_handleColorPress. exact H.
  - unfold handleBack. preserve t.
  - unfold leaveGame. open_setters. preserve t.
  - unfold playAgain. open_setters. preserve t.
  - unfold tryAgain. open_setters. apply preserving_setState.
    apply preserving_resetColorGame. exact H.
  - unfold backToHome. open_setters. preserve t.
Qed.

Lemma In_rearm (u t : Timer) (l : list Timer) :
  In t l -> handle u <> handle t -> In t (rearm u l).
Proof.
  intros Hin Hne. unfold rearm. destruct (period u) as [p|].
  - apply in_map_iff. exists t. split; [|exact Hin].
    destruct (Pos.eqb (handle t) (handle u)) eqn:E; [|reflexivity].
    apply Pos.eqb_eq in E. congruence.
  - apply filter_In. split; [exact Hin|].
    destruct (Pos.eqb (handle t) (handle u)) eqn:E; [|reflexivity].
    apply Pos.eqb_eq in E. congruence.
Qed.

Lemma untouchable_step (e : Event) (t : Timer) (m m' : Machine) :
  Untouchable t m -> step e m = Some m' ->
  match e, next_timer (timers m) with
  | Fire, Some u => handle u <> handle t
  | _, _ => True
  end ->
  Untouchable t m'.
Proof.
  intros H Hs Hne. destruct e as [|dt a]; cbn [step] in Hs.
  - destruct (next_timer (timers m)) as [u|] eqn:En; [|discriminate].
    injection Hs as <-. unfold fire_timer.
    apply preserving_commit. apply preserving_callback.
    destruct H as (Hin & Hun & Hlt). split; [|split; assumption].
    cbn [timers put_timers put_now].
    apply In_rearm; [exact Hin | exact Hne].
  - destruct ((0 <=? dt) && _ && enabled a m); [|discriminate].
    injection Hs as <-.
    apply preserving_commit. apply preserving_action.
    apply preserving_put_now. exact H.
Qed.

(** X19. A timer without a handle cannot be cancelled. A pending timer
    whose handle is in none of the four refs (such as the removal timeout
    [spawnTarget] arms for every target) stays pending and stays
    unreachable through every run in which it is not itself the timer
    that fires: no start, pause, resume, tap, end of game, back, leave or
    unmount removes it. *)
Theorem untracked_timer_outlives_events (t : Timer) (es : list Event) :
  forall m m' : Machine,
    Untouchable t m -> run es m = Some m' -> neverFires (handle t) es m ->
    Untouchable t m'.
Proof.
  induction es as [|e es IH]; intros m m' H Hr Hn; cbn [run] in Hr.
  - injection Hr as <-. exact H.
  - cbn [neverFires] in Hn. destruct Hn as [Hn1 Hn2].
    destruct (step e m) as [m1|] eqn:Es; [|discriminate].
    apply (IH m1 m'); [|exact Hr | exact Hn2].
    exact (untouchable_step e t m m1 H Es Hn1).
Qed.

Lemma untracked_timer_outlives_events_witness :
  In expiryOfTarget0 (timers afterPauseThenLeave).
Proof.
  destruct (untracked_timer_outlives_events expiryOfTarget0
              [Act 1000 PauseBtn; Act 0 Back; Act 0 Leave]
              startedTarget afterPauseThenLeave) as (H & _).
  - split; [vm_compute; auto|].
    split; [intros k; destruct k; vm_compute; discriminate|].
    vm_compute. reflexivity.
  - vm_compute. reflexivity.
  - vm_compute. auto.
  - exact H.
Defined.

(** ** Pause followed by teardown: what is cancelled (C1) *)



Lemma mounted_unmount (m : Machine) : mounted (unmount m) = false.
Proof.
  unfold unmount. destruct (mounted m) eqn:E; [reflexivity | exact E].
Qed.






(** ** Counters stay within their ranges *)

Lemma ranged_frame (m m' : Machine) :
  st m' = st m -> timers m' = timers m -> Ranged m -> Ranged m'.
Proof. unfold Ranged. intros -> ->. exact (fun H => H). Qed.

Lemma ranged_setState (f : State -> State) (m : Machine) :
  (forall s, inRange s -> inRange (f s)) ->
  Ranged m -> Ranged (setState f m).
Proof.
  intros Hf [H1 H2]. unfold setState. destruct (mounted m); [|split; assumption].
  split; [apply Hf; exact H1 | exact H2].
Qed.

Lemma ranged_clearRef (k : Slot) (m : Machine) :
  Ranged m -> Ranged (clearRef k m).
Proof.
  intros [H1 H2]. split.
  - unfold clearRef. destruct (getSlot k (refs m)); exact H1.
  - rewrite timers_clearRef. destruct (getSlot k (refs m)); [|exact H2].
    apply Forall_forall. intros t Ht. apply filter_In in Ht.
    rewrite Forall_forall in H2. apply H2. apply Ht.
Qed.

Lemma ranged_schedule (c : Callback) (d : Z) (p : option Z) (m : Machine) :
  roundOk c -> Ranged m -> Ranged (snd (schedule d p c m)).
Proof.
  intros Hc [H1 H2]. split; [exact H1|]. cbn.
  apply Forall_app. split; [exact H2|]. constructor; [exact Hc | constructor].
Qed.

Lemma ranged_arm (k : Slot) (c : Callback) (d : Z) (p : option Z)
  (m : Machine) :
  roundOk c -> Ranged m ->
  Ranged (let (h, m0) := schedule d p c m in
          put_refs (setSlot k (Some h) (refs m0)) m0).
Proof.
  intros Hc H.
  apply (ranged_frame (snd (schedule d p c m))); try reflexivity.
  apply ranged_schedule; assumption.
Qed.

Lemma ranged_frame_fn (f : Machine -> Machine) :
  (forall m, st (f m) = st m /\ timers (f m) = timers m) ->
  forall m, Ranged m -> Ranged (f m).
Proof.
  intros H m. destruct (H m) as [H1 H2]. apply ranged_frame; assumption.
Qed.

Lemma ranged_setRoundInProgress (x : bool) (m : Machine) :
  Ranged m -> Ranged (setRoundInProgress x m).
Proof. apply (ranged_frame_fn (setRoundInProgress x)). intros m0. split; reflexivity. Qed.

Lemma ranged_pushAlert (x : Alert) (m : Machine) :
  Ranged m -> Ranged (pushAlert x m).
Proof. apply (ranged_frame_fn (pushAlert x)). intros m0. split; reflexivity. Qed.

Lemma ranged_put_stats (x : option Stats) (m : Machine) :
  Ranged m -> Ranged (put_stats x m).
Proof. apply (ranged_frame_fn (put_stats x)). intros m0. split; reflexivity. Qed.

Lemma ranged_put_reports (x : list Z) (m : Machine) :
  Ranged m -> Ranged (put_reports x m).
Proof. apply (ranged_frame_fn (put_reports x)). intros m0. split; reflexivity. Qed.

Lemma ranged_put_mounted (x : bool) (m : Machine) :
  Ranged m -> Ranged (put_mounted x m).
Proof. apply (ranged_frame_fn (put_mounted x)). intros m0. split; reflexivity. Qed.

Lemma ranged_put_now (x : Z) (m : Machine) :
  Ranged m -> Ranged (put_now x m).
Proof. apply (ranged_frame_fn (put_now x)). intros m0. split; reflexivity. Qed.

Lemma ranged_put_refs (x : Refs) (m : Machine) :
  Ranged m -> Ranged (put_refs x m).
Proof. apply (ranged_frame_fn (put_refs x)). intros m0. split; reflexivity. Qed.

Lemma ranged_put_rix (x : nat) (m : Machine) :
  Ranged m -> Ranged (put_rix x m).
Proof. apply (ranged_frame_fn (put_rix x)). intros m0. split; reflexivity. Qed.

Lemma ranged_put_eff1 (x : State) (m : Machine) :
  Ranged m -> Ranged (put_eff1 x m).
Proof. apply (ranged_frame_fn (put_eff1 x)). intros m0. split; reflexivity. Qed.

Lemma ranged_put_eff2 (x : State) (m : Machine) :
  Ranged m -> Ranged (put_eff2 x m).
Proof. apply (ranged_frame_fn (put_eff2 x)). intros m0. split; reflexivity. Qed.

Lemma ranged_put_eff3 (x : State) (m : Machine) :
  Ranged m -> Ranged (put_eff3 x m).
Proof. apply (ranged_frame_fn (put_eff3 x)). intros m0. split; reflexivity. Qed.

Ltac ranged_step :=
  match goal with
  | H : Ranged ?m |- Ranged ?m => exact H
  | |- Ranged (setState _ _) =>
      apply ranged_setState; [try (intros ? ?; assumption)|]
  | |- Ranged (clearRef _ _) => apply ranged_clearRef
  | |- Ranged (snd (schedule _ _ _ _)) =>
      apply ranged_schedule; [try exact I|]
  | |- Ranged (let (h, m0) := schedule _ _ _ _ in _) =>
      apply ranged_arm; [try exact I|]
  | |- Ranged (setRoundInProgress _ _) => apply ranged_setRoundInProgress
  | |- Ranged (pushAlert _ _) => apply ranged_pushAlert
  | |- Ranged (put_stats _ _) => apply ranged_put_stats
  | |- Ranged (put_reports _ _) => apply ranged_put_reports
  | |- Ranged (put_mounted _ _) => apply ranged_put_mounted
  | |- Ranged (put_now _ _) => apply ranged_put_now
  | |- Ranged (put_refs _ _) => apply ranged_put_refs
  | |- Ranged (put_rix _ _) => apply ranged_put_rix
  | |- Ranged (put_eff1 _ _) => apply ranged_put_eff1
  | |- Ranged (put_eff2 _ _) => apply ranged_put_eff2
  | |- Ranged (put_eff3 _ _) => apply ranged_put_eff3
  | |- Ranged (if ?c then _ else _) => destruct c eqn:?
  | |- Ranged (match ?c with Red => _ | Green => _ end) => destruct c eqn:?
  | |- Ranged (match ?c with TargetGame => _ | ColorGame => _ end) =>
      destruct c eqn:?
  | |- _ => progress cbv beta iota zeta
  end.

Ltac ranged := repeat ranged_step.

Ltac open_calls :=
  unfold callInitializeUserProfile, callUpdateUserStats; open_setters;
  cbv zeta.

Lemma ranged_spawnTarget (m : Machine) : Ranged m -> Ranged (spawnTarget m).
Proof.
  intros H. unfold spawnTarget, draw. open_setters. cbn [fst snd]. ranged.
Qed.

Lemma ranged_startColorRound (r : State) (m : Machine) :
  Ranged m -> Ranged (startColorRound r m).
Proof.
  intros H. unfold startColorRound, draw. open_setters. ranged.
Qed.

Lemma ranged_unmount (m : Machine) : Ranged m -> Ranged (unmount m).
Proof.
  intros H. unfold unmount, cleanup1, cleanup2, cleanup3. open_setters.
  ranged.
Qed.

Lemma ranged_commit (m : Machine) : Ranged m -> Ranged (commit m).
Proof.
  intros H. unfold commit. destruct (mounted m); [|exact H]. cbv zeta.
  unfold cleanup1, cleanup2, cleanup3, effect1, effect2, effect3.
  open_setters.
  repeat match goal with
         | |- Ranged (spawnTarget _) => apply ranged_spawnTarget
         | |- Ranged (startColorRound _ _) => apply ranged_startColorRound
         | |- _ => ranged_step
         end.
Qed.

Lemma ranged_resetColorGame (m : Machine) :
  Ranged m -> Ranged (resetColorGame m).
Proof.
  intros H. unfold resetColorGame. open_setters. ranged;
    intros s; unfold inRange, MAX_COLOR_ROUNDS; cbn; intros (? & ? & ? & ?);
    repeat split; lia.
Qed.

Lemma ranged_saveColorScore (r : State) (mk : Shown -> Alert) (m : Machine) :
  Ranged m -> Ranged (saveColorScore r mk m).
Proof.
  intros H. unfold saveColorScore. open_calls.
  destruct (initOk _); cbv beta iota zeta; [|ranged].
  destruct (updateOk _); ranged.
Qed.

Lemma ranged_endGame (r : State) (m : Machine) :
  Ranged m -> Ranged (endGame r m).
Proof.
  intros H. unfold endGame. open_calls.
  destruct (currentUser _); [|ranged].
  destruct (initOk _); cbv beta iota zeta; [|ranged].
  destruct (challengeType _); [|ranged].
  destruct (score r >? 0); [|ranged].
  destruct (updateOk _); ranged.
Qed.

Lemma ranged_endColorGame (r : State) (m : Machine) :
  Ranged m -> Ranged (endColorGame r m).
Proof.
  intros H. unfold endColorGame. open_calls.
  destruct (currentUser _ && _);
    [|apply ranged_resetColorGame; ranged].
  destruct (initOk _); cbv beta iota zeta; [|ranged].
  destruct (updateOk _); ranged.
Qed.

Lemma ranged_handleColorFail (r : State) (m : Machine) :
  Ranged m -> Ranged (handleColorFail r m).
Proof.
  intros H. unfold handleColorFail. open_setters. cbv zeta.
  destruct (colorScore r >? 0); [|ranged].
  destruct (currentUser _); [|ranged].
  apply ranged_saveColorScore. ranged.
Qed.

Lemma ranged_handleColorMiss (r : State) (m : Machine) :
  Ranged m -> Ranged (handleColorMiss r m).
Proof.
  intros H. unfold handleColorMiss. open_setters. cbv zeta.
  destruct (colorScore r >? 0); [|ranged].
  destruct (currentUser _); [|ranged].
  apply ranged_saveColorScore. ranged.
Qed.

Lemma inRange_add_points (l : Z) (s : State) :
  inRange s ->
  inRange (with_colorScore (colorScore s + calculateReactionScore l) s).
Proof.
  unfold inRange. cbn. intros (? & ? & ? & ?).
  pose proof (calculateReactionScore_nonneg l). repeat split; lia.
Qed.

Lemma ranged_handleColorPress (m : Machine) :
  Ranged m -> Ranged (handleColorPress (st m) m).
Proof.
  intros H. pose proof H as [(_ & _ & Hk & _) _].
  unfold handleColorPress.
  destruct (circleColor (st m)); [apply ranged_handleColorFail; exact H|].
  destruct (truthy (greenTime (st m))); [|exact H].
  open_setters. cbv zeta.
  destruct (roundsCompleted (st m) + 1 >=? MAX_COLOR_ROUNDS) eqn:E.
  - ranged; apply inRange_add_points.
  - apply ranged_schedule.
    { cbn. rewrite Z.geb_leb in E. apply Z.leb_gt in E. lia. }
    ranged; apply inRange_add_points.
Qed.

Lemma next_timer_In (l : list Timer) (t : Timer) :
  next_timer l = Some t -> In t l.
Proof.
  revert t. induction l as [|u l IH]; intros t; cbn; [discriminate|].
  destruct (next_timer l) as [v|].
  - destruct (due v <? due u); intros E; injection E as <-;
      [right; apply IH; reflexivity | left; reflexivity].
  - intros E. injection E as <-. left. reflexivity.
Qed.

Lemma ranged_callback (t : Timer) (m : Machine) :
  roundOk (cb t) -> Ranged m -> Ranged (run_callback (cb t) m).
Proof.
  intros Hc H. pose proof H as [(_ & Htl & _ & _) _].
  destruct (cb t) as [r | | id | r | r | r | n]; cbn [run_callback].
  - unfold countdownTick. open_setters.
    destruct (timeLeft (st m) <=? 1) eqn:E.
    + apply ranged_setState; [|apply ranged_endGame; exact H].
      intros s. unfold inRange, GAME_DURATION. cbn. intros (? & ? & ? & ?).
      repeat split; lia.
    + apply ranged_setState; [|exact H].
      apply Z.leb_gt in E. unfold GAME_DURATION in Htl.
      intros s. unfold inRange, GAME_DURATION. cbn. intros (? & ? & ? & ?).
      repeat split; lia.
  - apply ranged_spawnTarget. exact H.
  - unfold expireTarget. ranged.
  - unfold turnGreen. open_setters. ranged.
  - apply ranged_handleColorMiss. exact H.
  - apply ranged_endColorGame. exact H.
  - unfold nextRound. open_setters. ranged.
    cbn in Hc. intros s. unfold inRange. cbn. intros (? & ? & ? & ?).
    repeat split; lia.
Qed.

Lemma ranged_action (a : UserAction) (m : Machine) :
  Ranged m -> Ranged (handle_action a m).
Proof.
  intros H. destruct a; cbn [handle_action].
  - unfold startGame. open_setters. cbv zeta.
    destruct (challengeType m); ranged;
      intros s; unfold inRange, GAME_DURATION, MAX_COLOR_ROUNDS; cbn;
      intros (? & ? & ? & ?); repeat split; lia.
  - unfold pauseGame. open_setters. cbv zeta.
    destruct (challengeType _); ranged.
  - unfold resumeGame. open_setters. ranged.
  - unfold handleTargetPress. ranged.
    intros s. unfold inRange. cbn. intros (? & ? & ? & ?). repeat split; lia.
  - apply ranged_handleColorPress. exact H.
  - unfold handleBack. destruct (isPlaying (st m));
      [ranged | apply ranged_unmount; exact H].
  - unfold leaveGame. open_setters. apply ranged_unmount. ranged.
  - unfold playAgain. open_setters. ranged.
  - unfold tryAgain. open_setters. apply ranged_setState;
      [intros ? ?; assumption|]. apply ranged_resetColorGame. exact H.
  - unfold backToHome. open_setters. apply ranged_setState;
      [intros ? ?; assumption|]. apply ranged_unmount. exact H.
Qed.

Lemma ranged_rearm (t : Timer) (l : list Timer) :
  Forall (fun u => roundOk (cb u)) l ->
  Forall (fun u => roundOk (cb u)) (rearm t l).
Proof.
  intros H. unfold rearm. destruct (period t).
  - apply Forall_forall. intros u Hu. apply in_map_iff in Hu.
    destruct Hu as (v & <- & Hv). rewrite Forall_forall in H.
    destruct (Pos.eqb (handle v) (handle t)); cbn; apply H; exact Hv.
  - apply Forall_forall. intros u Hu. apply filter_In in Hu.
    rewrite Forall_forall in H. apply H. apply Hu.
Qed.

Lemma ranged_step_event (e : Event) (m m' : Machine) :
  Ranged m -> step e m = Some m' -> Ranged m'.
Proof.
  intros H Hs. destruct e as [|dt a]; cbn [step] in Hs.
  - destruct (next_timer (timers m)) as [t|] eqn:En; [|discriminate].
    injection Hs as <-. unfold fire_timer.
    apply ranged_commit. apply ranged_callback.
    + destruct H as [_ Ht]. rewrite Forall_forall in Ht.
      apply Ht. apply next_timer_In. exact En.
    + destruct H as [Hr Ht]. split; [exact Hr|].
      cbn [timers put_timers put_now]. apply ranged_rearm. exact Ht.
  - destruct ((0 <=? dt) && _ && enabled a m); [|discriminate].
    injection Hs as <-.
    apply ranged_commit. apply ranged_action. apply ranged_put_now. exact H.
Qed.

Lemma ranged_mount (ty : ChallengeType) (user : bool) (oracle : nat -> Z) :
  Ranged (mount ty user oracle).
Proof.
  destruct ty; (split; [|cbv; constructor]);
    cbv; repeat split; congruence.
Qed.

(** X20. Counters stay within their ranges. In every state a run
    reaches from a freshly mounted screen, in either mode, the score is
    not negative, the time left is between 0 and [GAME_DURATION], the
    round counter is at least 0 and below [MAX_COLOR_ROUNDS] (it never
    reaches 10), and the colour score is not negative. *)
Theorem counters_stay_in_range
  (ty : ChallengeType) (user : bool) (oracle : nat -> Z) (es : list Event)
  (m : Machine) :
  run es (mount ty user oracle) = Some m ->
  0 <= score (st m) /\
  0 <= timeLeft (st m) <= GAME_DURATION /\
  0 <= roundsCompleted (st m) < MAX_COLOR_ROUNDS /\
  0 <= colorScore (st m).
Proof.
  intros Hr.
  assert (H : Ranged m).
  { revert Hr. generalize (ranged_mount ty user oracle).
    generalize (mount ty user oracle). revert m.
    induction es as [|e es IH]; intros m m0 H0 Hr; cbn [run] in Hr.
    - injection Hr as <-. exact H0.
    - destruct (step e m0) as [m1|] eqn:Es; [|discriminate].
      apply (IH m m1); [|exact Hr].
      exact (ranged_step_event e m0 m1 H0 Es). }
  exact (proj1 H).
Qed.

Lemma counters_stay_in_range_witness :
  0 <= roundsCompleted (st afterSignedOutSession) < MAX_COLOR_ROUNDS /\
  0 <= colorScore (st afterSignedOutSession).
Proof.
  destruct (counters_stay_in_range ColorGame false oracle0 signedOutSession
              afterSignedOutSession) as (_ & _ & H1 & H2).
  - vm_compute. reflexivity.
  - split; assumption.
Defined.

(** ** Target ids are unique *)

Lemma tidy_frame (m m' : Machine) :
  st m' = st m -> targetIdRef (refs m') = targetIdRef (refs m) ->
  Tidy m -> Tidy m'.
Proof. unfold Tidy. intros -> ->. exact (fun H => H). Qed.

Lemma tidy_frame_fn (f : Machine -> Machine) :
  (forall m, st (f m) = st m /\
             targetIdRef (refs (f m)) = targetIdRef (refs m)) ->
  forall m, Tidy m -> Tidy (f m).
Proof.
  intros H m. destruct (H m) as [H1 H2]. apply tidy_frame; assumption.
Qed.

Lemma tidy_setState (f : State -> State) (m : Machine) :
  (forall n s, idsOk n s -> idsOk n (f s)) ->
  Tidy m -> Tidy (setState f m).
Proof.
  intros Hf [H1 H2]. unfold setState.
  destruct (mounted m); [|split; assumption].
  split; [apply Hf; exact H1 | exact H2].
Qed.

Lemma tidy_clearRef (k : Slot) (m : Machine) : Tidy m -> Tidy (clearRef k m).
Proof.
  apply tidy_frame; unfold clearRef;
    destruct (getSlot k (refs m)); try reflexivity; destruct k; reflexivity.
Qed.

Lemma tidy_schedule (c : Callback) (d : Z) (p : option Z) (m : Machine) :
  Tidy m -> Tidy (snd (schedule d p c m)).
Proof. apply tidy_frame; reflexivity. Qed.

Lemma tidy_arm (k : Slot) (c : Callback) (d : Z) (p : option Z)
  (m : Machine) :
  Tidy m ->
  Tidy (let (h, m0) := schedule d p c m in
        put_refs (setSlot k (Some h) (refs m0)) m0).
Proof. apply tidy_frame; [reflexivity | destruct k; reflexivity]. Qed.

Lemma tidy_setRoundInProgress (x : bool) (m : Machine) :
  Tidy m -> Tidy (setRoundInProgress x m).
Proof. apply tidy_frame; reflexivity. Qed.

Lemma tidy_pushAlert (x : Alert) (m : Machine) :
  Tidy m -> Tidy (pushAlert x m).
Proof. apply tidy_frame; reflexivity. Qed.

Lemma tidy_put_stats (x : option Stats) (m : Machine) :
  Tidy m -> Tidy (put_stats x m).
Proof. apply tidy_frame; reflexivity. Qed.

Lemma tidy_put_reports (x : list Z) (m : Machine) :
  Tidy m -> Tidy (put_reports x m).
Proof. apply tidy_frame; reflexivity. Qed.

Lemma tidy_put_mounted (x : bool) (m : Machine) :
  Tidy m -> Tidy (put_mounted x m).
Proof. apply tidy_frame; reflexivity. Qed.

Lemma tidy_put_now (x : Z) (m : Machine) : Tidy m -> Tidy (put_now x m).
Proof. apply tidy_frame; reflexivity. Qed.

Lemma tidy_put_timers (x : list Timer) (m : Machine) :
  Tidy m -> Tidy (put_timers x m).
Proof. apply tidy_frame; reflexivity. Qed.

Lemma tidy_put_eff1 (x : State) (m : Machine) : Tidy m -> Tidy (put_eff1 x m).
Proof. apply tidy_frame; reflexivity. Qed.

Lemma tidy_put_eff2 (x : State) (m : Machine) : Tidy m -> Tidy (put_eff2 x m).
Proof. apply tidy_frame; reflexivity. Qed.

Lemma tidy_put_eff3 (x : State) (m : Machine) : Tidy m -> Tidy (put_eff3 x m).
Proof. apply tidy_frame; reflexivity. Qed.

Lemma liveIds_removeTarget (id : Z) (l : list Target) :
  map t_id (removeTarget id l)
  = filter (fun i => negb (i =? id)) (map t_id l).
Proof.
  unfold removeTarget. induction l as [|t l IH]; cbn; [reflexivity|].
  destruct (negb (t_id t =? id)); cbn; rewrite IH; reflexivity.
Qed.

Lemma idsOk_removeTarget (id n : Z) (s : State) :
  idsOk n s -> idsOk n (with_targets (removeTarget id (targets s)) s).
Proof.
  unfold idsOk, liveIds. cbn [targets with_targets].
  rewrite liveIds_removeTarget. intros [H1 H2]. split.
  - apply NoDup_filter. exact H1.
  - rewrite Forall_forall in *. intros i Hi. apply filter_In in Hi.
    apply H2. apply Hi.
Qed.

Lemma idsOk_no_targets (n : Z) (s : State) : idsOk n (with_targets [] s).
Proof. split; constructor. Qed.

Lemma tidy_spawnTarget (m : Machine) : Tidy m -> Tidy (spawnTarget m).
Proof.
  intros [[H1 H2] H3]. unfold spawnTarget, draw. cbv zeta.
  cbn [fst snd]. apply tidy_schedule.
  unfold setState. cbn [mounted put_rix put_refs].
  destruct (mounted m).
  - unfold Tidy, idsOk, liveIds.
    cbn [st refs put_st put_rix put_refs targets with_targets targetIdRef
         setTargetId].
    rewrite map_app. cbn [map t_id].
    split; [split|lia].
    + apply NoDup_app; [exact H1 | repeat constructor; tauto |].
      intros i Hi [<-|[]]. rewrite Forall_forall in H2.
      specialize (H2 _ Hi). lia.
    + apply Forall_app. split.
      * eapply Forall_impl; [|exact H2]. cbn. intros i Hi. lia.
      * repeat constructor; lia.
  - unfold Tidy, idsOk.
    cbn [st refs put_rix put_refs targetIdRef setTargetId].
    split; [split; [exact H1|]|lia].
    eapply Forall_impl; [|exact H2]. cbn. intros i Hi. lia.
Qed.

Ltac tidy_step :=
  match goal with
  | H : Tidy ?m |- Tidy ?m => exact H
  | |- Tidy (setState _ _) =>
      apply tidy_setState;
      [first [ intros ? ? ?; assumption
             | intros ? ?; apply idsOk_removeTarget
             | intros ? ? ?; apply idsOk_no_targets ]|]
  | |- Tidy (clearRef _ _) => apply tidy_clearRef
  | |- Tidy (spawnTarget _) => apply tidy_spawnTarget
  | |- Tidy (snd (schedule _ _ _ _)) => apply tidy_schedule
  | |- Tidy (let (h, m0) := schedule _ _ _ _ in _) => apply tidy_arm
  | |- Tidy (setRoundInProgress _ _) => apply tidy_setRoundInProgress
  | |- Tidy (pushAlert _ _) => apply tidy_pushAlert
  | |- Tidy (put_stats _ _) => apply tidy_put_stats
  | |- Tidy (put_reports _ _) => apply tidy_put_reports
  | |- Tidy (put_mounted _ _) => apply tidy_put_mounted
  | |- Tidy (put_now _ _) => apply tidy_put_now
  | |- Tidy (put_timers _ _) => apply tidy_put_timers
  | |- Tidy (put_eff1 _ _) => apply tidy_put_eff1
  | |- Tidy (put_eff2 _ _) => apply tidy_put_eff2
  | |- Tidy (put_eff3 _ _) => apply tidy_put_eff3
  | |- Tidy (if ?c then _ else _) => destruct c eqn:?
  | |- Tidy (match ?c with Red => _ | Green => _ end) => destruct c eqn:?
  | |- Tidy (match ?c with TargetGame => _ | ColorGame => _ end) =>
      destruct c eqn:?
  | |- _ => progress cbv beta iota zeta
  end.

Ltac tidy := repeat tidy_step.

Lemma tidy_startColorRound (r : State) (m : Machine) :
  Tidy m -> Tidy (startColorRound r m).
Proof.
  intros H. unfold startColorRound, draw. open_setters.
  repeat match goal with
         | |- Tidy (put_rix _ ?x) =>
             apply (tidy_frame x); [reflexivity | reflexivity |]
         | |- _ => tidy_step
         end.
Qed.

Lemma tidy_unmount (m : Machine) : Tidy m -> Tidy (unmount m).
Proof.
  intros H. unfold unmount, cleanup1, cleanup2, cleanup3. open_setters.
  tidy.
Qed.

Lemma tidy_commit (m : Machine) : Tidy m -> Tidy (commit m).
Proof.
  intros H. unfold commit. destruct (mounted m); [|exact H]. cbv zeta.
  unfold cleanup1, cleanup2, cleanup3, effect1, effect2, effect3.
  open_setters.
  repeat match goal with
         | |- Tidy (startColorRound _ _) => apply tidy_startColorRound
         | |- _ => tidy_step
         end.
Qed.

Lemma tidy_resetColorGame (m : Machine) : Tidy m -> Tidy (resetColorGame m).
Proof. intros H. unfold resetColorGame. open_setters. tidy. Qed.

Lemma tidy_saveColorScore (r : State) (mk : Shown -> Alert) (m : Machine) :
  Tidy m -> Tidy (saveColorScore r mk m).
Proof.
  intros H. unfold saveColorScore. open_calls.
  destruct (initOk _); cbv beta iota zeta; [|tidy].
  destruct (updateOk _); tidy.
Qed.

Lemma tidy_endGame (r : State) (m : Machine) : Tidy m -> Tidy (endGame r m).
Proof.
  intros H. unfold endGame. open_calls.
  destruct (currentUser _); [|tidy].
  destruct (initOk _); cbv beta iota zeta; [|tidy].
  destruct (challengeType _); [|tidy].
  destruct (score r >? 0); [|tidy].
  destruct (updateOk _); tidy.
Qed.

Lemma tidy_endColorGame (r : State) (m : Machine) :
  Tidy m -> Tidy (endColorGame r m).
Proof.
  intros H. unfold endColorGame. open_calls.
  destruct (currentUser _ && _); [|apply tidy_resetColorGame; tidy].
  destruct (initOk _); cbv beta iota zeta; [|tidy].
  destruct (updateOk _); tidy.
Qed.

Lemma tidy_handleColorFail (r : State) (m : Machine) :
  Tidy m -> Tidy (handleColorFail r m).
Proof.
  intros H. unfold handleColorFail. open_setters. cbv zeta.
  destruct (colorScore r >? 0); [|tidy].
  destruct (currentUser _); [|tidy].
  apply tidy_saveColorScore. tidy.
Qed.

Lemma tidy_handleColorMiss (r : State) (m : Machine) :
  Tidy m -> Tidy (handleColorMiss r m).
Proof.
  intros H. unfold handleColorMiss. open_setters. cbv zeta.
  destruct (colorScore r >? 0); [|tidy].
  destruct (currentUser _); [|tidy].
  apply tidy_saveColorScore. tidy.
Qed.

Lemma tidy_handleColorPress (r : State) (m : Machine) :
  Tidy m -> Tidy (handleColorPress r m).
Proof.
  intros H. unfold handleColorPress.
  destruct (circleColor r); [apply tidy_handleColorFail; exact H|].
  destruct (truthy (greenTime r)); [|exact H].
  open_setters. cbv zeta.
  destruct (_ >=? _); tidy.
Qed.

Lemma tidy_callback (c : Callback) (m : Machine) :
  Tidy m -> Tidy (run_callback c m).
Proof.
  intros H. destruct c as [r | | id | r | r | r | n]; cbn [run_callback].
  - unfold countdownTick. open_setters.
    destruct (_ <=? 1); tidy. apply tidy_endGame. exact H.
  - apply tidy_spawnTarget. exact H.
  - unfold expireTarget. tidy.
  - unfold turnGreen. open_setters. tidy.
  - apply tidy_handleColorMiss. exact H.
  - apply tidy_endColorGame. exact H.
  - unfold nextRound. open_setters. tidy.
Qed.

Lemma tidy_action (a : UserAction) (m : Machine) :
  Tidy m -> Tidy (handle_action a m).
Proof.
  intros H. destruct a; cbn [handle_action].
  - unfold startGame. open_setters. cbv zeta.
    destruct (challengeType m); tidy.
  - unfold pauseGame. open_setters. cbv zeta.
    destruct (challengeType _); tidy.
  - unfold resumeGame. open_setters. tidy.
  - unfold handleTargetPress. tidy.
  - apply tidy_handleColorPress. exact H.
  - unfold handleBack. destruct (isPlaying (st m));
      [tidy | apply tidy_unmount; exact H].
  - unfold leaveGame. open_setters. apply tidy_unmount. tidy.
  - unfold playAgain. open_setters. tidy.
  - unfold tryAgain. open_setters. apply tidy_setState;
      [intros ? ? ?; assumption|]. apply tidy_resetColorGame. exact H.
  - unfold backToHome. open_setters. apply tidy_setState;
      [intros ? ? ?; assumption|]. apply tidy_unmount. exact H.
Qed.

Lemma tidy_step_event (e : Event) (m m' : Machine) :
  Tidy m -> step e m = Some m' -> Tidy m'.
Proof.
  intros H Hs. destruct e as [|dt a]; cbn [step] in Hs.
  - destruct (next_timer (timers m)) as [t|]; [|discriminate].
    injection Hs as <-. unfold fire_timer.
    apply tidy_commit, tidy_callback, tidy_put_timers, tidy_put_now.
    exact H.
  - destruct ((0 <=? dt) && _ && enabled a m); [|discriminate].
    injection Hs as <-.
    apply tidy_commit, tidy_action, tidy_put_now. exact H.
Qed.

Lemma tidy_mount (ty : ChallengeType) (user : bool) (oracle : nat -> Z) :
  Tidy (mount ty user oracle).
Proof.
  destruct ty; (split; [split; cbv; constructor | cbv; congruence]).
Qed.

Lemma length_removeTarget (id : Z) (l : list Target) :
  NoDup (map t_id l) -> In id (map t_id l) ->
  (length (removeTarget id l) + 1 = length l)%nat.
Proof.
  unfold removeTarget. induction l as [|t l IH]; cbn; [tauto|].
  intros Hnd Hin. inversion Hnd as [|? ? Hnot Hnd']; subst.
  destruct (Z.eqb_spec (t_id t) id) as [E|E]; cbn.
  - assert (Hf : filter (fun t0 => negb (t_id t0 =? id)) l = l).
    { apply forallb_filter_id. apply forallb_forall. intros u Hu.
      destruct (Z.eqb_spec (t_id u) id) as [E'|E']; [|reflexivity].
      exfalso. apply Hnot. rewrite E, <- E'. apply in_map. exact Hu. }
    rewrite Hf. lia.
  - destruct Hin as [Hin|Hin]; [contradiction|].
    rewrite <- (IH Hnd' Hin). lia.
Qed.

(** X21. Target ids are unique. In every state a run reaches from a
    freshly mounted screen the targets on screen have pairwise distinct
    ids, each at least 0 and below the id counter [targetIdRef]; so a tap
    on a target that is on screen removes exactly one target. *)
Theorem target_ids_unique
  (ty : ChallengeType) (user : bool) (oracle : nat -> Z) (es : list Event)
  (m : Machine) :
  run es (mount ty user oracle) = Some m ->
  NoDup (liveIds (st m)) /\
  Forall (fun id => 0 <= id < targetIdRef (refs m)) (liveIds (st m)) /\
  forall id, mounted m = true -> In id (liveIds (st m)) ->
    (length (liveIds (st (handleTargetPress id m))) + 1
     = length (liveIds (st m)))%nat.
Proof.
  intros Hr.
  assert (H : Tidy m).
  { revert Hr. generalize (tidy_mount ty user oracle).
    generalize (mount ty user oracle). revert m.
    induction es as [|e es IH]; intros m m0 H0 Hr; cbn [run] in Hr.
    - injection Hr as <-. exact H0.
    - destruct (step e m0) as [m1|] eqn:Es; [|discriminate].
      apply (IH m m1); [|exact Hr].
      exact (tidy_step_event e m0 m1 H0 Es). }
  destruct H as [[H1 H2] _].
  split; [exact H1|]. split; [exact H2|].
  intros id Hm Hin. unfold handleTargetPress, setState.
  rewrite Hm. cbn [mounted put_st]. rewrite Hm.
  unfold liveIds in *. cbn [st put_st targets with_targets with_score].
  rewrite !length_map. apply length_removeTarget; assumption.
Qed.

Lemma target_ids_unique_witness :
  NoDup (liveIds (st startedTarget)) /\
  (length (liveIds (st (handleTargetPress 0 startedTarget))) + 1
   = length (liveIds (st startedTarget)))%nat.
Proof.
  destruct (target_ids_unique TargetGame true oracle0 [Act 0 Start]
              startedTarget) as (H1 & _ & H3).
  - vm_compute. reflexivity.
  - split; [exact H1|]. apply H3; [reflexivity|]. left. reflexivity.
Defined.

(** ** Faster is never worse *)



